(** * checkly-go-sdk: the client's request/response core

    A shallow embedding of [checkly.go]: the resource operations built on
    [apiCall], the query builder ([GetCheckResults],
    [withAutoAssignAlertsFlag]) and the alert-channel codec
    ([payloadFromAlertChannel], [alertChannelFromJSON]), together with the
    parts of the Go standard library whose behaviour the code relies on
    ([fmt], [strconv], [net/url], [encoding/json]). *)

From Stdlib Require Import ZArith Lia String Ascii List Bool DecimalString.
From stdpp Require Import gmap strings.

Local Open Scope string_scope.
Local Open Scope Z_scope.

(** ** Results of Go calls *)

(** A Go [error] is observed through its message only. *)
Definition error := string.

(** [(T, error)] as returned by the standard library. *)
Inductive result (A : Type) : Type :=
| OK (a : A)
| Err (e : error).
Arguments OK {A} a.
Arguments Err {A} e.

(** What a call of this package does: it returns a value with a nil error,
    returns a non-nil error, or panics (a failed type assertion). *)
Inductive outcome (A : Type) : Type :=
| Ret (a : A)
| Fail (e : error)
| Panic.
Arguments Ret {A} a.
Arguments Fail {A} e.
Arguments Panic {A}.

#[global] Instance outcome_ret : MRet outcome := fun A a => Ret a.
#[global] Instance outcome_bind : MBind outcome := fun A B k x =>
  match x with
  | Ret a => k a
  | Fail e => Fail e
  | Panic => Panic
  end.

#[global] Instance outcome_fmap : FMap outcome := fun A B f x =>
  match x with
  | Ret a => Ret (f a)
  | Fail e => Fail e
  | Panic => Panic
  end.

(** ** Bytes and text *)

Module GoString.

Definition byte (c : ascii) : Z := Z.of_N (N_of_ascii c).
Definition char (b : Z) : ascii := ascii_of_N (Z.to_N b).

(** The double quote and the backslash, which a string literal of this
    file cannot hold directly. *)
Definition dquote : ascii := char 34.
Definition backslash : ascii := char 92.

(** [strings.Contains(s, substr)]. *)
Fixpoint Contains (s substr : string) : bool :=
  String.prefix substr s ||
  match s with
  | EmptyString => false
  | String _ s' => Contains s' substr
  end.

(** [%d] of an integer: decimal digits, with a minus sign when negative. *)
Definition Itoa (n : Z) : string := NilZero.string_of_int (Z.to_int n).

Definition hexdigit (upper : bool) (d : Z) : ascii :=
  if d <? 10 then char (48 + d)
  else if upper then char (55 + d) else char (87 + d).

(** Two hexadecimal digits of a byte. *)
Definition hex2 (upper : bool) (b : Z) : string :=
  String (hexdigit upper (Z.shiftr b 4))
    (String (hexdigit upper (Z.land b 15)) EmptyString).

Fixpoint hexN (upper : bool) (digits : nat) (r : Z) : string :=
  match digits with
  | O => EmptyString
  | S k => hexN upper k (Z.shiftr r 4) +:+
           String (hexdigit upper (Z.land r 15)) EmptyString
  end.

End GoString.

(** ** [unicode/utf8] and [strconv.Quote] *)

Module strconv.
Import GoString.

Definition RuneError : Z := 65533.

Definition between (lo hi b : Z) : bool := (lo <=? b) && (b <=? hi).

(** [utf8.DecodeRuneInString] at a first byte [b0 >= 0x80] followed by
    [rest]: the rune and its width; [(RuneError, 1)] for an encoding that
    is invalid, too short, overlong or a surrogate. *)
Definition DecodeRune (b0 : Z) (rest : list Z) : Z * nat :=
  let cont b := Z.land b 63 in
  if between 194 223 b0 then
    match rest with
    | b1 :: _ =>
        if between 128 191 b1
        then (Z.lor (Z.shiftl (Z.land b0 31) 6) (cont b1), 2%nat)
        else (RuneError, 1%nat)
    | _ => (RuneError, 1%nat)
    end
  else if between 224 239 b0 then
    let lo := if b0 =? 224 then 160 else 128 in
    let hi := if b0 =? 237 then 159 else 191 in
    match rest with
    | b1 :: b2 :: _ =>
        if between lo hi b1 && between 128 191 b2
        then (Z.lor (Z.shiftl (Z.land b0 15) 12)
                (Z.lor (Z.shiftl (cont b1) 6) (cont b2)), 3%nat)
        else (RuneError, 1%nat)
    | _ => (RuneError, 1%nat)
    end
  else if between 240 244 b0 then
    let lo := if b0 =? 240 then 144 else 128 in
    let hi := if b0 =? 244 then 143 else 191 in
    match rest with
    | b1 :: b2 :: b3 :: _ =>
        if between lo hi b1 && between 128 191 b2 && between 128 191 b3
        then (Z.lor (Z.shiftl (Z.land b0 7) 18)
                (Z.lor (Z.shiftl (cont b1) 12)
                   (Z.lor (Z.shiftl (cont b2) 6) (cont b3))), 4%nat)
        else (RuneError, 1%nat)
    | _ => (RuneError, 1%nat)
    end
  else (RuneError, 1%nat).

Fixpoint take_string (n : nat) (s : string) : string :=
  match n, s with
  | S k, String c s' => String c (take_string k s')
  | _, _ => EmptyString
  end.

(** [unicode.IsPrint] on the runes above the ASCII range, a table of the Go
    runtime. *)
Class Unicode := { IsPrint : Z -> bool }.

Section Quote.
Context `{Unicode}.

(** [appendEscapedRune] for a rune below 0x80, the quote being the
    double quote. *)
Definition escapeASCII (c : ascii) : string :=
  let b := byte c in
  if (b =? 34) || (b =? 92) then String backslash (String c EmptyString)
  else if between 32 126 b then String c EmptyString
  else if b =? 7 then String backslash "a"
  else if b =? 8 then String backslash "b"
  else if b =? 12 then String backslash "f"
  else if b =? 10 then String backslash "n"
  else if b =? 13 then String backslash "r"
  else if b =? 9 then String backslash "t"
  else if b =? 11 then String backslash "v"
  else String backslash ("x" +:+ hex2 false b).

(** The same for a rune decoded from [width] bytes at the head of [s]. *)
Definition escapeRune (r : Z) (width : nat) (s : string) : string :=
  if IsPrint r then take_string width s
  else if r <? 65536 then String backslash ("u" +:+ hexN false 4 r)
  else String backslash ("U" +:+ hexN false 8 r).

(** The loop of [appendQuotedWith]; [skip] counts the bytes of a rune
    already written that are still to be passed over. *)
Fixpoint quoteLoop (skip : nat) (s : string) : string :=
  match s with
  | EmptyString => EmptyString
  | String c s' =>
      match skip with
      | S k => quoteLoop k s'
      | O =>
          let b := byte c in
          if b <? 128 then escapeASCII c +:+ quoteLoop 0 s'
          else
            let '(r, width) :=
              DecodeRune b (List.map byte (list_ascii_of_string s')) in
            if (width =? 1)%nat && (r =? RuneError)
            then String backslash ("x" +:+ hex2 false b) +:+ quoteLoop 0 s'
            else escapeRune r width s +:+ quoteLoop (Nat.pred width) s'
      end
  end.

(** [strconv.Quote(s)], the rendering of a string under [%q]. *)
Definition Quote (s : string) : string :=
  String dquote (quoteLoop 0 s +:+ String dquote EmptyString).
End Quote.

End strconv.

(** ** [fmt.Sprintf] and [fmt.Errorf] *)

Module fmt.
Import GoString.

(** The operands this package formats: integers and text (a string, a
    byte slice converted to string, or an error through its message). *)
Inductive operand : Type :=
| OInt (n : Z)
| OStr (s : string).

Section Sprintf.
Context `{strconv.Unicode}.

(** One verb applied to one operand.  The package uses [%d] on integers
    and [%s], [%q], [%v], [%w] on text; another combination is rendered
    as a bad-verb marker. *)
Definition verb (v : ascii) (a : operand) : string :=
  match a with
  | OInt n =>
      if (byte v =? 100) || (byte v =? 118) then Itoa n
      else "%!" +:+ String v ("(int=" +:+ Itoa n +:+ ")")
  | OStr s =>
      if (byte v =? 115) || (byte v =? 118) || (byte v =? 119) then s
      else if byte v =? 113 then strconv.Quote s
      else "%!" +:+ String v ("(string=" +:+ s +:+ ")")
  end.

Fixpoint Sprintf (format : string) (args : list operand) : string :=
  match format with
  | EmptyString => EmptyString
  | String c rest =>
      if byte c =? 37 then
        match rest with
        | EmptyString => "%!(NOVERB)"
        | String v rest' =>
            if byte v =? 37 then String v (Sprintf rest' args)
            else
              match args with
              | a :: args' => verb v a +:+ Sprintf rest' args'
              | [] => "%!" +:+ String v "(MISSING)" +:+ Sprintf rest' []
              end
        end
      else String c (Sprintf rest args)
  end.

(** [fmt.Errorf]: the error whose message is the formatted text. *)
Definition Errorf (format : string) (args : list operand) : error :=
  Sprintf format args.
End Sprintf.

End fmt.

(** ** float64 *)

Module f64.

(** A finite float64 is [mant * 2^expo].  In canonical form a normal number
    has [2^52 <= |mant| < 2^53] and a subnormal one (zero included) has
    [expo = -1074]; the sign of zero is not represented.  A conversion that
    overflows is described by its value rounded with an unbounded exponent,
    for which [overflow] holds. *)
Record t : Type := mk { mant : Z; expo : Z }.

Definition emin : Z := -1074.
Definition emax : Z := 971.

Definition overflow (x : t) : bool := emax <? expo x.

(** [(p/q) / 2^e] as a fraction. *)
Definition scale (p q e : Z) : Z * Z :=
  if 0 <=? e then (p, q * 2 ^ e) else (p * 2 ^ (- e), q).

(** [floor (log2 (p/q))] for positive [p] and [q]. *)
Definition ilog2 (p q : Z) : Z :=
  let d := Z.log2 p - Z.log2 q in
  let '(n, m) := scale p q d in
  if m <=? n then d else d - 1.

(** The integer nearest to [n/m], ties to even. *)
Definition nearest_even (n m : Z) : Z :=
  let k := n / m in
  match 2 * (n mod m) ?= m with
  | Lt => k
  | Gt => k + 1
  | Eq => if Z.even k then k else k + 1
  end.

(** The float64 nearest to [p/q], for [0 <= p] and [0 < q]. *)
Definition round (p q : Z) : t :=
  if p =? 0 then mk 0 emin
  else
    let e := Z.max (ilog2 p q - 52) emin in
    let '(n, m) := scale p q e in
    let k := nearest_even n m in
    if k =? 2 ^ 53 then mk (2 ^ 52) (e + 1) else mk k e.

(** [strconv.ParseFloat] on the literal of value [m * 10^e]. *)
Definition of_decimal (m e : Z) : t :=
  let x := if 0 <=? e then round (Z.abs m * 10 ^ e) 1
           else round (Z.abs m) (10 ^ (- e)) in
  mk (Z.sgn m * mant x) (expo x).

(** The value with its fraction discarded. *)
Definition trunc (x : t) : Z :=
  if 0 <=? expo x then mant x * 2 ^ expo x
  else Z.quot (mant x) (2 ^ (- expo x)).

(** The conversions [int64(x)] and [int(x)]; [int] has 64 bits.  A value
    outside the range converts, as on amd64, to the least integer. *)
Definition to_int64 (x : t) : Z :=
  let n := trunc x in
  if (- 2 ^ 63 <=? n) && (n <? 2 ^ 63) then n else - 2 ^ 63.

(** A decimal literal [(m, e)] of value exactly [x]. *)
Definition to_decimal (x : t) : Z * Z :=
  if 0 <=? expo x then (mant x * 2 ^ expo x, 0)
  else (mant x * 5 ^ (- expo x), expo x).

End f64.

(** ** [encoding/json] *)

Module json.

(** What a JSON text denotes.  A number literal [JNumber m e] has the value
    [m * 10^e], so that [42] is [JNumber 42 0] and [42.0] is
    [JNumber 420 (-1)]; an object is the finite map the decoder builds from
    its members; a string is valid UTF-8, carried unchanged. *)
#[warnings="-register-all"]
Inductive document : Type :=
| JNull
| JBool (b : bool)
| JNumber (m e : Z)
| JString (s : string)
| JArray (l : list document)
| JObject (o : gmap string document).

(** The values an [interface{}] holds in this package: what the decoder
    stores ([nil], [bool], [float64], [string], [[]interface{}],
    [map[string]interface{}]) and the integers and floats the code puts in
    a payload or names in a type switch. *)
#[warnings="-register-all"]
Inductive any : Type :=
| VNil
| VBool (b : bool)
| VInt (n : Z)
| VInt64 (n : Z)
| VFloat32 (x : f64.t)
| VFloat64 (x : f64.t)
| VString (s : string)
| VSlice (l : list any)
| VMap (m : gmap string any).

Definition number (x : f64.t) : document :=
  let '(m, e) := f64.to_decimal x in JNumber m e.

(** The document [json.Marshal] writes for a value. *)
Fixpoint toJSON (v : any) : document :=
  match v with
  | VNil => JNull
  | VBool b => JBool b
  | VInt n | VInt64 n => JNumber n 0
  | VFloat32 x | VFloat64 x => number x
  | VString s => JString s
  | VSlice l => JArray (List.map toJSON l)
  | VMap m => JObject (toJSON <$> m)
  end.

(** The value the decoder stores into an [interface{}]: every number
    becomes a [float64]. *)
Fixpoint fromJSON (d : document) : any :=
  match d with
  | JNull => VNil
  | JBool b => VBool b
  | JNumber m e => VFloat64 (f64.of_decimal m e)
  | JString s => VString s
  | JArray l => VSlice (List.map fromJSON l)
  | JObject o => VMap (fromJSON <$> o)
  end.

(** No number literal of the document overflows float64. *)
Fixpoint finite (d : document) : bool :=
  match d with
  | JNumber m e => negb (f64.overflow (f64.of_decimal m e))
  | JArray l => forallb finite l
  | JObject o => map_fold (fun _ d' acc => acc && finite d') true o
  | _ => true
  end.

(** The scanner and the printer of the package, between text and what it
    denotes, and the error the decoder reports for a value that does not
    fit its target. *)
Class Text := {
  scan : string -> result document;
  print : document -> string;
  UnmarshalTypeError : document -> error
}.

(** How a Go type travels as JSON: [json.Marshal(v)] and
    [json.NewDecoder(strings.NewReader(s)).Decode(&v)]. *)
Class Codec (T : Type) := {
  Marshal : T -> result string;
  Decode : string -> result T
}.

Section Generic.
Context `{Text}.

(** [json.Marshal] of an [interface{}] or of a [map[string]interface{}]. *)
Definition MarshalAny (v : any) : result string := OK (print (toJSON v)).

(** [Decode] into a [map[string]interface{}] that starts empty. *)
Definition DecodeMap (s : string) : result (gmap string any) :=
  match scan s with
  | Err e => Err e
  | OK d =>
      if finite d then
        match d with
        | JObject o => OK (fromJSON <$> o)
        | JNull => OK ∅
        | _ => Err (UnmarshalTypeError d)
        end
      else Err (UnmarshalTypeError d)
  end.

#[global] Instance map_codec : Codec (gmap string any) := {
  Marshal m := MarshalAny (VMap m);
  Decode := DecodeMap
}.
End Generic.

End json.

(** ** [net/url] *)

Module url.
Import GoString.

(** [url.Values]. *)
Abbreviation Values := (gmap string (list string)).

Definition Add (key value : string) (v : Values) : Values :=
  <[key := (default [] (v !! key) ++ [value])%list]> v.

(** [shouldEscape(c, encodeQueryComponent)]. *)
Definition shouldEscape (c : ascii) : bool :=
  let b := byte c in
  negb (strconv.between 97 122 b || strconv.between 65 90 b ||
        strconv.between 48 57 b ||
        (b =? 45) || (b =? 95) || (b =? 46) || (b =? 126)).

(** [url.QueryEscape]. *)
Fixpoint QueryEscape (s : string) : string :=
  match s with
  | EmptyString => EmptyString
  | String c s' =>
      (if byte c =? 32 then "+"
       else if shouldEscape c then "%" +:+ hex2 true (byte c)
       else String c EmptyString) +:+ QueryEscape s'
  end.

Fixpoint insertKey (k : string) (l : list string) : list string :=
  match l with
  | [] => [k]
  | k' :: l' => if String.leb k k' then k :: l else k' :: insertKey k l'
  end.

(** The keys in the order of [sort.Strings]. *)
Definition sortedKeys (v : Values) : list string :=
  foldr insertKey [] (fst <$> map_to_list v).

Fixpoint join (sep : string) (l : list string) : string :=
  match l with
  | [] => EmptyString
  | [x] => x
  | x :: l' => x +:+ sep +:+ join sep l'
  end.

(** [Values.Encode]: [key=value] pairs sorted by key, joined by [&]. *)
Definition Encode (v : Values) : string :=
  join "&"
    (k ← sortedKeys v;
     (fun x => QueryEscape k +:+ "=" +:+ QueryEscape x) <$> default [] (v !! k)).

End url.

(** ** [net/http] *)

Module http.
Import GoString.

Definition MethodGet : string := "GET".
Definition MethodPost : string := "POST".
Definition MethodPut : string := "PUT".
Definition MethodDelete : string := "DELETE".

Definition StatusOK : Z := 200.
Definition StatusCreated : Z := 201.
Definition StatusNoContent : Z := 204.

(** [textproto.CanonicalMIMEHeaderKey]: the first letter and every letter
    that follows a hyphen in upper case, the other letters in lower case;
    a key that holds a byte that is not a token character is left as it
    is. *)
Definition validHeaderFieldByte (c : ascii) : bool :=
  let b := byte c in
  strconv.between 48 57 b || strconv.between 65 90 b ||
  strconv.between 97 122 b ||
  existsb (Z.eqb b) [33; 35; 36; 37; 38; 39; 42; 43; 45; 46; 94; 95; 96;
                     124; 126].

Fixpoint canonical (upper : bool) (s : string) : string :=
  match s with
  | EmptyString => EmptyString
  | String c s' =>
      let b := byte c in
      let c' := if upper && strconv.between 97 122 b then char (b - 32)
                else if negb upper && strconv.between 65 90 b
                     then char (b + 32)
                     else c in
      String c' (canonical (byte c' =? 45) s')
  end.

Definition CanonicalMIMEHeaderKey (s : string) : string :=
  if forallb validHeaderFieldByte (list_ascii_of_string s)
  then canonical true s else s.

(** An outgoing request.  [URL] is the text handed to [http.NewRequest],
    before [net/url] parses it; [http.Header] maps a canonical key to the
    values added under it, in order. *)
Record Request : Type := {
  Method : string;
  URL : string;
  Header : gmap string (list string);
  Body : string
}.

(** [req.Header.Add(key, value)]. *)
Definition Header_Add (key value : string) (req : Request) : Request :=
  let key := CanonicalMIMEHeaderKey key in
  {| Method := Method req; URL := URL req;
     Header := <[key := (default [] (Header req !! key) ++ [value])%list]>
                 (Header req);
     Body := Body req |}.

(** A response: its status code and what [ioutil.ReadAll] makes of its
    body. *)
Record Response : Type := {
  StatusCode : Z;
  ReadAll : result string
}.

(** The library calls of the transport: the error, if any, with which
    [http.NewRequest] rejects a method and a URL, and the dumps of
    [net/http/httputil] ([DumpResponse]'s error is ignored by the caller). *)
Class Lib := {
  Context : Type;
  NewRequestError : string -> string -> option error;
  DumpRequestOut : Request -> result string;
  DumpResponse : Response -> string
}.

End http.

(** ** The client *)

Module checkly.
Import GoString fmt json http.

(** The types of [types.go] that travel as JSON without special handling,
    and the constants of the check-type enumeration. *)
Class Resources := {
  Check : Type;
  Group : Type;
  Snippet : Type;
  EnvironmentVariable : Type;
  CheckResult : Type;
  Check_json :: Codec Check;
  Group_json :: Codec Group;
  Snippet_json :: Codec Snippet;
  EnvironmentVariable_json :: Codec EnvironmentVariable;
  CheckResults_json :: Codec (list CheckResult);
  TypeBrowser : string;
  TypeAPI : string
}.

(** The filter of [GetCheckResults]. *)
Record CheckResultsFilter : Type := {
  Page : Z;
  Limit : Z;
  From : Z;
  To : Z;
  CheckType : string;
  HasFailures : bool;
  Location : string
}.

(** What the program acts on: the requests handed to the HTTP client, in
    order, and the texts written to the debug writer. *)
Record world : Type := {
  wire : list Request;
  sink : list string
}.

Definition send (req : Request) (w : world) : world :=
  {| wire := (wire w ++ [req])%list; sink := sink w |}.

(** [fmt.Fprintln(c.debug, s)]. *)
Definition Fprintln (s : string) (w : world) : world :=
  {| wire := wire w; sink := (sink w ++ [s +:+ String (char 10) EmptyString])%list |}.

Section Client.
Context `{strconv.Unicode} `{Lib} `{Text} `{Resources}.

(** The client: [httpClient] answers a request under a context; [debug]
    tells whether a debug writer is set. *)
Record client : Type := {
  apiKey : string;
  url : string;
  httpClient : Context -> Request -> result Response;
  debug : bool
}.

Definition dumpResponse (resp : Response) (w : world) : world :=
  Fprintln EmptyString (Fprintln (DumpResponse resp) w).

Definition apiCall (c : client) (ctx : Context) (method URL data : string)
    (w : world) : Z * string * option error * world :=
  let requestURL := url c +:+ "/v1/" +:+ URL in
  match NewRequestError method requestURL with
  | Some err =>
      (0, EmptyString,
       Some (Errorf "failed to create HTTP request: %v" [OStr err]), w)
  | None =>
      let req := {| Method := method; URL := requestURL;
                    Header := ∅; Body := data |} in
      let req := Header_Add "Authorization" ("Bearer " +:+ apiKey c) req in
      let req := Header_Add "content-type" "application/json" req in
      let dumped :=
        if debug c then
          match DumpRequestOut req with
          | Err err => Err err
          | OK requestDump => OK (Fprintln EmptyString (Fprintln requestDump w))
          end
        else OK w in
      match dumped with
      | Err err =>
          (0, EmptyString,
           Some (Errorf "error dumping HTTP request: %v" [OStr err]), w)
      | OK w =>
          let w := send req w in
          match httpClient c ctx req with
          | Err err =>
              (0, EmptyString,
               Some (Errorf "HTTP request failed with: %v" [OStr err]), w)
          | OK resp =>
              let w := if debug c then dumpResponse resp w else w in
              match ReadAll resp with
              | Err err =>
                  (StatusCode resp, EmptyString,
                   Some (Errorf "HTTP request failed: %v" [OStr err]), w)
              | OK res => (StatusCode resp, res, None, w)
              end
          end
      end
  end.

Definition withAutoAssignAlertsFlag (url : string) : string :=
  let flag := "autoAssignAlerts=false" in
  if Contains url "?" then url +:+ "&" +:+ flag
  else url +:+ "?" +:+ flag.

(** *** Checks *)

Definition Create (c : client) (ctx : Context) (check : Check) (w : world)
    : result Check * world :=
  match Marshal check with
  | Err err => (Err err, w)
  | OK data =>
      let '(status, res, err, w) :=
        apiCall c ctx MethodPost (withAutoAssignAlertsFlag "checks") data w in
      match err with
      | Some err => (Err err, w)
      | None =>
          if negb (status =? StatusCreated) then
            (Err (Errorf "unexpected response status %d: %q"
                    [OInt status; OStr res]), w)
          else
            match Decode res with
            | Err err =>
                (Err (Errorf "decoding error for data %s: %v"
                        [OStr res; OStr err]), w)
            | OK result => (OK result, w)
            end
      end
  end.

Definition Update (c : client) (ctx : Context) (ID : string) (check : Check)
    (w : world) : result Check * world :=
  match Marshal check with
  | Err err => (Err err, w)
  | OK data =>
      let '(status, res, err, w) :=
        apiCall c ctx MethodPut
          (withAutoAssignAlertsFlag (Sprintf "checks/%s" [OStr ID])) data w in
      match err with
      | Some err => (Err err, w)
      | None =>
          if negb (status =? StatusOK) then
            (Err (Errorf "unexpected response status %d: %q"
                    [OInt status; OStr res]), w)
          else
            match Decode res with
            | Err err =>
                (Err (Errorf "decoding error for data %s: %v"
                        [OStr res; OStr err]), w)
            | OK result => (OK result, w)
            end
      end
  end.

Definition Delete (c : client) (ctx : Context) (ID : string) (w : world)
    : option error * world :=
  let '(status, res, err, w) :=
    apiCall c ctx MethodDelete (Sprintf "checks/%s" [OStr ID]) EmptyString w in
  match err with
  | Some err => (Some err, w)
  | None =>
      if negb (status =? StatusNoContent) then
        (Some (Errorf "unexpected response status %d: %q"
                 [OInt status; OStr res]), w)
      else (None, w)
  end.

(** *** Check groups *)

Definition CreateGroup (c : client) (ctx : Context) (group : Group)
    (w : world) : result Group * world :=
  match Marshal group with
  | Err err => (Err err, w)
  | OK data =>
      let '(status, res, err, w) :=
        apiCall c ctx MethodPost (withAutoAssignAlertsFlag "check-groups")
          data w in
      match err with
      | Some err => (Err err, w)
      | None =>
          if negb (status =? StatusCreated) then
            (Err (Errorf "unexpected response status %d: %q"
                    [OInt status; OStr res]), w)
          else
            match Decode res with
            | Err err =>
                (Err (Errorf "decoding error for data %s: %v"
                        [OStr res; OStr err]), w)
            | OK result => (OK result, w)
            end
      end
  end.

Definition UpdateGroup (c : client) (ctx : Context) (ID : Z) (group : Group)
    (w : world) : result Group * world :=
  match Marshal group with
  | Err err => (Err err, w)
  | OK data =>
      let '(status, res, err, w) :=
        apiCall c ctx MethodPut
          (withAutoAssignAlertsFlag (Sprintf "check-groups/%d" [OInt ID]))
          data w in
      match err with
      | Some err => (Err err, w)
      | None =>
          if negb (status =? StatusOK) then
            (Err (Errorf "unexpected response status %d: %q"
                    [OInt status; OStr res]), w)
          else
            match Decode res with
            | Err err =>
                (Err (Errorf "decoding error for data %s: %v"
                        [OStr res; OStr err]), w)
            | OK result => (OK result, w)
            end
      end
  end.

Definition DeleteGroup (c : client) (ctx : Context) (ID : Z) (w : world)
    : option error * world :=
  let '(status, res, err, w) :=
    apiCall c ctx MethodDelete (Sprintf "check-groups/%d" [OInt ID])
      EmptyString w in
  match err with
  | Some err => (Some err, w)
  | None =>
      if negb (status =? StatusNoContent) then
        (Some (Errorf "unexpected response status %d: %q"
                 [OInt status; OStr res]), w)
      else (None, w)
  end.

(** *** Check results *)

(** The query [q] that [GetCheckResults] fills from a non-nil filter. *)
Definition filterQuery (filters : CheckResultsFilter) : url.Values :=
  let q : url.Values := ∅ in
  let q := if 0 <? Page filters
           then url.Add "page" (Sprintf "%d" [OInt (Page filters)]) q else q in
  let q := if 0 <? Limit filters
           then url.Add "limit" (Sprintf "%d" [OInt (Limit filters)]) q else q in
  let q := if 0 <? From filters
           then url.Add "from" (Sprintf "%d" [OInt (From filters)]) q else q in
  let q := if 0 <? To filters
           then url.Add "to" (Sprintf "%d" [OInt (To filters)]) q else q in
  let q := if String.eqb (CheckType filters) TypeBrowser ||
              String.eqb (CheckType filters) TypeAPI
           then url.Add "checkType" (CheckType filters) q else q in
  let q := if HasFailures filters then url.Add "hasFailures" "1" q else q in
  let q := if (0 <? String.length (Location filters))%nat
           then url.Add "location" (Location filters) q else q in
  q.

(** The [uri] that [GetCheckResults] requests. *)
Definition checkResultsURI (checkID : string)
    (filters : option CheckResultsFilter) : string :=
  let uri := Sprintf "check-results/%s" [OStr checkID] in
  match filters with
  | Some filters => uri +:+ "?" +:+ url.Encode (filterQuery filters)
  | None => uri
  end.

Definition GetCheckResults (c : client) (ctx : Context) (checkID : string)
    (filters : option CheckResultsFilter) (w : world)
    : result (list CheckResult) * world :=
  let uri := checkResultsURI checkID filters in
  let '(status, res, err, w) :=
    apiCall c ctx MethodGet uri EmptyString w in
  match err with
  | Some err => (Err err, w)
  | None =>
      if negb (status =? StatusOK) then
        (Err (Errorf "unexpected response status %d: %q"
                [OInt status; OStr res]), w)
      else
        match Decode res with
        | Err err =>
            (Err (Errorf "decoding error for data %q: %v"
                    [OStr res; OStr err]), w)
        | OK result => (OK result, w)
        end
  end.

(** *** Snippets *)

Definition CreateSnippet (c : client) (ctx : Context) (snippet : Snippet)
    (w : world) : result Snippet * world :=
  match Marshal snippet with
  | Err err => (Err err, w)
  | OK data =>
      let '(status, res, err, w) :=
        apiCall c ctx MethodPost "snippets" data w in
      match err with
      | Some err => (Err err, w)
      | None =>
          if negb (status =? StatusCreated) then
            (Err (Errorf "unexpected response status: %d, res: %q"
                    [OInt status; OStr res]), w)
          else
            match Decode res with
            | Err err =>
                (Err (Errorf "decoding error for data %s: %v"
                        [OStr res; OStr err]), w)
            | OK result => (OK result, w)
            end
      end
  end.

Definition DeleteSnippet (c : client) (ctx : Context) (ID : Z) (w : world)
    : option error * world :=
  let '(status, res, err, w) :=
    apiCall c ctx MethodDelete (Sprintf "snippets/%d" [OInt ID])
      EmptyString w in
  match err with
  | Some err => (Some err, w)
  | None =>
      if negb (status =? StatusNoContent) then
        (Some (Errorf "unexpected response status %d: %q"
                 [OInt status; OStr res]), w)
      else (None, w)
  end.

(** *** Environment variables *)

Definition CreateEnvironmentVariable (c : client) (ctx : Context)
    (envVar : EnvironmentVariable) (w : world)
    : result EnvironmentVariable * world :=
  match Marshal envVar with
  | Err err => (Err err, w)
  | OK data =>
      let '(status, res, err, w) :=
        apiCall c ctx MethodPost "variables" data w in
      match err with
      | Some err => (Err err, w)
      | None =>
          if negb (status =? StatusCreated) then
            (Err (Errorf "unexpected response status: %d, res: %q"
                    [OInt status; OStr res]), w)
          else
            match Decode res with
            | Err err =>
                (Err (Errorf "decoding error for data %s: %v"
                        [OStr res; OStr err]), w)
            | OK result => (OK result, w)
            end
      end
  end.

Definition DeleteEnvironmentVariable (c : client) (ctx : Context)
    (key : string) (w : world) : option error * world :=
  let '(status, res, err, w) :=
    apiCall c ctx MethodDelete (Sprintf "variables/%s" [OStr key])
      EmptyString w in
  match err with
  | Some err => (Some err, w)
  | None =>
      if negb (status =? StatusNoContent) then
        (Some (Errorf "unexpected response status %d: %q"
                 [OInt status; OStr res]), w)
      else (None, w)
  end.

(** *** Alert channels *)

(** The registry of alert-channel types: the typed configurations, their
    structural serialisation, and for every supported type tag the parser
    of its configuration. *)
Class Registry := {
  Cfg : Type;
  flatten : Cfg -> any;
  parsers : gmap string (string -> result Cfg)
}.

Context `{Registry}.

(** The fields of [AlertChannel] that the codec reads and writes; [Config]
    is the typed configuration behind [GetConfig] and [SetConfig]. *)
Record AlertChannel : Type := {
  ID : Z;
  Type_ : string;
  Config : option Cfg;
  SendRecovery : option bool;
  SendFailure : option bool;
  SendDegraded : option bool;
  SSLExpiry : option bool;
  SSLExpiryThreshold : option Z
}.

(** [AlertChannel{}]. *)
Definition zeroAlertChannel : AlertChannel :=
  {| ID := 0; Type_ := EmptyString; Config := None; SendRecovery := None;
     SendFailure := None; SendDegraded := None; SSLExpiry := None;
     SSLExpiryThreshold := None |}.

Definition setID (n : Z) (a : AlertChannel) : AlertChannel :=
  {| ID := n; Type_ := Type_ a; Config := Config a;
     SendRecovery := SendRecovery a; SendFailure := SendFailure a;
     SendDegraded := SendDegraded a; SSLExpiry := SSLExpiry a;
     SSLExpiryThreshold := SSLExpiryThreshold a |}.

Definition setType (s : string) (a : AlertChannel) : AlertChannel :=
  {| ID := ID a; Type_ := s; Config := Config a;
     SendRecovery := SendRecovery a; SendFailure := SendFailure a;
     SendDegraded := SendDegraded a; SSLExpiry := SSLExpiry a;
     SSLExpiryThreshold := SSLExpiryThreshold a |}.

Definition setSendRecovery (b : bool) (a : AlertChannel) : AlertChannel :=
  {| ID := ID a; Type_ := Type_ a; Config := Config a;
     SendRecovery := Some b; SendFailure := SendFailure a;
     SendDegraded := SendDegraded a; SSLExpiry := SSLExpiry a;
     SSLExpiryThreshold := SSLExpiryThreshold a |}.

Definition setSendFailure (b : bool) (a : AlertChannel) : AlertChannel :=
  {| ID := ID a; Type_ := Type_ a; Config := Config a;
     SendRecovery := SendRecovery a; SendFailure := Some b;
     SendDegraded := SendDegraded a; SSLExpiry := SSLExpiry a;
     SSLExpiryThreshold := SSLExpiryThreshold a |}.

Definition setSendDegraded (b : bool) (a : AlertChannel) : AlertChannel :=
  {| ID := ID a; Type_ := Type_ a; Config := Config a;
     SendRecovery := SendRecovery a; SendFailure := SendFailure a;
     SendDegraded := Some b; SSLExpiry := SSLExpiry a;
     SSLExpiryThreshold := SSLExpiryThreshold a |}.

Definition setSSLExpiry (b : bool) (a : AlertChannel) : AlertChannel :=
  {| ID := ID a; Type_ := Type_ a; Config := Config a;
     SendRecovery := SendRecovery a; SendFailure := SendFailure a;
     SendDegraded := SendDegraded a; SSLExpiry := Some b;
     SSLExpiryThreshold := SSLExpiryThreshold a |}.

Definition setSSLExpiryThreshold (t : Z) (a : AlertChannel) : AlertChannel :=
  {| ID := ID a; Type_ := Type_ a; Config := Config a;
     SendRecovery := SendRecovery a; SendFailure := SendFailure a;
     SendDegraded := SendDegraded a; SSLExpiry := SSLExpiry a;
     SSLExpiryThreshold := Some t |}.

(** Modelled from the spec: [AlertChannel.GetConfig] of [types.go], which
    "flattens a typed configuration into a generic map for encoding"; a
    channel without configuration yields [nil]. *)
Definition GetConfig (a : AlertChannel) : any :=
  match Config a with
  | Some cfg => flatten cfg
  | None => VNil
  end.

(** Modelled from the spec: [AlertChannel.SetConfig] of [types.go], which
    stores the typed configuration the parser returned. *)
Definition SetConfig (cfg : Cfg) (a : AlertChannel) : AlertChannel :=
  {| ID := ID a; Type_ := Type_ a; Config := Some cfg;
     SendRecovery := SendRecovery a; SendFailure := SendFailure a;
     SendDegraded := SendDegraded a; SSLExpiry := SSLExpiry a;
     SSLExpiryThreshold := SSLExpiryThreshold a |}.

(** Modelled from the spec: [AlertChannelConfigFromJSON] of [types.go]: the
    type tag "selects which specialized config parser to invoke", "the
    parser returns a typed configuration value or an error", and "if type
    is not found in the registry ... decoding fails with a descriptive
    error". *)
Definition AlertChannelConfigFromJSON (channelType cfgJSON : string)
    : result Cfg :=
  match parsers !! channelType with
  | Some parse => parse cfgJSON
  | None =>
      Err (Errorf "unsupported alert channel type: %q" [OStr channelType])
  end.

Definition payloadFromAlertChannel (ac : AlertChannel) : gmap string any :=
  let payload : gmap string any :=
    <["id" := VInt64 (ID ac)]>
      (<["type" := VString (Type_ ac)]>
         (<["config" := GetConfig ac]> ∅)) in
  let payload := match SendRecovery ac with
                 | Some b => <["sendRecovery" := VBool b]> payload
                 | None => payload
                 end in
  let payload := match SendDegraded ac with
                 | Some b => <["sendDegraded" := VBool b]> payload
                 | None => payload
                 end in
  let payload := match SendFailure ac with
                 | Some b => <["sendFailure" := VBool b]> payload
                 | None => payload
                 end in
  let payload := match SSLExpiry ac with
                 | Some b => <["sslExpiry" := VBool b]> payload
                 | None => payload
                 end in
  let payload := match SSLExpiryThreshold ac with
                 | Some t => <["sslExpiryThreshold" := VInt t]> payload
                 | None => payload
                 end in
  payload.

(** The type assertions [v.(T)], which panic on another dynamic type. *)
Definition assertInt (v : any) : outcome Z :=
  match v with VInt n => Ret n | _ => Panic end.
Definition assertInt64 (v : any) : outcome Z :=
  match v with VInt64 n => Ret n | _ => Panic end.
Definition assertFloat64 (v : any) : outcome f64.t :=
  match v with VFloat64 x => Ret x | _ => Panic end.
Definition assertString (v : any) : outcome string :=
  match v with VString s => Ret s | _ => Panic end.
Definition assertBool (v : any) : outcome bool :=
  match v with VBool b => Ret b | _ => Panic end.

Definition alertChannelFromJSON (response : string) : outcome AlertChannel :=
  match Decode response with
  | Err err =>
      Fail (Errorf
              "UpdateAlertChannel: decoding error for data Res(%s), Err(%w)"
              [OStr response; OStr err])
  | OK result =>
      let resultAc := zeroAlertChannel in
      resultAc ←
        match (result : gmap string any) !! "id" with
        | Some v =>
            match v with
            | VInt _ | VInt64 _ =>
                n ← assertInt64 v; Ret (setID n resultAc)
            | VFloat32 _ | VFloat64 _ =>
                x ← assertFloat64 v; Ret (setID (f64.to_int64 x) resultAc)
            | _ => Ret resultAc
            end
        | None => Ret resultAc
        end;
      resultAc ←
        match result !! "type" with
        | Some v => s ← assertString v; Ret (setType s resultAc)
        | None => Ret resultAc
        end;
      resultAc ←
        match result !! "sendRecovery" with
        | Some v => sr ← assertBool v; Ret (setSendRecovery sr resultAc)
        | None => Ret resultAc
        end;
      resultAc ←
        match result !! "sendFailure" with
        | Some v => sf ← assertBool v; Ret (setSendFailure sf resultAc)
        | None => Ret resultAc
        end;
      resultAc ←
        match result !! "sendDegraded" with
        | Some v => sd ← assertBool v; Ret (setSendDegraded sd resultAc)
        | None => Ret resultAc
        end;
      resultAc ←
        match result !! "sslExpiry" with
        | Some v => expiry ← assertBool v; Ret (setSSLExpiry expiry resultAc)
        | None => Ret resultAc
        end;
      resultAc ←
        match result !! "sslExpiryThreshold" with
        | Some v =>
            match v with
            | VInt _ | VInt64 _ =>
                t ← assertInt v; Ret (setSSLExpiryThreshold t resultAc)
            | VFloat32 _ | VFloat64 _ =>
                x ← assertFloat64 v;
                Ret (setSSLExpiryThreshold (f64.to_int64 x) resultAc)
            | _ => Ret resultAc
            end
        | None => Ret resultAc
        end;
      match result !! "config" with
      | Some cfg =>
          match MarshalAny cfg with
          | Err err => Fail err
          | OK cfgJSON =>
              match AlertChannelConfigFromJSON (Type_ resultAc) cfgJSON with
              | Err err => Fail err
              | OK c => Ret (SetConfig c resultAc)
              end
          end
      | None => Ret resultAc
      end
  end.

Definition CreateAlertChannel (c : client) (ctx : Context) (ac : AlertChannel)
    (w : world) : outcome AlertChannel * world :=
  let payload := payloadFromAlertChannel ac in
  match Marshal payload with
  | Err err => (Fail err, w)
  | OK data =>
      let '(status, res, err, w) :=
        apiCall c ctx MethodPost "alert-channels" data w in
      match err with
      | Some err => (Fail err, w)
      | None =>
          if negb (status =? StatusOK) && negb (status =? StatusCreated) then
            (Fail (Errorf
                     "unexpected response status: %d, res: %q, payload: %v"
                     [OInt status; OStr res; OStr data]), w)
          else (alertChannelFromJSON res, w)
      end
  end.

Definition DeleteAlertChannel (c : client) (ctx : Context) (ID : Z)
    (w : world) : option error * world :=
  let '(status, res, err, w) :=
    apiCall c ctx MethodDelete (Sprintf "alert-channels/%d" [OInt ID])
      EmptyString w in
  match err with
  | Some err => (Some err, w)
  | None =>
      if negb (status =? StatusNoContent) then
        (Some (Errorf "unexpected response status %d: %q"
                 [OInt status; OStr res]), w)
      else (None, w)
  end.

End Client.
End checkly.


(** ** An environment for the examples

    Stand-ins for the Go runtime and for [types.go], on which the
    definitions above can be run: a printer and a scanner for the JSON
    texts of the examples, resources that travel as their own text, a
    registry with one alert-channel type, and a server that answers every
    request alike. *)

Module Example.
Import GoString fmt json http checkly.

Definition unicode : strconv.Unicode := {| strconv.IsPrint := fun _ => true |}.

Definition lib : Lib := {|
  Context := unit;
  NewRequestError := fun _ _ => None;
  DumpRequestOut := fun req => OK (Method req +:+ " " +:+ URL req);
  DumpResponse := fun resp => Itoa (StatusCode resp)
|}.

(** JSON text written with single quotes in place of double quotes. *)
Fixpoint text (s : string) : string :=
  match s with
  | EmptyString => EmptyString
  | String c s' => String (if byte c =? 39 then dquote else c) (text s')
  end.

Definition quoted (s : string) : string :=
  String dquote (s +:+ String dquote EmptyString).

Fixpoint insertMember (m : string * string) (l : list (string * string))
    : list (string * string) :=
  match l with
  | [] => [m]
  | m' :: l' =>
      if String.leb (fst m) (fst m') then m :: l else m' :: insertMember m l'
  end.

(** Compact JSON with sorted keys; strings without escapes. *)
Fixpoint printDocument (d : document) : string :=
  match d with
  | JNull => "null"
  | JBool b => if b then "true" else "false"
  | JNumber m e => if e =? 0 then Itoa m else Itoa m +:+ "e" +:+ Itoa e
  | JString s => quoted s
  | JArray l => "[" +:+ url.join "," (List.map printDocument l) +:+ "]"
  | JObject o =>
      let members :=
        map_fold (fun k d' acc => insertMember (k, printDocument d') acc) [] o in
      "{" +:+ url.join ","
                (List.map (fun m => quoted (fst m) +:+ ":" +:+ snd m) members)
          +:+ "}"
  end.

Fixpoint lookupText (s : string) (table : list (string * document))
    : result document :=
  match table with
  | [] => Err "invalid character looking for beginning of value"
  | (t, d) :: table' => if String.eqb s t then OK d else lookupText s table'
  end.

(** The texts the examples read. *)
Definition texts : list (string * document) :=
  [ (text "{'type':'BOGUS'}", JObject {[ "type" := JString "BOGUS" ]});
    (text "{'type':5}", JObject {[ "type" := JNumber 5 0 ]});
    (text "{'sendRecovery':'yes','type':'BOGUS'}",
     JObject {[ "type" := JString "BOGUS";
                "sendRecovery" := JString "yes" ]});
    (text "{'config':{},'type':'BOGUS'}",
     JObject {[ "type" := JString "BOGUS"; "config" := JObject ∅ ]});
    (text "{'type':'EMAIL'}", JObject {[ "type" := JString "EMAIL" ]});
    (text "{'id':42,'type':'EMAIL'}",
     JObject {[ "id" := JNumber 42 0; "type" := JString "EMAIL" ]});
    (text "{'id':42.0,'type':'EMAIL'}",
     JObject {[ "id" := JNumber 420 (-1); "type" := JString "EMAIL" ]});
    (text "{'sslExpiryThreshold':42,'type':'EMAIL'}",
     JObject {[ "sslExpiryThreshold" := JNumber 42 0;
                "type" := JString "EMAIL" ]});
    (text "{'sslExpiryThreshold':42.0,'type':'EMAIL'}",
     JObject {[ "sslExpiryThreshold" := JNumber 420 (-1);
                "type" := JString "EMAIL" ]});
    (text "{'address':'ops@example.com'}",
     JObject {[ "address" := JString "ops@example.com" ]});
    (text "{'config':{'address':'ops@example.com'},'id':7,'sendFailure':true,'sslExpiryThreshold':30,'type':'EMAIL'}",
     JObject {[ "config" := JObject {[ "address" := JString "ops@example.com" ]};
                "id" := JNumber 7 0;
                "sendFailure" := JBool true;
                "sslExpiryThreshold" := JNumber 30 0;
                "type" := JString "EMAIL" ]});
    (text "{'config':{'address':'ops@example.com'},'id':7,'sslExpiryThreshold':9007199254740993,'type':'EMAIL'}",
     JObject {[ "config" := JObject {[ "address" := JString "ops@example.com" ]};
                "id" := JNumber 7 0;
                "sslExpiryThreshold" := JNumber 9007199254740993 0;
                "type" := JString "EMAIL" ]});
    (text "{'id':42,'sslExpiryThreshold':30,'type':'EMAIL'}",
     JObject {[ "id" := JNumber 42 0;
                "sslExpiryThreshold" := JNumber 30 0;
                "type" := JString "EMAIL" ]});
    (text "{'id':42.0,'sslExpiryThreshold':30,'type':'EMAIL'}",
     JObject {[ "id" := JNumber 420 (-1);
                "sslExpiryThreshold" := JNumber 30 0;
                "type" := JString "EMAIL" ]});
    (text "{'id':7,'sslExpiryThreshold':42,'type':'EMAIL'}",
     JObject {[ "id" := JNumber 7 0;
                "sslExpiryThreshold" := JNumber 42 0;
                "type" := JString "EMAIL" ]});
    (text "{'id':7,'sslExpiryThreshold':42.0,'type':'EMAIL'}",
     JObject {[ "id" := JNumber 7 0;
                "sslExpiryThreshold" := JNumber 420 (-1);
                "type" := JString "EMAIL" ]});
    ("null", JNull);
    (text "{'config':null,'id':7,'type':'EMAIL'}",
     JObject {[ "config" := JNull; "id" := JNumber 7 0;
                "type" := JString "EMAIL" ]});
    (text "{'target':'https://hooks.example.com/ops'}",
     JObject {[ "target" := JString "https://hooks.example.com/ops" ]});
    (text "{'config':{'target':'https://hooks.example.com/ops'},'id':7,'type':'EMAIL'}",
     JObject {[ "config" :=
                  JObject {[ "target" :=
                               JString "https://hooks.example.com/ops" ]};
                "id" := JNumber 7 0;
                "type" := JString "EMAIL" ]}) ].

Definition jsonText : Text := {|
  scan := fun s => lookupText s texts;
  print := printDocument;
  UnmarshalTypeError := fun _ => "json: cannot unmarshal value into Go value"
|}.

Definition asText : Codec string := {|
  Marshal := fun s => OK s;
  Decode := fun s => OK s
|}.

Definition asLines : Codec (list string) := {|
  Marshal := fun l => OK (url.join "," l);
  Decode := fun s => OK [s]
|}.

Definition resources : Resources := {|
  Check := string;
  Group := string;
  Snippet := string;
  EnvironmentVariable := string;
  CheckResult := string;
  Check_json := asText;
  Group_json := asText;
  Snippet_json := asText;
  EnvironmentVariable_json := asText;
  CheckResults_json := asLines;
  TypeBrowser := "BROWSER";
  TypeAPI := "API"
|}.

(** The configuration of an e-mail channel. *)
Inductive email : Type := Email (address : string).

Definition parseEmail (cfgJSON : string) : result email :=
  match lookupText cfgJSON texts with
  | Err e => Err e
  | OK (JObject o) =>
      match o !! "address" with
      | Some (JString a) => OK (Email a)
      | Some _ => Err "json: cannot unmarshal value into Go struct field"
      | None => OK (Email EmptyString)
      end
  | OK JNull => OK (Email EmptyString)
  | OK _ => Err "json: cannot unmarshal value into Go value"
  end.

Definition registry : Registry := {|
  Cfg := email;
  flatten := fun c => let 'Email a := c in VMap {[ "address" := VString a ]};
  parsers := {[ "EMAIL" := parseEmail ]}
|}.






(** A client whose server answers [status] and [body] to every request. *)
Definition server (status : Z) (body : string) : @client lib := {|
  apiKey := "secret";
  url := "https://api.example.com";
  httpClient := fun _ _ => OK {| StatusCode := status; ReadAll := OK body |};
  debug := false
|}.

Definition start : world := {| wire := []; sink := [] |}.

End Example.

(** * Properties *)

(** ** Numbers: float64 rounding of integral literals *)

Module f64_facts.
Import f64.

(** [e] is the binary exponent of [p/q]: [2^e <= p/q < 2^(e+1)]. *)
Definition binade (p q e : Z) : Prop :=
  let '(n, m) := scale p q e in m <= n < 2 * m.

Lemma between_scaled a x y : 0 < a -> x <= y < 2 * x <-> x * a <= y * a < 2 * x * a.
Proof. intros Ha. split; intros [? ?]; split; nia. Qed.

Lemma pow_window x a j :
  0 <= a -> 0 <= j -> 2 ^ a <= x < 2 ^ (a + 1) ->
  2 ^ (j + a) <= x * 2 ^ j < 2 ^ (j + a + 1).
Proof.
  intros Ha Hj Hx. assert (0 < 2 ^ j) by (apply Z.pow_pos_nonneg; lia).
  replace (2 ^ (j + a)) with (2 ^ a * 2 ^ j)
    by (rewrite <- Z.pow_add_r by lia; f_equal; lia).
  replace (2 ^ (j + a + 1)) with (2 ^ (a + 1) * 2 ^ j)
    by (rewrite <- Z.pow_add_r by lia; f_equal; lia).
  nia.
Qed.

Lemma binade_shift p q e k :
  0 < q -> 0 <= k -> 0 <= k + e ->
  binade p q e <-> q * 2 ^ (k + e) <= p * 2 ^ k < q * 2 ^ (k + e + 1).
Proof.
  intros Hq Hk Hke. unfold binade, scale.
  destruct (Z.leb_spec 0 e) as [He|He].
  - rewrite (between_scaled (2 ^ k)) by (apply Z.pow_pos_nonneg; lia).
    replace (q * 2 ^ (k + e)) with (q * 2 ^ e * 2 ^ k)
      by (rewrite Z.pow_add_r by lia; ring).
    replace (q * 2 ^ (k + e + 1)) with (2 * (q * 2 ^ e) * 2 ^ k)
      by (rewrite !Z.pow_add_r, Z.pow_1_r by lia; ring).
    reflexivity.
  - rewrite (between_scaled (2 ^ (k + e))) by (apply Z.pow_pos_nonneg; lia).
    replace (p * 2 ^ (- e) * 2 ^ (k + e)) with (p * 2 ^ k)
      by (rewrite <- (Z.mul_assoc p), <- Z.pow_add_r by lia; do 2 f_equal; lia).
    replace (q * 2 ^ (k + e + 1)) with (2 * q * 2 ^ (k + e))
      by (rewrite (Z.pow_add_r _ _ 1), Z.pow_1_r by lia; ring).
    reflexivity.
Qed.

Lemma binade_unique p q e e' :
  0 < q -> binade p q e -> binade p q e' -> e = e'.
Proof.
  intros Hq H1 H2.
  set (k := Z.abs e + Z.abs e').
  apply (binade_shift p q e k) in H1; [|lia..].
  apply (binade_shift p q e' k) in H2; [|lia..].
  destruct (Z.lt_trichotomy e e') as [Hlt|[->|Hlt]]; [exfalso| reflexivity |exfalso].
  - assert (2 ^ (k + e + 1) <= 2 ^ (k + e')) by (apply Z.pow_le_mono_r; lia).
    nia.
  - assert (2 ^ (k + e' + 1) <= 2 ^ (k + e)) by (apply Z.pow_le_mono_r; lia).
    nia.
Qed.

Lemma binade_ilog2 p q : 0 < p -> 0 < q -> binade p q (ilog2 p q).
Proof.
  intros Hp Hq.
  destruct (Z.log2_spec p Hp) as [Ha1 Ha2].
  destruct (Z.log2_spec q Hq) as [Hb1 Hb2].
  pose proof (Z.log2_nonneg p) as Ha0. pose proof (Z.log2_nonneg q) as Hb0.
  unfold ilog2.
  set (a := Z.log2 p) in *. set (b := Z.log2 q) in *.
  replace (Z.succ a) with (a + 1) in Ha2 by lia.
  replace (Z.succ b) with (b + 1) in Hb2 by lia.
  set (k := a + b + 1).
  assert (Hk : 0 < 2 ^ k) by (apply Z.pow_pos_nonneg; lia).
  assert (Hpa : 2 ^ (k + a) <= p * 2 ^ k < 2 ^ (k + a + 1)).
  { apply pow_window; lia. }
  assert (Hqb : forall j, 0 <= j ->
             2 ^ (j + b) <= q * 2 ^ j < 2 ^ (j + b + 1)).
  { intros j Hj. apply pow_window; lia. }
  destruct (scale p q (a - b)) as [n m] eqn:Hs.
  assert (Hm : m <= n <-> q * 2 ^ (k + (a - b)) <= p * 2 ^ k).
  { revert Hs. unfold scale. destruct (Z.leb_spec 0 (a - b)); intros [= <- <-].
    - rewrite (Z.mul_le_mono_pos_r _ _ (2 ^ k)) by lia.
      replace (q * 2 ^ (k + (a - b))) with (q * 2 ^ (a - b) * 2 ^ k);
        [reflexivity|].
      rewrite <- Z.mul_assoc, <- Z.pow_add_r by lia. do 2 f_equal. lia.
    - rewrite (Z.mul_le_mono_pos_r _ _ (2 ^ (k + (a - b))))
        by (apply Z.pow_pos_nonneg; lia).
      replace (p * 2 ^ (- (a - b)) * 2 ^ (k + (a - b))) with (p * 2 ^ k);
        [reflexivity|].
      rewrite <- Z.mul_assoc, <- Z.pow_add_r by lia. do 2 f_equal. lia. }
  destruct (Z.leb_spec m n) as [Hle|Hgt].
  - apply (binade_shift p q (a - b) k); [lia..|].
    split; [apply Hm, Hle|].
    pose proof (Hqb (k + (a - b) + 1) ltac:(lia)) as [Hq1 _].
    replace (k + (a - b) + 1 + b) with (k + a + 1) in Hq1 by lia. lia.
  - apply (binade_shift p q (a - b - 1) k); [lia..|].
    replace (k + (a - b - 1) + 1) with (k + (a - b)) by lia.
    split; [|lia].
    pose proof (Hqb (k + (a - b - 1)) ltac:(lia)) as [_ Hq2].
    replace (k + (a - b - 1) + b + 1) with (k + a) in Hq2 by lia. lia.
Qed.

Lemma binade_common c p q e : 0 < c -> binade (c * p) (c * q) e <-> binade p q e.
Proof.
  intros Hc. unfold binade, scale. destruct (0 <=? e); nia.
Qed.

Lemma ilog2_common c p q :
  0 < c -> 0 < p -> 0 < q -> ilog2 (c * p) (c * q) = ilog2 p q.
Proof.
  intros Hc Hp Hq. apply (binade_unique p q); [lia| |apply binade_ilog2; lia].
  apply (binade_common c). lia. apply binade_ilog2; nia.
Qed.

Lemma nearest_even_common c n m :
  0 < c -> 0 < m -> nearest_even (c * n) (c * m) = nearest_even n m.
Proof.
  intros Hc Hm. unfold nearest_even.
  rewrite Z.div_mul_cancel_l, Z.mul_mod_distr_l by lia.
  destruct (Z.compare_spec (2 * (c * (n mod m))) (c * m));
    destruct (Z.compare_spec (2 * (n mod m)) m); try reflexivity; nia.
Qed.

Lemma scale_common c p q e :
  scale (c * p) (c * q) e = (c * fst (scale p q e), c * snd (scale p q e)).
Proof. unfold scale. destruct (0 <=? e); simpl; f_equal; ring. Qed.

Lemma scale_pos p q e : 0 < q -> 0 < snd (scale p q e).
Proof.
  intros Hq. unfold scale. destruct (Z.leb_spec 0 e); simpl; [|lia].
  assert (0 < 2 ^ e) by (apply Z.pow_pos_nonneg; lia). nia.
Qed.

(** Rounding depends on the ratio only. *)
Lemma round_common c p q :
  0 < c -> 0 <= p -> 0 < q -> round (c * p) (c * q) = round p q.
Proof.
  intros Hc Hp Hq. unfold round.
  destruct (Z.eqb_spec p 0) as [->|Hp0].
  - rewrite Z.mul_0_r. reflexivity.
  - destruct (Z.eqb_spec (c * p) 0) as [H0|_]; [nia|].
    rewrite ilog2_common by lia.
    rewrite scale_common.
    pose proof (scale_pos p q (Z.max (ilog2 p q - 52) emin) Hq) as Hm.
    destruct (scale p q (Z.max (ilog2 p q - 52) emin)) as [n m]. simpl in *.
    rewrite nearest_even_common by lia. reflexivity.
Qed.

(** A literal with one zero decimal reads as the integer literal does. *)
Lemma of_decimal_point_zero v : of_decimal (10 * v) (-1) = of_decimal v 0.
Proof.
  unfold of_decimal. simpl (0 <=? -1). simpl (0 <=? 0). cbv iota.
  replace (Z.abs (10 * v)) with (10 * Z.abs v) by lia.
  replace (10 ^ (- -1)) with (10 * 1) by reflexivity.
  rewrite round_common by lia.
  replace (Z.abs v * 10 ^ 0) with (Z.abs v) by (rewrite Z.pow_0_r; lia).
  replace (Z.sgn (10 * v)) with (Z.sgn v) by lia. reflexivity.
Qed.

Lemma ilog2_integer p : 0 < p -> ilog2 p 1 = Z.log2 p.
Proof.
  intros Hp. destruct (Z.log2_spec p Hp) as [H1 _].
  pose proof (Z.log2_nonneg p) as H0.
  unfold ilog2, scale. change (Z.log2 1) with 0. rewrite Z.sub_0_r.
  destruct (Z.leb_spec 0 (Z.log2 p)); [|lia].
  rewrite Z.mul_1_l. destruct (Z.leb_spec (2 ^ Z.log2 p) p); lia.
Qed.

Lemma nearest_even_integer n : nearest_even n 1 = n.
Proof. unfold nearest_even. rewrite Z.mod_1_r, Z.div_1_r. reflexivity. Qed.

(** An integer below [2^53] is a float64: rounding only normalises it. *)
Lemma round_integer p :
  0 < p < 2 ^ 53 ->
  round p 1 = mk (p * 2 ^ (52 - Z.log2 p)) (Z.log2 p - 52).
Proof.
  intros [Hp Hlt]. destruct (Z.log2_spec p Hp) as [H1 H2].
  pose proof (Z.log2_nonneg p) as H0.
  assert (Hl : Z.log2 p < 53) by (apply Z.log2_lt_pow2; lia).
  unfold round. destruct (Z.eqb_spec p 0); [lia|].
  rewrite ilog2_integer by lia.
  replace (Z.max (Z.log2 p - 52) emin) with (Z.log2 p - 52)
    by (unfold emin; lia).
  assert (Hk : p * 2 ^ (52 - Z.log2 p) < 2 ^ 53).
  { replace (2 ^ 53) with (2 ^ (Z.succ (Z.log2 p)) * 2 ^ (52 - Z.log2 p))
      by (rewrite <- Z.pow_add_r by lia; f_equal; lia).
    apply Z.mul_lt_mono_pos_r; [apply Z.pow_pos_nonneg|]; lia. }
  unfold scale. destruct (Z.leb_spec 0 (Z.log2 p - 52)) as [Hge|Hneg].
  - replace (Z.log2 p) with 52 in * by lia.
    change (1 * 2 ^ (52 - 52)) with 1. change (2 ^ (52 - 52)) with 1 in *.
    rewrite nearest_even_integer, Z.mul_1_r in *.
    destruct (Z.eqb_spec p (2 ^ 53)); [lia|reflexivity].
  - rewrite nearest_even_integer.
    replace (- (Z.log2 p - 52)) with (52 - Z.log2 p) by lia.
    destruct (Z.eqb_spec (p * 2 ^ (52 - Z.log2 p)) (2 ^ 53)); [lia|reflexivity].
Qed.

Lemma trunc_round_integer p : 0 <= p <= 2 ^ 53 -> trunc (round p 1) = p.
Proof.
  intros [Hp Hle].
  destruct (Z.eq_dec p 0) as [->|Hp0]; [reflexivity|].
  destruct (Z.eq_dec p (2 ^ 53)) as [->|Hp53]; [reflexivity|].
  rewrite round_integer by lia.
  pose proof (Z.log2_nonneg p) as H0.
  assert (Hl : Z.log2 p < 53) by (apply Z.log2_lt_pow2; lia).
  unfold trunc; simpl mant; simpl expo.
  destruct (Z.leb_spec 0 (Z.log2 p - 52)).
  - replace (Z.log2 p) with 52 by lia. change (2 ^ (52 - 52)) with 1. lia.
  - replace (- (Z.log2 p - 52)) with (52 - Z.log2 p) by lia.
    apply Z.quot_mul. apply Z.pow_nonzero; lia.
Qed.

Lemma of_decimal_integer v :
  of_decimal v 0 = mk (Z.sgn v * mant (round (Z.abs v) 1)) (expo (round (Z.abs v) 1)).
Proof. unfold of_decimal. simpl (0 <=? 0). cbv iota. rewrite Z.pow_0_r, Z.mul_1_r. reflexivity. Qed.

Lemma trunc_sgn s x :
  s = 1 \/ s = -1 \/ (s = 0 /\ mant x = 0) ->
  trunc (mk (s * mant x) (expo x)) = s * trunc x.
Proof.
  unfold trunc; simpl. intros Hs. destruct (Z.leb_spec 0 (expo x)).
  - ring.
  - destruct Hs as [->|[->|[-> ->]]]; rewrite ?Z.mul_1_l; try reflexivity.
    replace (-1 * mant x) with (- mant x) by ring.
    rewrite Z.quot_opp_l; [ring|]. apply Z.pow_nonzero; lia.
Qed.

(** An integral literal within [2^53] of zero converts back to itself. *)
Lemma to_int64_of_decimal v :
  - 2 ^ 53 <= v <= 2 ^ 53 -> to_int64 (of_decimal v 0) = v.
Proof.
  intros Hv. rewrite of_decimal_integer.
  assert (Ht : trunc (mk (Z.sgn v * mant (round (Z.abs v) 1))
                        (expo (round (Z.abs v) 1))) = v).
  { rewrite trunc_sgn.
    - rewrite trunc_round_integer by lia. lia.
    - destruct (Z.sgn_spec v) as [[? ->]|[[? ->]|[? ->]]]; auto.
      subst v. right; right. split; reflexivity. }
  unfold to_int64. rewrite Ht.
  destruct (Z.leb_spec (- 2 ^ 63) v); [|lia].
  destruct (Z.ltb_spec v (2 ^ 63)); [reflexivity|lia].
Qed.

Lemma expo_round_integer p : 0 <= p -> expo (round p 1) <= Z.log2 p - 51.
Proof.
  intros Hp. pose proof (Z.log2_nonneg p) as H0. unfold round.
  destruct (Z.eqb_spec p 0) as [->|Hp0]; [simpl; unfold emin; lia|].
  rewrite ilog2_integer by lia.
  replace (Z.max (Z.log2 p - 52) emin) with (Z.log2 p - 52)
    by (unfold emin; lia).
  destruct (scale p 1 (Z.log2 p - 52)) as [n m].
  destruct (nearest_even n m =? 2 ^ 53); simpl; lia.
Qed.

(** An integer literal of 64 bits never overflows float64. *)
Lemma overflow_of_integer n :
  - 2 ^ 64 < n < 2 ^ 64 -> overflow (of_decimal n 0) = false.
Proof.
  intros Hn. rewrite of_decimal_integer. unfold overflow. simpl expo.
  pose proof (expo_round_integer (Z.abs n) ltac:(lia)) as He.
  assert (Z.log2 (Z.abs n) < 64).
  { destruct (Z.eq_dec n 0) as [->|]; [reflexivity|].
    apply Z.log2_lt_pow2; lia. }
  destruct (Z.ltb_spec emax (expo (round (Z.abs n) 1))); [|reflexivity].
  unfold emax in *. lia.
Qed.

Lemma overflow_point_zero v :
  overflow (of_decimal (10 * v) (-1)) = overflow (of_decimal v 0).
Proof. rewrite of_decimal_point_zero. reflexivity. Qed.

End f64_facts.

(** ** Text *)

Module GoString_facts.
Import GoString.

(** [s] occurs in [t]. *)
Definition Substring (s t : string) : Prop :=
  exists a b, t = a +:+ s +:+ b.

Lemma append_cons x (a b : string) : String x a +:+ b = String x (a +:+ b).
Proof. reflexivity. Qed.

Lemma append_nil_l (b : string) : EmptyString +:+ b = b.
Proof. reflexivity. Qed.

Lemma append_assoc (a b c : string) : (a +:+ b) +:+ c = a +:+ (b +:+ c).
Proof.
  induction a as [|x a IH]; [reflexivity|].
  rewrite !append_cons, IH. reflexivity.
Qed.

Lemma append_nil_r (a : string) : a +:+ EmptyString = a.
Proof.
  induction a as [|x a IH]; [reflexivity|]. rewrite append_cons, IH. reflexivity.
Qed.

Lemma prefix_spec (s t : string) :
  String.prefix s t = true <-> exists b, t = s +:+ b.
Proof.
  revert t. induction s as [|x s IH]; intros t.
  - split; [intros _; exists t; reflexivity | intros _; destruct t; reflexivity].
  - destruct t as [|y t]; simpl.
    + split; [discriminate | intros [b Hb]; discriminate].
    + destruct (ascii_dec x y) as [->|Hne].
      * rewrite IH. split; intros [b Hb]; exists b.
        -- rewrite Hb. reflexivity.
        -- rewrite append_cons in Hb. injection Hb as ->. reflexivity.
      * split; [discriminate|].
        intros [b Hb]. rewrite append_cons in Hb. congruence.
Qed.

(** [strings.Contains] decides occurrence. *)
Lemma Contains_spec (s sub : string) :
  Contains s sub = true <-> Substring sub s.
Proof.
  induction s as [|x s IH].
  - destruct sub as [|y sub]; simpl.
    + split; [intros _; exists EmptyString, EmptyString|]; reflexivity.
    + split; [discriminate|]. intros [a [b Hb]]. destruct a; discriminate.
  - change (Contains (String x s) sub)
      with (String.prefix sub (String x s) || Contains s sub).
    rewrite orb_true_iff, prefix_spec, IH. split.
    + intros [[b Hb]|[a [b Hb]]].
      * exists EmptyString, b. exact Hb.
      * exists (String x a), b. rewrite append_cons, Hb. reflexivity.
    + intros [a [b Hb]]. destruct a as [|y a].
      * left. exists b. exact Hb.
      * right. rewrite append_cons in Hb. injection Hb as -> ->.
        exists a, b. reflexivity.
Qed.

Lemma Contains_char (s : string) (c : ascii) :
  Contains s (String c EmptyString) = true <-> In c (list_ascii_of_string s).
Proof.
  induction s as [|x s IH]; simpl.
  - split; [discriminate | intros []].
  - rewrite orb_true_iff, IH. destruct (ascii_dec c x) as [->|Hne].
    + split; [intros _; left; reflexivity|intros _; left].
      destruct s; reflexivity.
    + split; [intros [?|?]; [discriminate|right; assumption]|].
      intros [?|?]; [congruence|right; assumption].
Qed.

Lemma Substring_refl (s : string) : Substring s s.
Proof. exists EmptyString, EmptyString. rewrite append_nil_r. reflexivity. Qed.

Lemma Substring_refl_mid (a s b : string) : Substring s (a +:+ s +:+ b).
Proof. exists a, b. reflexivity. Qed.

Lemma Substring_app_r (s a t : string) : Substring s t -> Substring s (a +:+ t).
Proof.
  intros [x [y ->]]. exists (a +:+ x), y. rewrite !append_assoc. reflexivity.
Qed.

Lemma Substring_app_l (s t b : string) : Substring s t -> Substring s (t +:+ b).
Proof.
  intros [x [y ->]]. exists x, (y +:+ b). rewrite !append_assoc. reflexivity.
Qed.

Lemma Substring_cons (s t : string) c : Substring s t -> Substring s (String c t).
Proof. apply (Substring_app_r s (String c EmptyString) t). Qed.

End GoString_facts.

Module strconv_facts.
Import GoString strconv GoString_facts.

(** Printable ASCII other than the double quote and the backslash. *)
Definition plain (c : ascii) : bool :=
  between 32 126 (byte c) && negb (byte c =? 34) && negb (byte c =? 92).

Fixpoint all_plain (s : string) : bool :=
  match s with
  | EmptyString => true
  | String c s' => plain c && all_plain s'
  end.

Section Quote.
Context `{Unicode}.

Lemma quoteLoop_plain (s : string) : all_plain s = true -> quoteLoop 0 s = s.
Proof.
  induction s as [|c s IH]; simpl; [reflexivity|].
  intros [Hc Hs]%andb_prop. rewrite (IH Hs).
  unfold plain, between in Hc.
  apply andb_prop in Hc as [[[H1 H2]%andb_prop H3]%andb_prop H4].
  apply negb_true_iff in H3, H4.
  destruct (Z.ltb_spec (byte c) 128) as [_|Hge]; [|apply Z.leb_le in H2; lia].
  unfold escapeASCII, between. rewrite H3, H4, H1, H2. reflexivity.
Qed.

(** A body of plain characters is quoted by putting it between quotes. *)
Lemma Quote_plain (s : string) :
  all_plain s = true -> Quote s = String dquote (s +:+ String dquote EmptyString).
Proof. intros Hs. unfold Quote. rewrite quoteLoop_plain by exact Hs. reflexivity. Qed.

End Quote.
End strconv_facts.

(** ** JSON documents *)

Module json_facts.
Import json.

Lemma finite_object_insert (o : gmap string document) k d :
  o !! k = None ->
  finite (JObject (<[k := d]> o)) = finite (JObject o) && finite d.
Proof.
  intros Hk. simpl. rewrite map_fold_insert_L; [reflexivity| |exact Hk].
  intros j1 j2 z1 z2 y _ _ _.
  destruct y, (finite z1), (finite z2); reflexivity.
Qed.

Lemma finite_object_delete (o : gmap string document) k :
  finite (JObject o) = true -> finite (JObject (delete k o)) = true.
Proof.
  intros Ho. destruct (o !! k) as [d|] eqn:Hk.
  - rewrite <- (insert_delete_id o k d Hk) in Ho.
    rewrite finite_object_insert in Ho by apply lookup_delete_eq.
    apply andb_prop in Ho as [Ho _]. exact Ho.
  - rewrite delete_id by exact Hk. exact Ho.
Qed.

Lemma finite_object_insert_intro (o : gmap string document) k d :
  finite (JObject o) = true -> finite d = true ->
  finite (JObject (<[k := d]> o)) = true.
Proof.
  intros Ho Hd. rewrite <- insert_delete_eq.
  rewrite finite_object_insert by apply lookup_delete_eq.
  rewrite finite_object_delete by exact Ho. exact Hd.
Qed.

Lemma finite_object_empty : finite (JObject ∅) = true.
Proof. reflexivity. Qed.

Lemma finite_integer n : - 2 ^ 64 < n < 2 ^ 64 -> finite (JNumber n 0) = true.
Proof. intros Hn. simpl. rewrite f64_facts.overflow_of_integer by exact Hn. reflexivity. Qed.

Section Decode.
Context `{Text}.

(** The response text is the object [o], whose numbers all fit float64. *)
Definition reads (response : string) (o : gmap string document) : Prop :=
  scan response = OK (JObject o) /\ finite (JObject o) = true.

Lemma Decode_reads response o :
  reads response o -> Decode response = OK (fromJSON <$> o).
Proof.
  intros [Hs Hf]. simpl. unfold DecodeMap. rewrite Hs, Hf. reflexivity.
Qed.

End Decode.
End json_facts.

(** ** The alert-channel decoder, step by step *)

Module codec_facts.
Import GoString fmt json http checkly json_facts.

Section Steps.
Context `{strconv.Unicode} `{Text} `{Registry}.

(** The successive blocks of [alertChannelFromJSON], each acting on the
    decoded map and on the channel built so far. *)
Definition extractID (result : gmap string any) (a : AlertChannel)
    : outcome AlertChannel :=
  match result !! "id" with
  | Some v =>
      match v with
      | VInt _ | VInt64 _ => n ← assertInt64 v; Ret (setID n a)
      | VFloat32 _ | VFloat64 _ =>
          x ← assertFloat64 v; Ret (setID (f64.to_int64 x) a)
      | _ => Ret a
      end
  | None => Ret a
  end.

Definition extractType (result : gmap string any) (a : AlertChannel)
    : outcome AlertChannel :=
  match result !! "type" with
  | Some v => s ← assertString v; Ret (setType s a)
  | None => Ret a
  end.

Definition extractBool (key : string)
    (set : bool -> AlertChannel -> AlertChannel)
    (result : gmap string any) (a : AlertChannel) : outcome AlertChannel :=
  match result !! key with
  | Some v => b ← assertBool v; Ret (set b a)
  | None => Ret a
  end.

Definition extractThreshold (result : gmap string any) (a : AlertChannel)
    : outcome AlertChannel :=
  match result !! "sslExpiryThreshold" with
  | Some v =>
      match v with
      | VInt _ | VInt64 _ => t ← assertInt v; Ret (setSSLExpiryThreshold t a)
      | VFloat32 _ | VFloat64 _ =>
          x ← assertFloat64 v;
          Ret (setSSLExpiryThreshold (f64.to_int64 x) a)
      | _ => Ret a
      end
  | None => Ret a
  end.

Definition extractConfig (result : gmap string any) (a : AlertChannel)
    : outcome AlertChannel :=
  match result !! "config" with
  | Some cfg =>
      match MarshalAny cfg with
      | Err err => Fail err
      | OK cfgJSON =>
          match AlertChannelConfigFromJSON (Type_ a) cfgJSON with
          | Err err => Fail err
          | OK c => Ret (SetConfig c a)
          end
      end
  | None => Ret a
  end.

Definition fill (result : gmap string any) : outcome AlertChannel :=
  a ← extractID result zeroAlertChannel;
  a ← extractType result a;
  a ← extractBool "sendRecovery" setSendRecovery result a;
  a ← extractBool "sendFailure" setSendFailure result a;
  a ← extractBool "sendDegraded" setSendDegraded result a;
  a ← extractBool "sslExpiry" setSSLExpiry result a;
  a ← extractThreshold result a;
  extractConfig result a.

Lemma alertChannelFromJSON_fill response result :
  Decode response = OK result -> alertChannelFromJSON response = fill result.
Proof. intros Hd. unfold alertChannelFromJSON. rewrite Hd. reflexivity. Qed.

Lemma alertChannelFromJSON_reads response o :
  reads response o -> alertChannelFromJSON response = fill (fromJSON <$> o).
Proof. intros Hr. apply alertChannelFromJSON_fill, Decode_reads, Hr. Qed.

(** On a decoded map, where every number is a float64. *)
Lemma extractID_decoded (o : gmap string document) a :
  extractID (fromJSON <$> o) a =
  Ret match o !! "id" with
      | Some (JNumber m e) => setID (f64.to_int64 (f64.of_decimal m e)) a
      | _ => a
      end.
Proof.
  unfold extractID. rewrite lookup_fmap.
  destruct (o !! "id") as [[]|]; reflexivity.
Qed.

Lemma extractThreshold_decoded (o : gmap string document) a :
  extractThreshold (fromJSON <$> o) a =
  Ret match o !! "sslExpiryThreshold" with
      | Some (JNumber m e) =>
          setSSLExpiryThreshold (f64.to_int64 (f64.of_decimal m e)) a
      | _ => a
      end.
Proof.
  unfold extractThreshold. rewrite lookup_fmap.
  destruct (o !! "sslExpiryThreshold") as [[]|]; reflexivity.
Qed.

Lemma extractType_decoded (o : gmap string document) a :
  extractType (fromJSON <$> o) a =
  match o !! "type" with
  | Some (JString s) => Ret (setType s a)
  | Some _ => Panic
  | None => Ret a
  end.
Proof.
  unfold extractType. rewrite lookup_fmap.
  destruct (o !! "type") as [[]|]; reflexivity.
Qed.

Lemma extractBool_decoded key set (o : gmap string document) a :
  extractBool key set (fromJSON <$> o) a =
  match o !! key with
  | Some (JBool b) => Ret (set b a)
  | Some _ => Panic
  | None => Ret a
  end.
Proof.
  unfold extractBool. rewrite lookup_fmap.
  destruct (o !! key) as [[]|]; reflexivity.
Qed.

Lemma extractConfig_decoded (o : gmap string document) a :
  extractConfig (fromJSON <$> o) a =
  match o !! "config" with
  | Some d =>
      match AlertChannelConfigFromJSON (Type_ a)
              (print (toJSON (fromJSON d))) with
      | Err err => Fail err
      | OK c => Ret (SetConfig c a)
      end
  | None => Ret a
  end.
Proof.
  unfold extractConfig. rewrite lookup_fmap.
  destruct (o !! "config"); reflexivity.
Qed.

(** The decoder as a sequence of steps. *)
Fixpoint run (ks : list (AlertChannel -> outcome AlertChannel))
    (a : AlertChannel) : outcome AlertChannel :=
  match ks with
  | [] => Ret a
  | k :: ks' => a' ← k a; run ks' a'
  end.

(** The steps that read the type tag and the four flags. *)
Definition middle (result : gmap string any)
    : list (AlertChannel -> outcome AlertChannel) :=
  [ extractType result;
    extractBool "sendRecovery" setSendRecovery result;
    extractBool "sendFailure" setSendFailure result;
    extractBool "sendDegraded" setSendDegraded result;
    extractBool "sslExpiry" setSSLExpiry result ].

Definition steps (result : gmap string any)
    : list (AlertChannel -> outcome AlertChannel) :=
  (extractID result :: middle result ++
     [extractThreshold result; extractConfig result])%list.

Ltac split_Forall :=
  repeat match goal with
         | |- Forall _ (_ :: _) => constructor
         | |- Forall _ [] => constructor
         | |- Forall2 _ (_ :: _) (_ :: _) => constructor
         | |- Forall2 _ [] [] => constructor
         end.

Lemma bind_ext {A B} (x : outcome A) (k1 k2 : A -> outcome B) :
  (forall a, k1 a = k2 a) -> x ≫= k1 = x ≫= k2.
Proof. intros Hk. destruct x; cbn; auto. Qed.

Lemma bind_ret_r {A} (x : outcome A) : x ≫= Ret = x.
Proof. destruct x; reflexivity. Qed.

Lemma bind_assoc {A B C} (x : outcome A) (k1 : A -> outcome B)
    (k2 : B -> outcome C) :
  (x ≫= k1) ≫= k2 = x ≫= (fun a => k1 a ≫= k2).
Proof. destruct x; reflexivity. Qed.

Lemma fmap_ret_inv {A B} (f : A -> B) (x : outcome A) (b : B) :
  f <$> x = Ret b -> exists a, x = Ret a /\ b = f a.
Proof.
  destruct x as [a| |]; cbn; intros Hx; try discriminate.
  injection Hx as <-. exists a. split; reflexivity.
Qed.

Lemma fill_run result : fill result = run (steps result) zeroAlertChannel.
Proof.
  unfold fill, steps, middle. cbn [run app].
  do 7 (apply bind_ext; intros ?). symmetry. apply bind_ret_r.
Qed.

Lemma run_app ks ks' a : run (ks ++ ks') a = run ks a ≫= run ks'.
Proof.
  revert a. induction ks as [|k ks IH]; intros a; cbn [run app].
  - reflexivity.
  - rewrite bind_assoc. apply bind_ext. exact IH.
Qed.

Lemma run_ext ks ks' a :
  Forall2 (fun k k' => forall a, k a = k' a) ks ks' -> run ks a = run ks' a.
Proof.
  intros Hks. revert a. induction Hks as [|k k' ks ks' Hk _ IH]; intros a.
  - reflexivity.
  - cbn [run]. rewrite Hk. apply bind_ext. exact IH.
Qed.

(** [k] does not look at what [f] sets, and does not undo it. *)
Definition commutes (f : AlertChannel -> AlertChannel)
    (k : AlertChannel -> outcome AlertChannel) : Prop :=
  forall a, k (f a) = f <$> k a.

Lemma run_commutes f ks : Forall (commutes f) ks -> commutes f (run ks).
Proof.
  intros Hks. induction Hks as [|k ks Hk _ IH]; intros a; cbn [run].
  - reflexivity.
  - rewrite Hk. destruct (k a); cbn; [apply IH|reflexivity..].
Qed.

Lemma setID_commutes_middle n result :
  Forall (commutes (setID n)) (middle result).
Proof.
  unfold middle. split_Forall; intros a.
  - unfold extractType. destruct (result !! "type") as [[]|]; reflexivity.
  - unfold extractBool. destruct (result !! "sendRecovery") as [[]|]; reflexivity.
  - unfold extractBool. destruct (result !! "sendFailure") as [[]|]; reflexivity.
  - unfold extractBool. destruct (result !! "sendDegraded") as [[]|]; reflexivity.
  - unfold extractBool. destruct (result !! "sslExpiry") as [[]|]; reflexivity.
Qed.

Lemma setID_commutes_threshold n result :
  commutes (setID n) (extractThreshold result).
Proof.
  intros a. unfold extractThreshold.
  destruct (result !! "sslExpiryThreshold") as [[]|]; reflexivity.
Qed.

Lemma setID_commutes_config n result :
  commutes (setID n) (extractConfig result).
Proof.
  intros a. unfold extractConfig. destruct (result !! "config"); [|reflexivity].
  destruct (MarshalAny _); [|reflexivity]. cbn [Type_ setID].
  destruct (AlertChannelConfigFromJSON _ _); reflexivity.
Qed.

Lemma setSSLExpiryThreshold_commutes_config t result :
  commutes (setSSLExpiryThreshold t) (extractConfig result).
Proof.
  intros a. unfold extractConfig. destruct (result !! "config"); [|reflexivity].
  destruct (MarshalAny _); [|reflexivity]. cbn [Type_ setSSLExpiryThreshold].
  destruct (AlertChannelConfigFromJSON _ _); reflexivity.
Qed.

(** A key that a step does not read may change without effect. *)
Lemma middle_insert_ne key x result :
  key <> "type" -> ~ In key ["sendRecovery"; "sendFailure"; "sendDegraded"; "sslExpiry"] ->
  Forall2 (fun k k' => forall a, k a = k' a)
    (middle (<[key := x]> result)) (middle result).
Proof.
  intros Ht Hf. simpl in Hf. unfold middle.
  split_Forall; intros a;
    unfold extractType, extractBool;
    rewrite lookup_insert_ne by (intros ->; tauto);
    reflexivity.
Qed.

Lemma extractThreshold_insert_ne key x result a :
  key <> "sslExpiryThreshold" ->
  extractThreshold (<[key := x]> result) a = extractThreshold result a.
Proof. intros Hk. unfold extractThreshold. rewrite lookup_insert_ne by exact Hk. reflexivity. Qed.

Lemma extractID_insert_ne key x result a :
  key <> "id" -> extractID (<[key := x]> result) a = extractID result a.
Proof. intros Hk. unfold extractID. rewrite lookup_insert_ne by exact Hk. reflexivity. Qed.

Lemma extractConfig_insert_ne key x result a :
  key <> "config" ->
  extractConfig (<[key := x]> result) a = extractConfig result a.
Proof. intros Hk. unfold extractConfig. rewrite lookup_insert_ne by exact Hk. reflexivity. Qed.

(** An identifier that arrives as a float64 is set to its conversion, and
    the rest of the payload is read as without it. *)
Lemma fill_insert_id x result :
  result !! "id" = None ->
  fill (<["id" := VFloat64 x]> result) = setID (f64.to_int64 x) <$> fill result.
Proof.
  intros Hid. rewrite !fill_run. unfold steps. cbn [run].
  unfold extractID. rewrite lookup_insert_eq, Hid. cbn -[run app middle].
  rewrite <- (run_commutes (setID (f64.to_int64 x))).
  - apply run_ext. apply Forall2_app.
    + apply middle_insert_ne; [discriminate|]. simpl. intuition discriminate.
    + split_Forall; intros a.
      * apply extractThreshold_insert_ne. discriminate.
      * apply extractConfig_insert_ne. discriminate.
  - apply Forall_app. split; [apply setID_commutes_middle|].
    split_Forall.
    + apply setID_commutes_threshold.
    + apply setID_commutes_config.
Qed.

(** The same for the threshold. *)
Lemma fill_insert_threshold x result :
  result !! "sslExpiryThreshold" = None ->
  fill (<["sslExpiryThreshold" := VFloat64 x]> result) =
  setSSLExpiryThreshold (f64.to_int64 x) <$> fill result.
Proof.
  intros Hthr. rewrite !fill_run. unfold steps.
  rewrite !app_comm_cons, !run_app.
  set (front r := (extractID r :: middle r)%list).
  assert (Hfront : forall a,
            run (front (<["sslExpiryThreshold" := VFloat64 x]> result)) a =
            run (front result) a).
  { intros a. apply run_ext. constructor.
    - intros a'. apply extractID_insert_ne. discriminate.
    - apply middle_insert_ne; [discriminate|]. simpl. intuition discriminate. }
  fold (front result). fold (front (<["sslExpiryThreshold" := VFloat64 x]> result)).
  rewrite Hfront. destruct (run (front result) zeroAlertChannel) as [a| |]; cbn;
    [|reflexivity..].
  unfold extractThreshold at 1 2. rewrite lookup_insert_eq, Hthr. cbn.
  rewrite extractConfig_insert_ne by discriminate.
  rewrite setSSLExpiryThreshold_commutes_config.
  destruct (extractConfig result a); reflexivity.
Qed.

End Steps.
End codec_facts.

(** ** The alert-channel codec: typing of the payload *)

Module codec_typing.
Import GoString fmt json http checkly json_facts codec_facts.

Definition isString (d : document) : bool :=
  match d with JString _ => true | _ => false end.

Definition isBool (d : document) : bool :=
  match d with JBool _ => true | _ => false end.

(** The keys read with [v.(bool)]. *)
Definition flags : list string :=
  ["sendRecovery"; "sendFailure"; "sendDegraded"; "sslExpiry"].

(** Every flag of the payload, when present, is a boolean. *)
Definition flagsTyped (o : gmap string document) : Prop :=
  forall k d, In k flags -> o !! k = Some d -> isBool d = true.

(** The type tag of the payload, when present, is a string. *)
Definition typeTyped (o : gmap string document) : Prop :=
  forall d, o !! "type" = Some d -> isString d = true.

(** The type tag the decoder holds when it reaches the configuration. *)
Definition tag (o : gmap string document) : string :=
  match o !! "type" with
  | Some (JString s) => s
  | _ => EmptyString
  end.

Section Typing.
Context `{strconv.Unicode} `{Text} `{Registry}.

(** The configuration of the payload, when it has one, is accepted by the
    parser that the type tag selects. *)
Definition configParses (o : gmap string document) : Prop :=
  forall d, o !! "config" = Some d ->
    exists c, AlertChannelConfigFromJSON (tag o)
                (print (toJSON (fromJSON d))) = OK c.

(** The payloads of which the decoder makes a channel. *)
Definition decodable (o : gmap string document) : Prop :=
  typeTyped o /\ flagsTyped o /\ configParses o.

Ltac next_field key :=
  let E := fresh "E" in
  destruct (_ !! key) as [[]|] eqn:E; cbn; try reflexivity.

(** C9: a payload whose [type] is present but not a string, or one of whose
    four flags is present but not a boolean, makes the decoder panic: no
    error is returned. *)
Theorem alertChannelFromJSON_panics response (o : gmap string document) :
  reads response o ->
  (exists d, o !! "type" = Some d /\ isString d = false) \/
  (exists k d, In k flags /\ o !! k = Some d /\ isBool d = false) ->
  alertChannelFromJSON response = Panic.
Proof.
  intros Hr Hbad. rewrite (alertChannelFromJSON_reads _ _ Hr). unfold fill.
  rewrite extractID_decoded. cbn.
  rewrite extractType_decoded. next_field "type";
  (rewrite extractBool_decoded; next_field "sendRecovery");
  (rewrite extractBool_decoded; next_field "sendFailure");
  (rewrite extractBool_decoded; next_field "sendDegraded");
  (rewrite extractBool_decoded; next_field "sslExpiry");
  exfalso;
  (destruct Hbad as [(d & Hd & Hs)|(k & d & Hk & Hd & Hs)];
   [ rewrite Hd in *; simplify_eq; discriminate
   | repeat (destruct Hk as [<-|Hk]; [rewrite Hd in *; simplify_eq; discriminate|]);
     destruct Hk ]).
Qed.

Ltac typed_field key Htyped :=
  let E := fresh "E" in
  destruct (_ !! key) as [[]|] eqn:E; cbn;
  try (exfalso; apply Htyped in E; [discriminate|simpl; tauto]);
  try (exfalso; apply Htyped in E; discriminate).

Lemma decoded_fields (o : gmap string document) (a : AlertChannel) :
  let a1 := match o !! "sslExpiryThreshold" with
            | Some (JNumber m e) =>
                setSSLExpiryThreshold (f64.to_int64 (f64.of_decimal m e)) a
            | _ => a
            end in
  Type_ a1 = Type_ a /\ Config a1 = Config a.
Proof. destruct (o !! "sslExpiryThreshold") as [[]|]; split; reflexivity. Qed.

Lemma decoded_id_fields (o : gmap string document) (a : AlertChannel) :
  let a1 := match o !! "id" with
            | Some (JNumber m e) =>
                setID (f64.to_int64 (f64.of_decimal m e)) a
            | _ => a
            end in
  Type_ a1 = Type_ a /\ Config a1 = Config a.
Proof. destruct (o !! "id") as [[]|]; split; reflexivity. Qed.

(** C10, as amended: a payload without a [config] key whose type tag and
    flags, where present, are a string and booleans, is decoded with
    success; the configuration stays unset and the type tag is taken as it
    is, whether the registry knows it or not. *)
Theorem alertChannelFromJSON_without_config response
    (o : gmap string document) :
  reads response o ->
  o !! "config" = None ->
  typeTyped o ->
  flagsTyped o ->
  exists ac,
    alertChannelFromJSON response = Ret ac /\ Config ac = None /\
    (forall s, o !! "type" = Some (JString s) -> Type_ ac = s).
Proof.
  intros Hr Hcfg Htype Hflags.
  rewrite (alertChannelFromJSON_reads _ _ Hr). unfold fill.
  rewrite extractID_decoded. cbn.
  pose proof (decoded_id_fields o zeroAlertChannel) as [Hty0 Hcfg0].
  set (a0 := match o !! "id" with
             | Some (JNumber m e) => _
             | _ => _
             end) in *.
  clearbody a0. cbn in Hty0, Hcfg0.
  rewrite extractType_decoded. typed_field "type" Htype;
  (rewrite extractBool_decoded; typed_field "sendRecovery" (Hflags "sendRecovery"));
  (rewrite extractBool_decoded; typed_field "sendFailure" (Hflags "sendFailure"));
  (rewrite extractBool_decoded; typed_field "sendDegraded" (Hflags "sendDegraded"));
  (rewrite extractBool_decoded; typed_field "sslExpiry" (Hflags "sslExpiry"));
  rewrite extractThreshold_decoded; cbn;
  rewrite extractConfig_decoded, Hcfg;
  (eexists; split; [reflexivity|]);
  match goal with
  | |- Config ?t = _ /\ _ =>
      match t with
      | context [o !! "sslExpiryThreshold"] => idtac
      end
  end;
  match goal with
  | |- Config (match _ with Some _ => _ | None => ?b end) = _ /\ _ =>
      pose proof (decoded_fields o b) as [Hty1 Hcfg1]; cbn in Hty1, Hcfg1;
      rewrite Hty1, Hcfg1
  end;
  (split; [exact Hcfg0|]); intros s' Hs'; simplify_eq; try reflexivity;
  try exact Hty0.
Qed.

(** C2, as amended: a payload that carries a [config] key, whose type tag
    is a string without a parser in the registry and whose flags, where
    present, are booleans, is not decoded: an error is returned and no
    channel. *)
Theorem alertChannelFromJSON_unsupported_type response
    (o : gmap string document) (ty : string) (cfg : document) :
  reads response o ->
  o !! "type" = Some (JString ty) ->
  parsers !! ty = None ->
  o !! "config" = Some cfg ->
  flagsTyped o ->
  exists e, alertChannelFromJSON response = Fail e.
Proof.
  intros Hr Hty Hreg Hcfg Hflags.
  rewrite (alertChannelFromJSON_reads _ _ Hr). unfold fill.
  rewrite extractID_decoded. cbn.
  set (a0 := match o !! "id" with
             | Some (JNumber m e) => _
             | _ => _
             end).
  clearbody a0.
  rewrite extractType_decoded, Hty. cbn.
  (rewrite extractBool_decoded; typed_field "sendRecovery" (Hflags "sendRecovery"));
  (rewrite extractBool_decoded; typed_field "sendFailure" (Hflags "sendFailure"));
  (rewrite extractBool_decoded; typed_field "sendDegraded" (Hflags "sendDegraded"));
  (rewrite extractBool_decoded; typed_field "sslExpiry" (Hflags "sslExpiry"));
  rewrite extractThreshold_decoded; cbn;
  rewrite extractConfig_decoded, Hcfg;
  match goal with
  | |- context [AlertChannelConfigFromJSON (Type_ (match _ with Some _ => _ | None => ?b end))] =>
      pose proof (decoded_fields o b) as [Hty1 _]; cbn in Hty1;
      rewrite Hty1
  end;
  unfold AlertChannelConfigFromJSON; rewrite Hreg; eexists; reflexivity.
Qed.

(** A decodable payload is decoded. *)
Lemma fill_decodable (o : gmap string document) :
  decodable o -> exists ac, fill (fromJSON <$> o) = Ret ac.
Proof.
  intros (Htype & Hflags & Hcfg). unfold fill.
  rewrite extractID_decoded. cbn.
  pose proof (decoded_id_fields o zeroAlertChannel) as [Hty0 _].
  set (a0 := match o !! "id" with
             | Some (JNumber m e) => _
             | _ => _
             end) in *.
  clearbody a0. cbn in Hty0.
  unfold configParses in Hcfg. remember (tag o) as t eqn:Ht. unfold tag in Ht.
  rewrite extractType_decoded. typed_field "type" Htype;
  (rewrite extractBool_decoded; typed_field "sendRecovery" (Hflags "sendRecovery"));
  (rewrite extractBool_decoded; typed_field "sendFailure" (Hflags "sendFailure"));
  (rewrite extractBool_decoded; typed_field "sendDegraded" (Hflags "sendDegraded"));
  (rewrite extractBool_decoded; typed_field "sslExpiry" (Hflags "sslExpiry"));
  rewrite extractThreshold_decoded; cbn;
  rewrite extractConfig_decoded;
  (destruct (o !! "config") as [d|] eqn:Ec; [|eexists; reflexivity]);
  destruct (Hcfg d eq_refl) as [c Hc];
  match goal with
  | |- context [AlertChannelConfigFromJSON
                  (Type_ (match _ with Some _ => _ | None => ?b end))] =>
      pose proof (decoded_fields o b) as [Hty1 _]; cbn in Hty1; rewrite Hty1
  end;
  subst t; rewrite ?Hty0, Hc; eexists; reflexivity.
Qed.

(** The identifier and the threshold are not what makes a payload
    decodable. *)
Lemma decodable_insert (k : string) (d : document)
    (o : gmap string document) :
  k = "id" \/ k = "sslExpiryThreshold" ->
  decodable o -> decodable (<[k := d]> o).
Proof.
  intros Hk (Htype & Hflags & Hcfg).
  assert (Hne : forall k', k' = "type" \/ In k' flags \/ k' = "config" ->
                           <[k := d]> o !! k' = o !! k').
  { intros k' Hk'. apply lookup_insert_ne. simpl in Hk'.
    intros <-. intuition (subst; discriminate). }
  split; [|split].
  - intros d'. rewrite Hne by tauto. apply Htype.
  - intros k' d' Hin. rewrite Hne by tauto. apply Hflags. exact Hin.
  - intros d'. unfold tag. rewrite !Hne by tauto. apply Hcfg.
Qed.

(** C3: an identifier, and likewise a threshold, of integral value [v]
    within [2^53] of zero is decoded to [v] whether the payload writes it
    as the integer [v] or as the float [v.0], whatever else the payload
    holds: the two payloads are decoded alike, a channel they are decoded
    to has the field at [v], and they are decoded to a channel whenever
    the rest of the payload is decodable. *)
Theorem alertChannelFromJSON_integer_or_float (v : Z)
    (o : gmap string document) (r1 r2 r3 r4 : string) :
  - 2 ^ 53 <= v <= 2 ^ 53 ->
  finite (JObject o) = true ->
  scan r1 = OK (JObject (<["id" := JNumber v 0]> o)) ->
  scan r2 = OK (JObject (<["id" := JNumber (10 * v) (-1)]> o)) ->
  scan r3 = OK (JObject (<["sslExpiryThreshold" := JNumber v 0]> o)) ->
  scan r4 = OK (JObject (<["sslExpiryThreshold" := JNumber (10 * v) (-1)]> o)) ->
  (alertChannelFromJSON r1 = alertChannelFromJSON r2 /\
   (forall ac, alertChannelFromJSON r1 = Ret ac -> ID ac = v) /\
   (decodable o ->
    exists ac, alertChannelFromJSON r1 = Ret ac /\
               alertChannelFromJSON r2 = Ret ac /\ ID ac = v)) /\
  (alertChannelFromJSON r3 = alertChannelFromJSON r4 /\
   (forall ac, alertChannelFromJSON r3 = Ret ac ->
               SSLExpiryThreshold ac = Some v) /\
   (decodable o ->
    exists ac, alertChannelFromJSON r3 = Ret ac /\
               alertChannelFromJSON r4 = Ret ac /\
               SSLExpiryThreshold ac = Some v)).
Proof.
  intros Hv Ho Hs1 Hs2 Hs3 Hs4.
  assert (Hfin : finite (JNumber v 0) = true) by (apply finite_integer; lia).
  assert (Hfin' : finite (JNumber (10 * v) (-1)) = true).
  { simpl. rewrite f64_facts.overflow_point_zero. exact Hfin. }
  assert (Hreads : forall k d r', finite d = true ->
            scan r' = OK (JObject (<[k := d]> o)) -> reads r' (<[k := d]> o)).
  { intros k d r' Hd Hs. split; [exact Hs|].
    apply finite_object_insert_intro; [exact Ho|exact Hd]. }
  rewrite (alertChannelFromJSON_reads _ _ (Hreads _ _ _ Hfin Hs1)).
  rewrite (alertChannelFromJSON_reads _ _ (Hreads _ _ _ Hfin' Hs2)).
  rewrite (alertChannelFromJSON_reads _ _ (Hreads _ _ _ Hfin Hs3)).
  rewrite (alertChannelFromJSON_reads _ _ (Hreads _ _ _ Hfin' Hs4)).
  assert (Hid : forall m e,
            fill (fromJSON <$> <["id" := JNumber m e]> o) =
            setID (f64.to_int64 (f64.of_decimal m e)) <$>
              fill (fromJSON <$> delete "id" o)).
  { intros m e. rewrite <- (insert_delete_eq o), fmap_insert.
    apply fill_insert_id. rewrite lookup_fmap, lookup_delete_eq.
    reflexivity. }
  assert (Hthr : forall m e,
            fill (fromJSON <$> <["sslExpiryThreshold" := JNumber m e]> o) =
            setSSLExpiryThreshold (f64.to_int64 (f64.of_decimal m e)) <$>
              fill (fromJSON <$> delete "sslExpiryThreshold" o)).
  { intros m e. rewrite <- (insert_delete_eq o), fmap_insert.
    apply fill_insert_threshold. rewrite lookup_fmap, lookup_delete_eq.
    reflexivity. }
  assert (Hv1 : f64.to_int64 (f64.of_decimal v 0) = v)
    by (apply f64_facts.to_int64_of_decimal; exact Hv).
  assert (Hv2 : f64.to_int64 (f64.of_decimal (10 * v) (-1)) = v)
    by (rewrite f64_facts.of_decimal_point_zero; exact Hv1).
  split.
  - assert (Heq : fill (fromJSON <$> <["id" := JNumber v 0]> o) =
                  fill (fromJSON <$> <["id" := JNumber (10 * v) (-1)]> o))
      by (rewrite !Hid, Hv1, Hv2; reflexivity).
    assert (Hset : forall ac,
              fill (fromJSON <$> <["id" := JNumber v 0]> o) = Ret ac ->
              ID ac = v).
    { intros ac. rewrite Hid, Hv1. intros (a & _ & ->)%fmap_ret_inv.
      reflexivity. }
    split; [exact Heq|]. split; [exact Hset|].
    intros Hdec.
    destruct (fill_decodable (<["id" := JNumber v 0]> o)) as [ac Hac].
    { apply decodable_insert; [left; reflexivity|exact Hdec]. }
    exists ac. split; [exact Hac|]. split; [rewrite <- Heq; exact Hac|].
    apply Hset, Hac.
  - assert (Heq : fill (fromJSON <$> <["sslExpiryThreshold" := JNumber v 0]> o)
                  = fill (fromJSON <$>
                            <["sslExpiryThreshold" := JNumber (10 * v) (-1)]> o))
      by (rewrite !Hthr, Hv1, Hv2; reflexivity).
    assert (Hset : forall ac,
              fill (fromJSON <$> <["sslExpiryThreshold" := JNumber v 0]> o)
                = Ret ac ->
              SSLExpiryThreshold ac = Some v).
    { intros ac. rewrite Hthr, Hv1. intros (a & _ & ->)%fmap_ret_inv.
      reflexivity. }
    split; [exact Heq|]. split; [exact Hset|].
    intros Hdec.
    destruct (fill_decodable (<["sslExpiryThreshold" := JNumber v 0]> o))
      as [ac Hac].
    { apply decodable_insert; [right; reflexivity|exact Hdec]. }
    exists ac. split; [exact Hac|]. split; [rewrite <- Heq; exact Hac|].
    apply Hset, Hac.
Qed.

End Typing.
End codec_typing.

(** ** The alert-channel codec: encoding, then decoding *)

Module codec_roundtrip.
Import GoString fmt json http checkly json_facts codec_facts.

Section Roundtrip.
Context `{strconv.Unicode} `{Text} `{Registry}.

(** What [payloadFromAlertChannel] stores under each key. *)
Lemma payload_lookup (ac : AlertChannel) :
  let p := payloadFromAlertChannel ac in
  p !! "id" = Some (VInt64 (ID ac)) /\
  p !! "type" = Some (VString (Type_ ac)) /\
  p !! "config" = Some (GetConfig ac) /\
  p !! "sendRecovery" = VBool <$> SendRecovery ac /\
  p !! "sendFailure" = VBool <$> SendFailure ac /\
  p !! "sendDegraded" = VBool <$> SendDegraded ac /\
  p !! "sslExpiry" = VBool <$> SSLExpiry ac /\
  p !! "sslExpiryThreshold" = VInt <$> SSLExpiryThreshold ac.
Proof.
  unfold payloadFromAlertChannel.
  destruct (SendRecovery ac), (SendDegraded ac), (SendFailure ac),
    (SSLExpiry ac), (SSLExpiryThreshold ac); repeat split; reflexivity.
Qed.

Lemma payload_finite (ac : AlertChannel) :
  - 2 ^ 63 <= ID ac < 2 ^ 63 ->
  (forall t, SSLExpiryThreshold ac = Some t -> - 2 ^ 63 <= t < 2 ^ 63) ->
  finite (toJSON (GetConfig ac)) = true ->
  finite (toJSON (VMap (payloadFromAlertChannel ac))) = true.
Proof.
  intros Hid Hthr Hcfg. unfold payloadFromAlertChannel.
  assert (Hb : forall b, finite (toJSON (VBool b)) = true) by reflexivity.
  assert (Hbase : finite (toJSON (VMap
            (<["id" := VInt64 (ID ac)]>
               (<["type" := VString (Type_ ac)]>
                  (<["config" := GetConfig ac]> ∅))))) = true).
  { cbn [toJSON]. rewrite !fmap_insert, fmap_empty.
    repeat apply finite_object_insert_intro; try reflexivity; try exact Hcfg.
    apply finite_integer. lia. }
  assert (Hins : forall k v (m : gmap string any),
            finite (toJSON (VMap m)) = true -> finite (toJSON v) = true ->
            finite (toJSON (VMap (<[k := v]> m))) = true).
  { intros k v m Hm Hv. cbn [toJSON] in *. rewrite fmap_insert.
    apply finite_object_insert_intro; assumption. }
  destruct (SendRecovery ac), (SendDegraded ac), (SendFailure ac),
    (SSLExpiry ac), (SSLExpiryThreshold ac) as [t|];
    repeat first
      [ exact Hbase
      | apply Hins;
        [|first [apply Hb
                | apply finite_integer; specialize (Hthr t eq_refl); lia]] ].
Qed.


End Roundtrip.
End codec_roundtrip.

(** ** The resource operations *)

Module client_facts.
Import GoString fmt json http checkly GoString_facts strconv_facts.

(** The requests handed to the HTTP client between two states. *)
Definition sends (w w' : world) (reqs : list Request) : Prop :=
  wire w' = (wire w ++ reqs)%list.

Section Operations.
Context `{strconv.Unicode} `{Lib} `{Text} `{Resources} `{Registry}.

(** From [w] to [w'] at most one request went out, with this method and
    this path under the versioned base URL. *)
Definition routed (c : client) (w w' : world) (method path : string) : Prop :=
  sends w w' [] \/
  exists req, sends w w' [req] /\ Method req = method /\
              URL req = url c +:+ "/v1/" +:+ path.

(** The request that [apiCall] builds. *)
Definition request (c : client) (method path data : string) : Request :=
  Header_Add "content-type" "application/json"
    (Header_Add "Authorization" ("Bearer " +:+ apiKey c)
       {| Method := method; URL := url c +:+ "/v1/" +:+ path;
          Header := ∅; Body := data |}).

Lemma sends_nil w : sends w w [].
Proof. unfold sends. rewrite app_nil_r. reflexivity. Qed.

Lemma apiCall_routed c ctx method path data w :
  routed c w (snd (apiCall c ctx method path data w)) method path.
Proof.
  unfold apiCall, routed.
  destruct (NewRequestError _ _); [left; apply sends_nil|].
  assert (Hsend : forall w0 req, wire w0 = wire w -> sends w (send req w0) [req]).
  { intros w0 req Hw. unfold sends, send. simpl. rewrite Hw. reflexivity. }
  destruct (debug c).
  - destruct (DumpRequestOut _); [|left; apply sends_nil].
    right. exists (request c method path data). split; [|split; reflexivity].
    destruct (httpClient c ctx _) as [resp|]; [destruct (ReadAll resp)|];
      simpl; apply Hsend; reflexivity.
  - right. exists (request c method path data). split; [|split; reflexivity].
    destruct (httpClient c ctx _) as [resp|]; [destruct (ReadAll resp)|];
      simpl; apply Hsend; reflexivity.
Qed.

(** The request of [apiCall] can be built and, where a debug writer is
    set, dumped: nothing stops it before the call of the HTTP client. *)
Definition dispatchable (c : client) (method path data : string) : Prop :=
  NewRequestError method (url c +:+ "/v1/" +:+ path) = None /\
  (debug c = true ->
   exists dump, DumpRequestOut (request c method path data) = OK dump).

(** Such a request goes out, and it alone. *)
Lemma apiCall_sends c ctx method path data w :
  dispatchable c method path data ->
  sends w (snd (apiCall c ctx method path data w))
    [request c method path data].
Proof.
  intros [Hnew Hdump]. unfold apiCall. rewrite Hnew.
  fold (request c method path data).
  destruct (debug c).
  - destruct (Hdump eq_refl) as [dump ->].
    destruct (httpClient c ctx _) as [resp|]; [destruct (ReadAll resp)|];
      reflexivity.
  - destruct (httpClient c ctx _) as [resp|]; [destruct (ReadAll resp)|];
      reflexivity.
Qed.

Lemma path_checks ID : Sprintf "checks/%s" [OStr ID] = "checks/" +:+ ID.
Proof.
  lazy -[Itoa String.append]. rewrite append_nil_r. reflexivity.
Qed.

Lemma path_check_groups ID :
  Sprintf "check-groups/%d" [OInt ID] = "check-groups/" +:+ Itoa ID.
Proof.
  lazy -[Itoa String.append]. rewrite append_nil_r. reflexivity.
Qed.

Lemma withAutoAssignAlertsFlag_plain u :
  ~ In "?"%char (list_ascii_of_string u) ->
  withAutoAssignAlertsFlag u = u +:+ "?autoAssignAlerts=false".
Proof.
  intros Hu. unfold withAutoAssignAlertsFlag.
  destruct (Contains u "?") eqn:Hc; [|reflexivity].
  apply Contains_char in Hc. contradiction.
Qed.

Lemma withAutoAssignAlertsFlag_query u :
  In "?"%char (list_ascii_of_string u) ->
  withAutoAssignAlertsFlag u = u +:+ "&autoAssignAlerts=false".
Proof.
  intros Hu. unfold withAutoAssignAlertsFlag.
  apply Contains_char in Hu. rewrite Hu. reflexivity.
Qed.

(** What a write operation does with the request of [apiCall]: the world
    it leaves is the one [apiCall] leaves, or the one it started from when
    the payload could not be marshalled. *)
Ltac after_apiCall :=
  match goal with
  | |- context [apiCall ?c ?ctx ?m ?p ?d ?w] =>
      pose proof (apiCall_routed c ctx m p d w);
      destruct (apiCall c ctx m p d w) as [[[status res] [err|]] w1];
      simpl in *; [assumption|];
      repeat match goal with
             | |- context [if ?b then _ else _] => destruct b
             | |- context [Decode ?r] => destruct (Decode r)
             end; assumption
  end.

(** The same for a request that is known to go out. *)
Ltac through_apiCall :=
  match goal with
  | |- context [apiCall ?c ?ctx ?m ?p ?d ?w] =>
      let Hs := fresh "Hs" in
      assert (Hs : sends w (snd (apiCall c ctx m p d w)) [request c m p d])
        by (apply apiCall_sends; assumption);
      destruct (apiCall c ctx m p d w) as [[[status res] [err|]] w1];
      cbn [fst snd] in *; [exact Hs|];
      repeat match goal with
             | |- context [if ?b then _ else _] => destruct b
             | |- context [Decode ?r] => destruct (Decode r)
             end; cbn [fst snd]; exact Hs
  end.

(** C6: [withAutoAssignAlertsFlag] appends the flag after a [?] when the
    path has none and after an [&] when it has one, and the create and
    update operations on checks and check groups dispatch to the path it
    returns: whenever their request goes out it is the request to that
    path, with the marshalled value as its body, and they send no other. *)
Theorem withAutoAssignAlertsFlag_routing :
  (forall u, ~ In "?"%char (list_ascii_of_string u) ->
             withAutoAssignAlertsFlag u = u +:+ "?autoAssignAlerts=false") /\
  (forall u, In "?"%char (list_ascii_of_string u) ->
             withAutoAssignAlertsFlag u = u +:+ "&autoAssignAlerts=false") /\
  (forall c ctx w,
     (forall check,
        routed c w (snd (Create c ctx check w)) MethodPost
          (withAutoAssignAlertsFlag "checks")) /\
     (forall ID check,
        routed c w (snd (Update c ctx ID check w)) MethodPut
          (withAutoAssignAlertsFlag ("checks/" +:+ ID))) /\
     (forall group,
        routed c w (snd (CreateGroup c ctx group w)) MethodPost
          (withAutoAssignAlertsFlag "check-groups")) /\
     (forall ID group,
        routed c w (snd (UpdateGroup c ctx ID group w)) MethodPut
          (withAutoAssignAlertsFlag ("check-groups/" +:+ Itoa ID)))) /\
  (forall c ctx w,
     (forall check data,
        Marshal check = OK data ->
        dispatchable c MethodPost (withAutoAssignAlertsFlag "checks") data ->
        sends w (snd (Create c ctx check w))
          [request c MethodPost (withAutoAssignAlertsFlag "checks") data]) /\
     (forall ID check data,
        Marshal check = OK data ->
        dispatchable c MethodPut
          (withAutoAssignAlertsFlag ("checks/" +:+ ID)) data ->
        sends w (snd (Update c ctx ID check w))
          [request c MethodPut
             (withAutoAssignAlertsFlag ("checks/" +:+ ID)) data]) /\
     (forall group data,
        Marshal group = OK data ->
        dispatchable c MethodPost
          (withAutoAssignAlertsFlag "check-groups") data ->
        sends w (snd (CreateGroup c ctx group w))
          [request c MethodPost
             (withAutoAssignAlertsFlag "check-groups") data]) /\
     (forall ID group data,
        Marshal group = OK data ->
        dispatchable c MethodPut
          (withAutoAssignAlertsFlag ("check-groups/" +:+ Itoa ID)) data ->
        sends w (snd (UpdateGroup c ctx ID group w))
          [request c MethodPut
             (withAutoAssignAlertsFlag ("check-groups/" +:+ Itoa ID))
             data])).
Proof.
  split; [exact withAutoAssignAlertsFlag_plain|].
  split; [exact withAutoAssignAlertsFlag_query|].
  split.
  - intros c ctx w. repeat split.
    + intros check. unfold Create.
      destruct (Marshal check); [|left; apply sends_nil]. after_apiCall.
    + intros ID check. unfold Update. rewrite path_checks.
      destruct (Marshal check); [|left; apply sends_nil]. after_apiCall.
    + intros group. unfold CreateGroup.
      destruct (Marshal group); [|left; apply sends_nil]. after_apiCall.
    + intros ID group. unfold UpdateGroup. rewrite path_check_groups.
      destruct (Marshal group); [|left; apply sends_nil]. after_apiCall.
  - intros c ctx w. split; [|split; [|split]].
    + intros check data Hm Hgo. unfold Create. rewrite Hm. through_apiCall.
    + intros ID check data Hm Hgo. unfold Update.
      rewrite Hm, path_checks. through_apiCall.
    + intros group data Hm Hgo. unfold CreateGroup. rewrite Hm.
      through_apiCall.
    + intros ID group data Hm Hgo. unfold UpdateGroup.
      rewrite Hm, path_check_groups. through_apiCall.
Qed.

(** What the create operations make of a body once the status is
    accepted. *)
Definition decoded {T} `{Codec T} (res : string) : result T :=
  match Decode res with
  | Err err => Err (Errorf "decoding error for data %s: %v"
                      [OStr res; OStr err])
  | OK result => OK result
  end.

(** C4: once the call is completed, [CreateAlertChannel] hands the body to
    the decoder exactly when the status is 200 or 201 and otherwise returns
    the unexpected-status error, while the create operations on checks,
    groups, snippets and environment variables do so for 201 alone. *)
Theorem create_status (c : client) (ctx : Context) (w w' : world)
    (status : Z) (res : string) :
  (forall ac data,
     Marshal (payloadFromAlertChannel ac) = OK data ->
     apiCall c ctx MethodPost "alert-channels" data w
       = (status, res, None, w') ->
     CreateAlertChannel c ctx ac w =
       if (status =? 200) || (status =? 201)
       then (alertChannelFromJSON res, w')
       else (Fail (Errorf
                     "unexpected response status: %d, res: %q, payload: %v"
                     [OInt status; OStr res; OStr data]), w')) /\
  (forall check data,
     Marshal check = OK data ->
     apiCall c ctx MethodPost (withAutoAssignAlertsFlag "checks") data w
       = (status, res, None, w') ->
     Create c ctx check w =
       if status =? 201 then (decoded res, w')
       else (Err (Errorf "unexpected response status %d: %q"
                    [OInt status; OStr res]), w')) /\
  (forall group data,
     Marshal group = OK data ->
     apiCall c ctx MethodPost (withAutoAssignAlertsFlag "check-groups") data w
       = (status, res, None, w') ->
     CreateGroup c ctx group w =
       if status =? 201 then (decoded res, w')
       else (Err (Errorf "unexpected response status %d: %q"
                    [OInt status; OStr res]), w')) /\
  (forall snippet data,
     Marshal snippet = OK data ->
     apiCall c ctx MethodPost "snippets" data w = (status, res, None, w') ->
     CreateSnippet c ctx snippet w =
       if status =? 201 then (decoded res, w')
       else (Err (Errorf "unexpected response status: %d, res: %q"
                    [OInt status; OStr res]), w')) /\
  (forall envVar data,
     Marshal envVar = OK data ->
     apiCall c ctx MethodPost "variables" data w = (status, res, None, w') ->
     CreateEnvironmentVariable c ctx envVar w =
       if status =? 201 then (decoded res, w')
       else (Err (Errorf "unexpected response status: %d, res: %q"
                    [OInt status; OStr res]), w')).
Proof.
  repeat split.
  - intros ac data Hm Hcall. unfold CreateAlertChannel. rewrite Hm, Hcall.
    unfold StatusOK, StatusCreated.
    destruct (status =? 200), (status =? 201); reflexivity.
  - intros check data Hm Hcall. unfold Create, decoded. rewrite Hm, Hcall.
    unfold StatusCreated. destruct (status =? 201); [|reflexivity].
    cbn [negb]. destruct (Decode res); reflexivity.
  - intros group data Hm Hcall. unfold CreateGroup, decoded. rewrite Hm, Hcall.
    unfold StatusCreated. destruct (status =? 201); [|reflexivity].
    cbn [negb]. destruct (Decode res); reflexivity.
  - intros snippet data Hm Hcall. unfold CreateSnippet, decoded.
    rewrite Hm, Hcall.
    unfold StatusCreated. destruct (status =? 201); [|reflexivity].
    cbn [negb]. destruct (Decode res); reflexivity.
  - intros envVar data Hm Hcall. unfold CreateEnvironmentVariable, decoded.
    rewrite Hm, Hcall.
    unfold StatusCreated. destruct (status =? 201); [|reflexivity].
    cbn [negb]. destruct (Decode res); reflexivity.
Qed.

(** The message of the unexpected-status error of [Create]. *)
Lemma unexpected_status_message status res :
  Errorf "unexpected response status %d: %q" [OInt status; OStr res] =
  "unexpected response status " +:+ Itoa status +:+ ": " +:+
  strconv.Quote res.
Proof.
  unfold Errorf. lazy -[Itoa strconv.Quote String.append].
  rewrite append_nil_r. reflexivity.
Qed.

(** C7, as amended: a completed create call on a check whose status is not
    201 returns no check and the unexpected-status error, whose message
    holds the status code in decimal and the response body as [%q] quotes
    it; the body stands in it verbatim when it consists of printable ASCII
    characters other than the double quote and the backslash. *)
Theorem Create_unexpected_status (c : client) (ctx : Context)
    (check : Check) (data : string) (w w' : world) (status : Z)
    (res : string) :
  Marshal check = OK data ->
  apiCall c ctx MethodPost (withAutoAssignAlertsFlag "checks") data w
    = (status, res, None, w') ->
  status <> StatusCreated ->
  exists msg,
    Create c ctx check w = (Err msg, w') /\
    msg = "unexpected response status " +:+ Itoa status +:+ ": " +:+
          strconv.Quote res /\
    Substring (Itoa status) msg /\
    Substring (strconv.Quote res) msg /\
    (all_plain res = true -> Substring res msg).
Proof.
  intros Hm Hcall Hst. eexists. split; [|split; [reflexivity|]].
  - unfold Create. rewrite Hm, Hcall.
    destruct (Z.eqb_spec status StatusCreated) as [|_]; [contradiction|].
    cbn [negb]. rewrite unexpected_status_message. reflexivity.
  - split; [apply Substring_refl_mid|]. split.
    + do 3 apply Substring_app_r. apply Substring_refl.
    + intros Hplain. rewrite (Quote_plain res Hplain).
      do 3 apply Substring_app_r.
      apply Substring_cons, Substring_app_l, Substring_refl.
Qed.

(** C8: a completed delete call that returns status 204 succeeds for
    every resource, whatever the body holds: the error is nil. *)
Theorem delete_no_content (c : client) (ctx : Context) (w w' : world)
    (res : string) :
  (forall ID,
     apiCall c ctx MethodDelete (Sprintf "checks/%s" [OStr ID]) EmptyString w
       = (StatusNoContent, res, None, w') ->
     Delete c ctx ID w = (None, w')) /\
  (forall ID,
     apiCall c ctx MethodDelete (Sprintf "check-groups/%d" [OInt ID])
       EmptyString w = (StatusNoContent, res, None, w') ->
     DeleteGroup c ctx ID w = (None, w')) /\
  (forall ID,
     apiCall c ctx MethodDelete (Sprintf "snippets/%d" [OInt ID])
       EmptyString w = (StatusNoContent, res, None, w') ->
     DeleteSnippet c ctx ID w = (None, w')) /\
  (forall key,
     apiCall c ctx MethodDelete (Sprintf "variables/%s" [OStr key])
       EmptyString w = (StatusNoContent, res, None, w') ->
     DeleteEnvironmentVariable c ctx key w = (None, w')) /\
  (forall ID,
     apiCall c ctx MethodDelete (Sprintf "alert-channels/%d" [OInt ID])
       EmptyString w = (StatusNoContent, res, None, w') ->
     DeleteAlertChannel c ctx ID w = (None, w')).
Proof.
  repeat split; intros ID Hcall;
    [ unfold Delete | unfold DeleteGroup | unfold DeleteSnippet
    | unfold DeleteEnvironmentVariable | unfold DeleteAlertChannel ];
    rewrite Hcall; reflexivity.
Qed.

(** The filter with every field at its zero value, and the one whose only
    set field is [HasFailures]. *)
Definition zeroFilter : CheckResultsFilter :=
  {| Page := 0; Limit := 0; From := 0; To := 0; CheckType := EmptyString;
     HasFailures := false; Location := EmptyString |}.

Definition failuresFilter : CheckResultsFilter :=
  {| Page := 0; Limit := 0; From := 0; To := 0; CheckType := EmptyString;
     HasFailures := true; Location := EmptyString |}.

Lemma path_check_results checkID :
  Sprintf "check-results/%s" [OStr checkID] = "check-results/" +:+ checkID.
Proof.
  lazy -[Itoa String.append]. rewrite append_nil_r. reflexivity.
Qed.

(** A filter that sets nothing but, possibly, [HasFailures]. *)
Lemma filterQuery_default (f : CheckResultsFilter) :
  Page f <= 0 -> Limit f <= 0 -> From f <= 0 -> To f <= 0 ->
  CheckType f <> TypeBrowser -> CheckType f <> TypeAPI ->
  Location f = EmptyString ->
  url.Encode (filterQuery f) =
  if HasFailures f then "hasFailures=1" else EmptyString.
Proof.
  intros Hp Hl Hf Ht Hb Ha Hloc. unfold filterQuery.
  destruct (Z.ltb_spec 0 (Page f)); [lia|].
  destruct (Z.ltb_spec 0 (Limit f)); [lia|].
  destruct (Z.ltb_spec 0 (From f)); [lia|].
  destruct (Z.ltb_spec 0 (To f)); [lia|].
  destruct (String.eqb_spec (CheckType f) TypeBrowser); [contradiction|].
  destruct (String.eqb_spec (CheckType f) TypeAPI); [contradiction|].
  rewrite Hloc. destruct (HasFailures f); reflexivity.
Qed.

(** C5: with the check-type constants not empty, the filter whose fields
    are all zero gives the empty query string and the filter whose only
    set field is [HasFailures] gives [hasFailures=1] and nothing else;
    [GetCheckResults] requests the path that ends in this query: whenever
    its request goes out it is the GET request to that path, and it sends
    no other. *)
Theorem GetCheckResults_query (c : client) (ctx : Context)
    (checkID : string) (w : world) :
  TypeBrowser <> EmptyString ->
  TypeAPI <> EmptyString ->
  url.Encode (filterQuery zeroFilter) = EmptyString /\
  url.Encode (filterQuery failuresFilter) = "hasFailures=1" /\
  routed c w (snd (GetCheckResults c ctx checkID (Some zeroFilter) w))
    MethodGet ("check-results/" +:+ checkID +:+ "?") /\
  routed c w (snd (GetCheckResults c ctx checkID (Some failuresFilter) w))
    MethodGet ("check-results/" +:+ checkID +:+ "?hasFailures=1") /\
  (dispatchable c MethodGet ("check-results/" +:+ checkID +:+ "?")
     EmptyString ->
   sends w (snd (GetCheckResults c ctx checkID (Some zeroFilter) w))
     [request c MethodGet ("check-results/" +:+ checkID +:+ "?")
        EmptyString]) /\
  (dispatchable c MethodGet
     ("check-results/" +:+ checkID +:+ "?hasFailures=1") EmptyString ->
   sends w (snd (GetCheckResults c ctx checkID (Some failuresFilter) w))
     [request c MethodGet
        ("check-results/" +:+ checkID +:+ "?hasFailures=1") EmptyString]).
Proof.
  intros Hb Ha.
  assert (Hz : url.Encode (filterQuery zeroFilter) = EmptyString).
  { rewrite filterQuery_default; simpl; congruence || lia || reflexivity. }
  assert (Hf : url.Encode (filterQuery failuresFilter) = "hasFailures=1").
  { rewrite filterQuery_default; simpl; congruence || lia || reflexivity. }
  split; [exact Hz|]. split; [exact Hf|].
  split; [|split; [|split]];
    try intros Hgo;
    unfold GetCheckResults, checkResultsURI;
    rewrite path_check_results, ?Hz, ?Hf, append_assoc;
    first [after_apiCall | through_apiCall].
Qed.

End Operations.
End client_facts.

(** ** The theorems at work on the example environment *)

Module instances.
Import GoString fmt json http checkly Example.
Import GoString_facts strconv_facts json_facts codec_typing codec_roundtrip
  client_facts.

Section Instances.
#[local] Existing Instances unicode lib jsonText resources registry.

Definition address : email := Email "ops@example.com".

(** An e-mail channel with a failure flag and a threshold of thirty days. *)
Definition channel : AlertChannel :=
  {| ID := 7; Type_ := "EMAIL"; Config := Some address;
     SendRecovery := None; SendFailure := Some true; SendDegraded := None;
     SSLExpiry := None; SSLExpiryThreshold := Some 30 |}.




(** The rest of a payload that holds an identifier and a threshold. *)
Definition rest : gmap string document :=
  {[ "id" := JNumber 7 0; "sslExpiryThreshold" := JNumber 30 0;
     "type" := JString "EMAIL" ]}.

Ltac no_flag :=
  let k := fresh "k" in
  let d := fresh "d" in
  let Hk := fresh "Hk" in
  let Hd := fresh "Hd" in
  intros k d Hk Hd; simpl in Hk;
  destruct Hk as [<-|[<-|[<-|[<-|[]]]]]; vm_compute in Hd; discriminate.



Lemma alertChannelFromJSON_unsupported_type_witness :
  exists e,
    alertChannelFromJSON (text "{'config':{},'type':'BOGUS'}") = Fail e.
Proof.
  apply (alertChannelFromJSON_unsupported_type _
           {[ "type" := JString "BOGUS"; "config" := JObject ∅ ]}
           "BOGUS" (JObject ∅)).
  - split; vm_compute; reflexivity.
  - vm_compute. reflexivity.
  - vm_compute. reflexivity.
  - vm_compute. reflexivity.
  - no_flag.
Defined.

(** C2 as stated fails: a payload without [config] whose type has no
    parser is decoded with a nil error into a channel whose configuration
    is the zero value. *)
Lemma alertChannelFromJSON_unsupported_type_counterexample :
  parsers !! "BOGUS" = None /\
  alertChannelFromJSON (text "{'type':'BOGUS'}") =
  Ret {| ID := 0; Type_ := "BOGUS"; Config := None; SendRecovery := None;
         SendFailure := None; SendDegraded := None; SSLExpiry := None;
         SSLExpiryThreshold := None |}.
Proof. split; vm_compute; reflexivity. Qed.

Lemma alertChannelFromJSON_integer_or_float_witness :
  (exists ac,
     alertChannelFromJSON
       (text "{'id':42,'sslExpiryThreshold':30,'type':'EMAIL'}") = Ret ac /\
     alertChannelFromJSON
       (text "{'id':42.0,'sslExpiryThreshold':30,'type':'EMAIL'}") = Ret ac /\
     ID ac = 42) /\
  (exists ac,
     alertChannelFromJSON
       (text "{'id':7,'sslExpiryThreshold':42,'type':'EMAIL'}") = Ret ac /\
     alertChannelFromJSON
       (text "{'id':7,'sslExpiryThreshold':42.0,'type':'EMAIL'}") = Ret ac /\
     SSLExpiryThreshold ac = Some 42).
Proof.
  assert (Hdec : decodable rest).
  { split; [|split].
    - intros d Hd. vm_compute in Hd. injection Hd as <-. reflexivity.
    - no_flag.
    - intros d Hd. vm_compute in Hd. discriminate. }
  destruct (alertChannelFromJSON_integer_or_float 42 rest
              (text "{'id':42,'sslExpiryThreshold':30,'type':'EMAIL'}")
              (text "{'id':42.0,'sslExpiryThreshold':30,'type':'EMAIL'}")
              (text "{'id':7,'sslExpiryThreshold':42,'type':'EMAIL'}")
              (text "{'id':7,'sslExpiryThreshold':42.0,'type':'EMAIL'}"))
    as [(_ & _ & Hid) (_ & _ & Hthr)].
  - lia.
  - vm_compute. reflexivity.
  - vm_compute. reflexivity.
  - vm_compute. reflexivity.
  - vm_compute. reflexivity.
  - vm_compute. reflexivity.
  - split; [exact (Hid Hdec)|exact (Hthr Hdec)].
Defined.

Lemma alertChannelFromJSON_panics_witness :
  alertChannelFromJSON (text "{'type':5}") = Panic /\
  alertChannelFromJSON (text "{'sendRecovery':'yes','type':'BOGUS'}") = Panic.
Proof.
  split.
  - apply (alertChannelFromJSON_panics _ {[ "type" := JNumber 5 0 ]}).
    + split; vm_compute; reflexivity.
    + left. exists (JNumber 5 0). split; reflexivity.
  - apply (alertChannelFromJSON_panics _
             {[ "type" := JString "BOGUS";
                "sendRecovery" := JString "yes" ]}).
    + split; vm_compute; reflexivity.
    + right. exists "sendRecovery", (JString "yes").
      split; [simpl; tauto|]. split; vm_compute; reflexivity.
Defined.

Lemma alertChannelFromJSON_without_config_witness :
  exists ac,
    alertChannelFromJSON (text "{'type':'BOGUS'}") = Ret ac /\
    Config ac = None /\
    (forall s, ({[ "type" := JString "BOGUS" ]} : gmap string document)
                 !! "type" = Some (JString s) -> Type_ ac = s).
Proof.
  apply (alertChannelFromJSON_without_config _
           {[ "type" := JString "BOGUS" ]}).
  - split; vm_compute; reflexivity.
  - vm_compute. reflexivity.
  - intros d Hd. vm_compute in Hd. injection Hd as <-. reflexivity.
  - no_flag.
Defined.

(** C10 as stated fails: payloads without [config] on which the decoder
    panics, one by its type tag, one by a flag. *)
Lemma alertChannelFromJSON_without_config_counterexample :
  (({[ "type" := JNumber 5 0 ]} : gmap string document) !! "config" = None /\
   reads (text "{'type':5}") {[ "type" := JNumber 5 0 ]} /\
   alertChannelFromJSON (text "{'type':5}") = Panic) /\
  (({[ "type" := JString "BOGUS"; "sendRecovery" := JString "yes" ]}
      : gmap string document) !! "config" = None /\
   reads (text "{'sendRecovery':'yes','type':'BOGUS'}")
     {[ "type" := JString "BOGUS"; "sendRecovery" := JString "yes" ]} /\
   alertChannelFromJSON (text "{'sendRecovery':'yes','type':'BOGUS'}")
     = Panic).
Proof. repeat split; vm_compute; reflexivity. Qed.

(** A body that holds a double quote. *)
Definition quoteBody : string := "a" +:+ String dquote "b".

Definition aCheck : Check := "check".

Lemma create_status_witness :
  fst (CreateAlertChannel (server 200 (text "{'id':42,'type':'EMAIL'}")) tt
         channel start) =
    alertChannelFromJSON (text "{'id':42,'type':'EMAIL'}") /\
  fst (Create (server 200 "created") tt aCheck start) =
    Err (Errorf "unexpected response status %d: %q"
           [OInt 200; OStr "created"]) /\
  fst (Create (server 201 "created") tt aCheck start) = OK "created".
Proof.
  split; [|split].
  - destruct (@create_status unicode lib jsonText resources registry (server 200 (text "{'id':42,'type':'EMAIL'}")) tt
                start
                (snd (CreateAlertChannel
                        (server 200 (text "{'id':42,'type':'EMAIL'}")) tt
                        channel start))
                200 (text "{'id':42,'type':'EMAIL'}")) as [Hac _].
    rewrite (Hac channel _ eq_refl); [reflexivity|].
    vm_compute. reflexivity.
  - destruct (@create_status unicode lib jsonText resources registry (server 200 "created") tt start
                (snd (Create (server 200 "created") tt aCheck start))
                200 "created") as (_ & Hc & _).
    rewrite (Hc aCheck "check" eq_refl); [reflexivity|].
    vm_compute. reflexivity.
  - destruct (@create_status unicode lib jsonText resources registry (server 201 "created") tt start
                (snd (Create (server 201 "created") tt aCheck start))
                201 "created") as (_ & Hc & _).
    rewrite (Hc aCheck "check" eq_refl); [reflexivity|].
    vm_compute. reflexivity.
Defined.

Lemma GetCheckResults_query_witness :
  url.Encode (filterQuery zeroFilter) = EmptyString /\
  url.Encode (filterQuery failuresFilter) = "hasFailures=1" /\
  sends start
    (snd (GetCheckResults (server 200 "[]") tt "c1" (Some zeroFilter) start))
    [request (server 200 "[]") MethodGet
       ("check-results/" +:+ "c1" +:+ "?") EmptyString] /\
  sends start
    (snd (GetCheckResults (server 200 "[]") tt "c1" (Some failuresFilter)
            start))
    [request (server 200 "[]") MethodGet
       ("check-results/" +:+ "c1" +:+ "?hasFailures=1") EmptyString].
Proof.
  destruct (@GetCheckResults_query unicode lib resources (server 200 "[]") tt
              "c1" start) as (Hz & Hf & _ & _ & Hs1 & Hs2);
    [discriminate|discriminate|].
  split; [exact Hz|]. split; [exact Hf|].
  split; [apply Hs1|apply Hs2]; (split; [reflexivity|discriminate]).
Defined.

Definition aGroup : Group := "group".

Lemma withAutoAssignAlertsFlag_routing_witness :
  withAutoAssignAlertsFlag "checks" = "checks?autoAssignAlerts=false" /\
  withAutoAssignAlertsFlag "checks?page=2" =
    "checks?page=2&autoAssignAlerts=false" /\
  sends start (snd (Create (server 201 "created") tt aCheck start))
    [request (server 201 "created") MethodPost
       (withAutoAssignAlertsFlag "checks") "check"] /\
  sends start (snd (Update (server 200 "updated") tt "c1" aCheck start))
    [request (server 200 "updated") MethodPut
       (withAutoAssignAlertsFlag ("checks/" +:+ "c1")) "check"] /\
  sends start (snd (CreateGroup (server 201 "created") tt aGroup start))
    [request (server 201 "created") MethodPost
       (withAutoAssignAlertsFlag "check-groups") "group"] /\
  sends start (snd (UpdateGroup (server 200 "updated") tt 12 aGroup start))
    [request (server 200 "updated") MethodPut
       (withAutoAssignAlertsFlag ("check-groups/" +:+ Itoa 12)) "group"].
Proof.
  destruct (@withAutoAssignAlertsFlag_routing unicode lib resources)
    as (Hplain & Hquery & _ & Hsend).
  split; [|split; [|split; [|split; [|split]]]].
  - apply (Hplain "checks"). simpl. intuition discriminate.
  - apply (Hquery "checks?page=2"). simpl. tauto.
  - destruct (Hsend (server 201 "created") tt start) as (Hc & _).
    apply (Hc aCheck "check"); [reflexivity|].
    split; [reflexivity|discriminate].
  - destruct (Hsend (server 200 "updated") tt start) as (_ & Hu & _).
    apply (Hu "c1" aCheck "check"); [reflexivity|].
    split; [reflexivity|discriminate].
  - destruct (Hsend (server 201 "created") tt start) as (_ & _ & Hc & _).
    apply (Hc aGroup "group"); [reflexivity|].
    split; [reflexivity|discriminate].
  - destruct (Hsend (server 200 "updated") tt start) as (_ & _ & _ & Hu).
    apply (Hu 12 aGroup "group"); [reflexivity|].
    split; [reflexivity|discriminate].
Defined.

Lemma Create_unexpected_status_witness :
  exists msg,
    Create (server 200 "conflict") tt aCheck start =
      (Err msg,
       snd (Create (server 200 "conflict") tt aCheck start)) /\
    msg = "unexpected response status " +:+ Itoa 200 +:+ ": " +:+
          strconv.Quote "conflict" /\
    Substring (Itoa 200) msg /\
    Substring (strconv.Quote "conflict") msg /\
    (all_plain "conflict" = true -> Substring "conflict" msg).
Proof.
  apply (@Create_unexpected_status unicode lib resources (server 200 "conflict") tt aCheck "check").
  - reflexivity.
  - vm_compute. reflexivity.
  - discriminate.
Defined.

(** C7 as stated fails: with status 200 and a body that holds a double
    quote, the message of the error does not hold the body. *)
Lemma Create_unexpected_status_counterexample :
  exists msg w',
    Create (server 200 quoteBody) tt aCheck start = (Err msg, w') /\
    ~ Substring quoteBody msg.
Proof.
  eexists. eexists. split; [vm_compute; reflexivity|].
  intros Hsub. apply Contains_spec in Hsub. vm_compute in Hsub. discriminate.
Qed.

Lemma delete_no_content_witness :
  fst (Delete (server 204 EmptyString) tt "c1" start) = None /\
  fst (DeleteGroup (server 204 EmptyString) tt 5 start) = None /\
  fst (DeleteSnippet (server 204 EmptyString) tt 5 start) = None /\
  fst (DeleteEnvironmentVariable (server 204 EmptyString) tt "KEY" start)
    = None /\
  fst (DeleteAlertChannel (server 204 EmptyString) tt 5 start) = None.
Proof.
  split; [|split; [|split; [|split]]].
  - destruct (@delete_no_content unicode lib (server 204 EmptyString) tt start
                (snd (Delete (server 204 EmptyString) tt "c1" start))
                EmptyString) as (Hd & _).
    rewrite (Hd "c1"); [reflexivity|vm_compute; reflexivity].
  - destruct (@delete_no_content unicode lib (server 204 EmptyString) tt start
                (snd (DeleteGroup (server 204 EmptyString) tt 5 start))
                EmptyString) as (_ & Hd & _).
    rewrite (Hd 5); [reflexivity|vm_compute; reflexivity].
  - destruct (@delete_no_content unicode lib (server 204 EmptyString) tt start
                (snd (DeleteSnippet (server 204 EmptyString) tt 5 start))
                EmptyString) as (_ & _ & Hd & _).
    rewrite (Hd 5); [reflexivity|vm_compute; reflexivity].
  - destruct (@delete_no_content unicode lib (server 204 EmptyString) tt start
                (snd (DeleteEnvironmentVariable (server 204 EmptyString) tt
                        "KEY" start))
                EmptyString) as (_ & _ & _ & Hd & _).
    rewrite (Hd "KEY"); [reflexivity|vm_compute; reflexivity].
  - destruct (@delete_no_content unicode lib (server 204 EmptyString) tt start
                (snd (DeleteAlertChannel (server 204 EmptyString) tt 5 start))
                EmptyString) as (_ & _ & _ & _ & Hd).
    rewrite (Hd 5); [reflexivity|vm_compute; reflexivity].
Defined.

End Instances.
End instances.

(** * The rest of the client

    The functions of [checkly.go] not needed above: the constructor, the
    environment lookup, and the read and update operations. *)

Module checkly_rest.
Import GoString fmt json http checkly.

(** [os.LookupEnv] reads the process environment, a finite map. *)
Definition getEnv (environ : gmap string string) (key fallback : string)
    : string :=
  match environ !! key with
  | Some value => value
  | None => fallback
  end.

(** [http.DefaultClient], and the codec of a single check result. *)
Class Defaults `{Lib} `{Resources} := {
  DefaultClient : Context -> Request -> result Response;
  CheckResult_json :: Codec CheckResult
}.

Section Rest.
Context `{strconv.Unicode} `{Lib} `{Text} `{Resources} `{Registry}
  `{!Defaults}.

(** [httpClient] is [None] for a nil pointer, in which case the field set
    by the literal is replaced by the default client; [debug] tells whether
    a writer is given. *)
Definition NewClient (baseURL apiKey : string)
    (httpClient : option (Context -> Request -> result Response))
    (debug : bool) : client :=
  {| checkly.apiKey := apiKey;
     url := baseURL;
     checkly.httpClient :=
       match httpClient with
       | Some h => h
       | None => DefaultClient
       end;
     checkly.debug := debug |}.

Definition Get (c : client) (ctx : Context) (ID : string) (w : world)
    : result Check * world :=
  let '(status, res, err, w) :=
    apiCall c ctx MethodGet (Sprintf "checks/%s" [OStr ID]) EmptyString w in
  match err with
  | Some err => (Err err, w)
  | None =>
      if negb (status =? StatusOK) then
        (Err (Errorf "unexpected response status %d: %q"
                [OInt status; OStr res]), w)
      else
        match Decode res with
        | Err err =>
            (Err (Errorf "decoding error for data %s: %v"
                    [OStr res; OStr err]), w)
        | OK result => (OK result, w)
        end
  end.

Definition GetGroup (c : client) (ctx : Context) (ID : Z) (w : world)
    : result Group * world :=
  let '(status, res, err, w) :=
    apiCall c ctx MethodGet (Sprintf "check-groups/%d" [OInt ID])
      EmptyString w in
  match err with
  | Some err => (Err err, w)
  | None =>
      if negb (status =? StatusOK) then
        (Err (Errorf "unexpected response status %d: %q"
                [OInt status; OStr res]), w)
      else
        match Decode res with
        | Err err =>
            (Err (Errorf "decoding error for data %q: %v"
                    [OStr res; OStr err]), w)
        | OK result => (OK result, w)
        end
  end.

Definition GetCheckResult (c : client) (ctx : Context)
    (checkID checkResultID : string) (w : world)
    : result CheckResult * world :=
  let '(status, res, err, w) :=
    apiCall c ctx MethodGet
      (Sprintf "check-results/%s/%s" [OStr checkID; OStr checkResultID])
      EmptyString w in
  match err with
  | Some err => (Err err, w)
  | None =>
      if negb (status =? StatusOK) then
        (Err (Errorf "unexpected response status %d: %q"
                [OInt status; OStr res]), w)
      else
        match Decode res with
        | Err err =>
            (Err (Errorf "decoding error for data %q: %v"
                    [OStr res; OStr err]), w)
        | OK result => (OK result, w)
        end
  end.

Definition GetSnippet (c : client) (ctx : Context) (ID : Z) (w : world)
    : result Snippet * world :=
  let '(status, res, err, w) :=
    apiCall c ctx MethodGet (Sprintf "snippets/%d" [OInt ID]) EmptyString w in
  match err with
  | Some err => (Err err, w)
  | None =>
      if negb (status =? StatusOK) then
        (Err (Errorf "unexpected response status %d: %q"
                [OInt status; OStr res]), w)
      else
        match Decode res with
        | Err err =>
            (Err (Errorf "decoding error for data %q: %v"
                    [OStr res; OStr err]), w)
        | OK result => (OK result, w)
        end
  end.

Definition UpdateSnippet (c : client) (ctx : Context) (ID : Z)
    (snippet : Snippet) (w : world) : result Snippet * world :=
  match Marshal snippet with
  | Err err => (Err err, w)
  | OK data =>
      let '(status, res, err, w) :=
        apiCall c ctx MethodPut (Sprintf "snippets/%d" [OInt ID]) data w in
      match err with
      | Some err => (Err err, w)
      | None =>
          if negb (status =? StatusOK) then
            (Err (Errorf "unexpected response status %d: %q"
                    [OInt status; OStr res]), w)
          else
            match Decode res with
            | Err err =>
                (Err (Errorf "decoding error for data %s: %v"
                        [OStr res; OStr err]), w)
            | OK result => (OK result, w)
            end
      end
  end.

Definition GetEnvironmentVariable (c : client) (ctx : Context)
    (key : string) (w : world) : result EnvironmentVariable * world :=
  let '(status, res, err, w) :=
    apiCall c ctx MethodGet (Sprintf "variables/%s" [OStr key])
      EmptyString w in
  match err with
  | Some err => (Err err, w)
  | None =>
      if negb (status =? StatusOK) then
        (Err (Errorf "unexpected response status %d: %q"
                [OInt status; OStr res]), w)
      else
        match Decode res with
        | Err err =>
            (Err (Errorf "decoding error for data %q: %v"
                    [OStr res; OStr err]), w)
        | OK result => (OK result, w)
        end
  end.

Definition UpdateEnvironmentVariable (c : client) (ctx : Context)
    (key : string) (envVar : EnvironmentVariable) (w : world)
    : result EnvironmentVariable * world :=
  match Marshal envVar with
  | Err err => (Err err, w)
  | OK data =>
      let '(status, res, err, w) :=
        apiCall c ctx MethodPut (Sprintf "variables/%s" [OStr key]) data w in
      match err with
      | Some err => (Err err, w)
      | None =>
          if negb (status =? StatusOK) then
            (Err (Errorf "unexpected response status %d: %q"
                    [OInt status; OStr res]), w)
          else
            match Decode res with
            | Err err =>
                (Err (Errorf "decoding error for data %s: %v"
                        [OStr res; OStr err]), w)
            | OK result => (OK result, w)
            end
      end
  end.

Definition GetAlertChannel (c : client) (ctx : Context) (ID : Z) (w : world)
    : outcome AlertChannel * world :=
  let '(status, res, err, w) :=
    apiCall c ctx MethodGet (Sprintf "alert-channels/%d" [OInt ID])
      EmptyString w in
  match err with
  | Some err => (Fail err, w)
  | None =>
      if negb (status =? StatusOK) then
        (Fail (Errorf "unexpected response status %d: %q"
                 [OInt status; OStr res]), w)
      else
        match (Decode res : result (gmap string any)) with
        | Err err =>
            (Fail (Errorf "GetAlertChannel: decoding error for data %q: %v"
                     [OStr res; OStr err]), w)
        | OK result => (alertChannelFromJSON res, w)
        end
  end.

Definition UpdateAlertChannel (c : client) (ctx : Context) (ID : Z)
    (ac : AlertChannel) (w : world) : outcome AlertChannel * world :=
  let payload := payloadFromAlertChannel ac in
  match Marshal payload with
  | Err err => (Fail err, w)
  | OK data =>
      let '(status, res, err, w) :=
        apiCall c ctx MethodPut (Sprintf "alert-channels/%d" [OInt ID])
          data w in
      match err with
      | Some err => (Fail err, w)
      | None =>
          if negb (status =? StatusOK) then
            (Fail (Errorf "unexpected response status %d: %q"
                     [OInt status; OStr res]), w)
          else (alertChannelFromJSON res, w)
      end
  end.

End Rest.
End checkly_rest.

(** ** The transport *)

Module transport_facts.
Import GoString fmt json http checkly GoString_facts client_facts.

Section Transport.
Context `{strconv.Unicode} `{Lib} `{Text} `{Resources} `{Registry}.

(** What [apiCall] writes to the debug writer around a request. *)
Definition requestDump (c : client) (dump : string) (w : world) : world :=
  if debug c then Fprintln EmptyString (Fprintln dump w) else w.

Definition responseDump (c : client) (resp : Response) (w : world) : world :=
  if debug c then dumpResponse resp w else w.

(** X1: [apiCall] returns a nil error exactly when the request could be
    built, could be dumped if a debug writer is set, was answered by the
    HTTP client and the body of the answer could be read; the status and
    the body returned are then those of the answer, whatever the status
    is. *)
Theorem apiCall_completed (c : client) (ctx : Context)
    (method path data : string) (w w' : world) (status : Z) (res : string) :
  apiCall c ctx method path data w = (status, res, None, w') <->
  NewRequestError method (url c +:+ "/v1/" +:+ path) = None /\
  exists dump resp,
    (debug c = true -> DumpRequestOut (request c method path data) = OK dump) /\
    httpClient c ctx (request c method path data) = OK resp /\
    StatusCode resp = status /\
    ReadAll resp = OK res /\
    w' = responseDump c resp
           (send (request c method path data) (requestDump c dump w)).
Proof.
  unfold apiCall, requestDump, responseDump. fold (request c method path data).
  split.
  - destruct (NewRequestError _ _); [discriminate|]. intros Hcall.
    split; [reflexivity|].
    destruct (debug c) eqn:Hdebug.
    + destruct (DumpRequestOut _) as [dump|]; [|discriminate].
      destruct (httpClient c ctx _) as [resp|]; [|discriminate].
      destruct (ReadAll resp) eqn:Hread; [|discriminate].
      injection Hcall as <- <- <-. exists dump, resp. rewrite Hread. auto.
    + destruct (httpClient c ctx _) as [resp|]; [|discriminate].
      destruct (ReadAll resp) eqn:Hread; [|discriminate].
      injection Hcall as <- <- <-. exists EmptyString, resp.
      rewrite Hread. repeat split; discriminate.
  - intros (-> & dump & resp & Hdump & -> & <- & -> & ->).
    destruct (debug c); [rewrite Hdump by reflexivity|]; reflexivity.
Qed.

Definition newline : string := String (char 10) EmptyString.

Lemma sends_one_not_nil (w w' : world) req :
  sends w w' [] -> ~ sends w w' [req].
Proof.
  unfold sends. intros Hnil Hone. rewrite Hnil in Hone.
  apply (f_equal (@length _)) in Hone. rewrite !length_app in Hone.
  simpl in Hone. lia.
Qed.

Ltac blocked :=
  split; [left; apply sends_nil|];
  split;
  [ let Hs := fresh "Hs" in
    intros Hs; exfalso; revert Hs; apply sends_one_not_nil, sends_nil
  | let Hn := fresh "Hn" in
    let Hd := fresh "Hd" in
    intros [Hn Hd];
    first [discriminate | destruct (Hd eq_refl) as [? ?]; discriminate] ].

Ltac sent :=
  match goal with
  | |- (_ \/ sends ?w ?w' [?req]) /\ _ =>
      let Hs := fresh "Hs" in
      assert (Hs : sends w w' [req]) by (unfold sends; simpl; reflexivity);
      split; [right; exact Hs|];
      split; [intros _; split; [reflexivity|]; intros; eauto; discriminate
             |intros _; exact Hs]
  end.

(** When and what [apiCall] sends. *)
Lemma apiCall_wire (c : client) (ctx : Context)
    (method path data : string) (w : world) :
  let req := request c method path data in
  let w' := snd (apiCall c ctx method path data w) in
  (sends w w' [] \/ sends w w' [req]) /\
  (sends w w' [req] <->
   NewRequestError method (url c +:+ "/v1/" +:+ path) = None /\
   (debug c = true -> exists dump, DumpRequestOut req = OK dump)).
Proof.
  intros req w'.
  subst w'. unfold apiCall. fold (request c method path data). fold req.
  destruct (NewRequestError _ _) as [e|]; [blocked|].
  destruct (debug c).
  - destruct (DumpRequestOut req) as [dump|e]; [|blocked].
    destruct (httpClient c ctx req) as [resp|]; [destruct (ReadAll resp)|];
      sent.
  - destruct (httpClient c ctx req) as [resp|]; [destruct (ReadAll resp)|];
      sent.
Qed.

(** X2: [apiCall] hands at most one request to the HTTP client: the one
    with the given method and data, the path under the base URL and the
    version segment, and the two headers under their canonical keys
    ([content-type] is stored as [Content-Type]); it does so exactly when
    the request could be built and, with a debug writer, dumped. *)
Theorem apiCall_request (c : client) (ctx : Context)
    (method path data : string) (w : world) :
  exists req,
    Method req = method /\
    URL req = url c +:+ "/v1/" +:+ path /\
    Header req = {[ "Authorization" := ["Bearer " +:+ apiKey c];
                    "Content-Type" := ["application/json"] ]} /\
    Body req = data /\
    let w' := snd (apiCall c ctx method path data w) in
    (sends w w' [] \/ sends w w' [req]) /\
    (sends w w' [req] <->
     NewRequestError method (url c +:+ "/v1/" +:+ path) = None /\
     (debug c = true -> exists dump, DumpRequestOut req = OK dump)).
Proof.
  exists (request c method path data).
  repeat (split; [reflexivity|]).
  apply apiCall_wire.
Qed.

(** X3: without a debug writer [apiCall] writes nothing; with one it
    writes the dump of the request and an empty line before the call and,
    once the HTTP client has answered, the dump of the response and an
    empty line; when the request cannot be built or dumped it writes
    nothing. *)
Theorem apiCall_debug (c : client) (ctx : Context)
    (method path data : string) (w : world) :
  let req := request c method path data in
  let w' := snd (apiCall c ctx method path data w) in
  (debug c = false -> sink w' = sink w) /\
  (debug c = true ->
   match NewRequestError method (url c +:+ "/v1/" +:+ path),
         DumpRequestOut req with
   | None, OK dump =>
       match httpClient c ctx req with
       | OK resp =>
           sink w' = (sink w ++ [dump +:+ newline; newline;
                                 DumpResponse resp +:+ newline; newline])%list
       | Err _ => sink w' = (sink w ++ [dump +:+ newline; newline])%list
       end
   | _, _ => sink w' = sink w
   end).
Proof.
  intros req w'. subst w'. unfold apiCall. fold (request c method path data). fold req. split; intros Hdebug.
  - rewrite Hdebug. destruct (NewRequestError _ _); [reflexivity|].
    destruct (httpClient c ctx req) as [resp|]; [destruct (ReadAll resp)|];
      reflexivity.
  - rewrite Hdebug. destruct (NewRequestError _ _); [reflexivity|].
    destruct (DumpRequestOut req) as [dump|]; [|reflexivity].
    destruct (httpClient c ctx req) as [resp|].
    + destruct (ReadAll resp); simpl; rewrite <- !app_assoc; reflexivity.
    + simpl. rewrite <- !app_assoc. reflexivity.
Qed.

(** X4: when [apiCall] returns an error the body is empty, and the error
    tells the step that failed: building the request or dumping it (no
    request went out and the status is 0), the call of the HTTP client
    (status 0), or reading the body (the status is that of the answer). *)
Theorem apiCall_failed (c : client) (ctx : Context)
    (method path data : string) (w w' : world) (status : Z)
    (res : string) (err : error) :
  apiCall c ctx method path data w = (status, res, Some err, w') ->
  let req := request c method path data in
  res = EmptyString /\
  ((exists e, NewRequestError method (url c +:+ "/v1/" +:+ path) = Some e /\
              err = Errorf "failed to create HTTP request: %v" [OStr e] /\
              status = 0 /\ w' = w) \/
   (exists e, debug c = true /\ DumpRequestOut req = Err e /\
              err = Errorf "error dumping HTTP request: %v" [OStr e] /\
              status = 0 /\ w' = w) \/
   (exists e, httpClient c ctx req = Err e /\
              err = Errorf "HTTP request failed with: %v" [OStr e] /\
              status = 0 /\ sends w w' [req]) \/
   (exists resp e, httpClient c ctx req = OK resp /\ ReadAll resp = Err e /\
                   err = Errorf "HTTP request failed: %v" [OStr e] /\
                   status = StatusCode resp /\ sends w w' [req])).
Proof.
  intros Hcall req.
  pose proof (apiCall_wire c ctx method path data w) as Hreq.
  cbv zeta in Hreq. destruct Hreq as (_ & Hsend).
  rewrite Hcall in Hsend. simpl in Hsend.
  revert Hcall. unfold apiCall. fold (request c method path data). fold req.
  destruct (NewRequestError _ _) as [e|] eqn:Hnew.
  { intros [= <- <- <- <-]. split; [reflexivity|]. left. exists e. auto. }
  destruct (debug c) eqn:Hdebug.
  - destruct (DumpRequestOut req) as [dump|e] eqn:Hdump.
    + assert (Hs : sends w w' [req]).
      { apply Hsend. split; [reflexivity|]. intros _. exists dump. exact Hdump. }
      destruct (httpClient c ctx req) as [resp|e].
      * destruct (ReadAll resp) as [body|e] eqn:Hread; [discriminate|].
        intros [= <- <- <- <-]. split; [reflexivity|].
        right; right; right. exists resp, e. auto.
      * intros [= <- <- <- <-]. split; [reflexivity|].
        right; right; left. exists e. auto.
    + intros [= <- <- <- <-]. split; [reflexivity|].
      right; left. exists e. auto.
  - assert (Hs : sends w w' [req]).
    { apply Hsend. split; [reflexivity|discriminate]. }
    destruct (httpClient c ctx req) as [resp|e].
    + destruct (ReadAll resp) as [body|e] eqn:Hread; [discriminate|].
      intros [= <- <- <- <-]. split; [reflexivity|].
      right; right; right. exists resp, e. auto.
    + intros [= <- <- <- <-]. split; [reflexivity|].
      right; right; left. exists e. auto.
Qed.

End Transport.
End transport_facts.

(** ** More on the alert-channel codec *)

Module codec_more.
Import GoString fmt json http checkly.
Import GoString_facts json_facts codec_facts codec_typing codec_roundtrip.



Section Codec.
Context `{strconv.Unicode} `{Text} `{Registry}.

(** The steps of the decoder on the encoded payload of a channel. *)
Lemma fill_payload (ac : AlertChannel) (parse : string -> result Cfg)
    (cfg : Cfg) :
  parsers !! Type_ ac = Some parse ->
  Config ac = Some cfg ->
  parse (print (toJSON (fromJSON (toJSON (flatten cfg))))) = OK cfg ->
  - 2 ^ 53 <= ID ac <= 2 ^ 53 ->
  (forall t, SSLExpiryThreshold ac = Some t -> - 2 ^ 53 <= t <= 2 ^ 53) ->
  fill (fromJSON <$> (toJSON <$> payloadFromAlertChannel ac)) = Ret ac.
Proof.
  intros Hreg Hcfg Hparse Hid Hthr.
  assert (Hget : GetConfig ac = flatten cfg)
    by (unfold GetConfig; rewrite Hcfg; reflexivity).
  destruct (payload_lookup ac)
    as (Lid & Lty & Lcfg & Lsr & Lsf & Lsd & Lse & Lthr).
  cbn zeta in *.
  set (p := payloadFromAlertChannel ac) in *. clearbody p.
  rewrite Hget in Lcfg.
  destruct ac as [id ty conf sr sf sd se thr]. cbn [ID Type_ Config SendRecovery
    SendFailure SendDegraded SSLExpiry SSLExpiryThreshold] in *. subst conf.
  unfold fill.
  rewrite extractID_decoded, lookup_fmap, Lid.
  cbn [fmap option_fmap option_map toJSON].
  rewrite f64_facts.to_int64_of_decimal by exact Hid.
  cbn [mbind outcome_bind].
  rewrite extractType_decoded, lookup_fmap, Lty. cbn.
  rewrite extractBool_decoded, lookup_fmap, Lsr.
  destruct sr; cbn;
  rewrite extractBool_decoded, lookup_fmap, Lsf;
  destruct sf; cbn;
  rewrite extractBool_decoded, lookup_fmap, Lsd;
  destruct sd; cbn;
  rewrite extractBool_decoded, lookup_fmap, Lse;
  destruct se; cbn;
  rewrite extractThreshold_decoded, lookup_fmap, Lthr;
  (destruct thr as [t|];
   cbn [fmap option_fmap option_map toJSON mbind outcome_bind];
   [rewrite f64_facts.to_int64_of_decimal by (apply Hthr; reflexivity)|]);
  rewrite extractConfig_decoded, lookup_fmap, Lcfg;
  cbn [fmap option_fmap option_map];
  unfold AlertChannelConfigFromJSON;
  cbn [Type_ setType setID setSendRecovery setSendFailure setSendDegraded
       setSSLExpiry setSSLExpiryThreshold];
  rewrite Hreg, Hparse; reflexivity.
Qed.

Lemma reads_payload (ac : AlertChannel) (cfg : Cfg) :
  Config ac = Some cfg ->
  finite (toJSON (flatten cfg)) = true ->
  scan (print (toJSON (VMap (payloadFromAlertChannel ac)))) =
    OK (toJSON (VMap (payloadFromAlertChannel ac))) ->
  - 2 ^ 53 <= ID ac <= 2 ^ 53 ->
  (forall t, SSLExpiryThreshold ac = Some t -> - 2 ^ 53 <= t <= 2 ^ 53) ->
  reads (print (toJSON (VMap (payloadFromAlertChannel ac))))
    (toJSON <$> payloadFromAlertChannel ac).
Proof.
  intros Hcfg Hfin Hscan Hid Hthr.
  split; [exact Hscan|]. apply (payload_finite ac); [lia| |].
  - intros t Ht. specialize (Hthr t Ht). lia.
  - unfold GetConfig. rewrite Hcfg. exact Hfin.
Qed.

(** X5: a channel whose type has a parser, whose configuration this parser
    reads back, and whose identifier and threshold lie within [2^53] of
    zero is returned as it is by decoding its encoding: the codec is the
    identity on such channels. *)
Theorem decode_encode_identity (ac : AlertChannel)
    (parse : string -> result Cfg) (cfg : Cfg) :
  parsers !! Type_ ac = Some parse ->
  Config ac = Some cfg ->
  parse (print (toJSON (fromJSON (toJSON (flatten cfg))))) = OK cfg ->
  finite (toJSON (flatten cfg)) = true ->
  scan (print (toJSON (VMap (payloadFromAlertChannel ac)))) =
    OK (toJSON (VMap (payloadFromAlertChannel ac))) ->
  - 2 ^ 53 <= ID ac <= 2 ^ 53 ->
  (forall t, SSLExpiryThreshold ac = Some t -> - 2 ^ 53 <= t <= 2 ^ 53) ->
  exists data,
    Marshal (payloadFromAlertChannel ac) = OK data /\
    alertChannelFromJSON data = Ret ac.
Proof.
  intros Hreg Hcfg Hparse Hfin Hscan Hid Hthr.
  eexists. split; [reflexivity|].
  rewrite (alertChannelFromJSON_reads _ _
             (reads_payload ac cfg Hcfg Hfin Hscan Hid Hthr)).
  apply (fill_payload ac parse cfg); assumption.
Qed.

(** X6: the payload has the keys [id], [type] and [config] and one key for
    each optional field that is set; a field that is unset has no key (it
    is not sent as null or false). *)
Theorem payload_keys (ac : AlertChannel) (k : string) :
  is_Some (payloadFromAlertChannel ac !! k) <->
  k = "id" \/ k = "type" \/ k = "config" \/
  (k = "sendRecovery" /\ is_Some (SendRecovery ac)) \/
  (k = "sendDegraded" /\ is_Some (SendDegraded ac)) \/
  (k = "sendFailure" /\ is_Some (SendFailure ac)) \/
  (k = "sslExpiry" /\ is_Some (SSLExpiry ac)) \/
  (k = "sslExpiryThreshold" /\ is_Some (SSLExpiryThreshold ac)).
Proof.
  rewrite <- elem_of_dom. unfold payloadFromAlertChannel.
  destruct (SendRecovery ac), (SendDegraded ac), (SendFailure ac),
    (SSLExpiry ac), (SSLExpiryThreshold ac);
    rewrite !dom_insert_L, dom_empty_L, !elem_of_union, !elem_of_singleton,
      elem_of_empty;
    split; intros Hk; intuition (try discriminate; eauto);
    repeat match goal with
           | Hs : is_Some None |- _ => destruct Hs; discriminate
           end.
Qed.













Lemma decoding_error_message response err :
  Errorf "UpdateAlertChannel: decoding error for data Res(%s), Err(%w)"
    [OStr response; OStr err] =
  "UpdateAlertChannel: decoding error for data Res(" +:+ response +:+
  "), Err(" +:+ err +:+ ")".
Proof.
  unfold Errorf. lazy -[String.append]. reflexivity.
Qed.

(** X9: a response that is neither a JSON object nor null (text that is
    not JSON, an array, a number, a string, a boolean) is rejected with an
    error, under the name of UpdateAlertChannel whoever the caller is; the
    message holds the response verbatim. *)
Theorem alertChannelFromJSON_not_an_object (response : string) :
  (forall o, scan response <> OK (JObject o)) ->
  scan response <> OK JNull ->
  exists err msg,
    alertChannelFromJSON response = Fail msg /\
    msg = "UpdateAlertChannel: decoding error for data Res(" +:+ response +:+
          "), Err(" +:+ err +:+ ")" /\
    Substring response msg.
Proof.
  intros Hobj Hnull.
  assert (Hdec : exists err, DecodeMap response = Err err).
  { unfold DecodeMap. destruct (scan response) as [d|e]; [|eauto].
    destruct (finite d); [|eauto].
    destruct d; eauto; [contradiction|]. exfalso. eapply Hobj. reflexivity. }
  destruct Hdec as [err Herr]. exists err. eexists.
  split; [|split; [reflexivity|]].
  - unfold alertChannelFromJSON. cbn [Decode map_codec]. rewrite Herr.
    rewrite decoding_error_message. reflexivity.
  - apply Substring_refl_mid.
Qed.


End Codec.
End codec_more.

(** ** More on the resource operations *)

Module operations_facts.
Import GoString fmt json http checkly checkly_rest.
Import GoString_facts strconv_facts json_facts client_facts transport_facts.

Section Operations.
Context `{strconv.Unicode} `{Lib} `{Text} `{Resources} `{Registry}
  `{!Defaults}.

(** From [w] to [w'] nothing went out, or the one request that [apiCall]
    builds from this method, path and data. *)
Definition requests (c : client) (w w' : world) (method path data : string)
    : Prop :=
  sends w w' [] \/ sends w w' [request c method path data].

Lemma apiCall_requests c ctx method path data w :
  requests c w (snd (apiCall c ctx method path data w)) method path data.
Proof.
  pose proof (apiCall_wire c ctx method path data w) as Hreq.
  cbv zeta in Hreq. apply Hreq.
Qed.

Lemma path_variables key :
  Sprintf "variables/%s" [OStr key] = "variables/" +:+ key.
Proof. lazy -[String.append]. rewrite append_nil_r. reflexivity. Qed.

Lemma path_snippets ID :
  Sprintf "snippets/%d" [OInt ID] = "snippets/" +:+ Itoa ID.
Proof. lazy -[Itoa String.append]. rewrite append_nil_r. reflexivity. Qed.

Lemma path_alert_channels ID :
  Sprintf "alert-channels/%d" [OInt ID] = "alert-channels/" +:+ Itoa ID.
Proof. lazy -[Itoa String.append]. rewrite append_nil_r. reflexivity. Qed.

Lemma path_check_result checkID checkResultID :
  Sprintf "check-results/%s/%s" [OStr checkID; OStr checkResultID] =
  "check-results/" +:+ checkID +:+ "/" +:+ checkResultID.
Proof. lazy -[String.append]. rewrite append_nil_r. reflexivity. Qed.

Ltac after_call :=
  match goal with
  | |- context [apiCall ?c ?ctx ?m ?p ?d ?w] =>
      pose proof (apiCall_requests c ctx m p d w);
      destruct (apiCall c ctx m p d w) as [[[status res] [err|]] w1];
      cbn [fst snd] in *; [assumption|];
      repeat match goal with
             | |- context [if ?b then _ else _] => destruct b
             | |- context [Decode ?r] => destruct (Decode r)
             end; cbn [fst snd]; assumption
  end.

(** X11: the read and delete operations send at most one request, without
    a body, with the method and to the path of their resource; none of
    them appends the [autoAssignAlerts] flag. *)
Theorem endpoints_without_body (c : client) (ctx : Context) (w : world) :
  (forall ID, requests c w (snd (Get c ctx ID w))
                MethodGet ("checks/" +:+ ID) EmptyString) /\
  (forall ID, requests c w (snd (Delete c ctx ID w))
                MethodDelete ("checks/" +:+ ID) EmptyString) /\
  (forall ID, requests c w (snd (GetGroup c ctx ID w))
                MethodGet ("check-groups/" +:+ Itoa ID) EmptyString) /\
  (forall ID, requests c w (snd (DeleteGroup c ctx ID w))
                MethodDelete ("check-groups/" +:+ Itoa ID) EmptyString) /\
  (forall checkID checkResultID,
     requests c w (snd (GetCheckResult c ctx checkID checkResultID w))
       MethodGet ("check-results/" +:+ checkID +:+ "/" +:+ checkResultID)
       EmptyString) /\
  (forall checkID,
     requests c w (snd (GetCheckResults c ctx checkID None w))
       MethodGet ("check-results/" +:+ checkID) EmptyString) /\
  (forall ID, requests c w (snd (GetSnippet c ctx ID w))
                MethodGet ("snippets/" +:+ Itoa ID) EmptyString) /\
  (forall ID, requests c w (snd (DeleteSnippet c ctx ID w))
                MethodDelete ("snippets/" +:+ Itoa ID) EmptyString) /\
  (forall key, requests c w (snd (GetEnvironmentVariable c ctx key w))
                 MethodGet ("variables/" +:+ key) EmptyString) /\
  (forall key, requests c w (snd (DeleteEnvironmentVariable c ctx key w))
                 MethodDelete ("variables/" +:+ key) EmptyString) /\
  (forall ID, requests c w (snd (GetAlertChannel c ctx ID w))
                MethodGet ("alert-channels/" +:+ Itoa ID) EmptyString) /\
  (forall ID, requests c w (snd (DeleteAlertChannel c ctx ID w))
                MethodDelete ("alert-channels/" +:+ Itoa ID) EmptyString).
Proof.
  repeat split; intros;
    unfold Get, Delete, GetGroup, DeleteGroup, GetCheckResult, GetCheckResults,
      checkResultsURI, GetSnippet, DeleteSnippet, GetEnvironmentVariable,
      DeleteEnvironmentVariable, GetAlertChannel, DeleteAlertChannel;
    rewrite ?path_checks, ?path_check_groups, ?path_check_result,
      ?path_check_results, ?path_snippets, ?path_variables,
      ?path_alert_channels;
    after_call.
Qed.

(** The text [json.Marshal] writes for the payload of a channel. *)
Definition encoding (ac : AlertChannel) : string :=
  print (toJSON (VMap (payloadFromAlertChannel ac))).

(** X12: a write operation whose value cannot be marshalled returns the
    error of [json.Marshal] and touches nothing; otherwise it sends at most
    one request, whose body is the marshalled value; the payload of an
    alert channel can always be marshalled. *)
Theorem endpoints_with_body (c : client) (ctx : Context) (w : world) :
  (forall check,
     match Marshal check with
     | Err e => Create c ctx check w = (Err e, w)
     | OK data =>
         requests c w (snd (Create c ctx check w)) MethodPost
           "checks?autoAssignAlerts=false" data
     end) /\
  (forall group,
     match Marshal group with
     | Err e => CreateGroup c ctx group w = (Err e, w)
     | OK data =>
         requests c w (snd (CreateGroup c ctx group w)) MethodPost
           "check-groups?autoAssignAlerts=false" data
     end) /\
  (forall snippet,
     match Marshal snippet with
     | Err e => CreateSnippet c ctx snippet w = (Err e, w)
     | OK data =>
         requests c w (snd (CreateSnippet c ctx snippet w)) MethodPost
           "snippets" data
     end) /\
  (forall ID snippet,
     match Marshal snippet with
     | Err e => UpdateSnippet c ctx ID snippet w = (Err e, w)
     | OK data =>
         requests c w (snd (UpdateSnippet c ctx ID snippet w)) MethodPut
           ("snippets/" +:+ Itoa ID) data
     end) /\
  (forall envVar,
     match Marshal envVar with
     | Err e => CreateEnvironmentVariable c ctx envVar w = (Err e, w)
     | OK data =>
         requests c w (snd (CreateEnvironmentVariable c ctx envVar w))
           MethodPost "variables" data
     end) /\
  (forall key envVar,
     match Marshal envVar with
     | Err e => UpdateEnvironmentVariable c ctx key envVar w = (Err e, w)
     | OK data =>
         requests c w (snd (UpdateEnvironmentVariable c ctx key envVar w))
           MethodPut ("variables/" +:+ key) data
     end) /\
  (forall ac,
     requests c w (snd (CreateAlertChannel c ctx ac w)) MethodPost
       "alert-channels" (encoding ac)) /\
  (forall ID ac,
     requests c w (snd (UpdateAlertChannel c ctx ID ac w)) MethodPut
       ("alert-channels/" +:+ Itoa ID) (encoding ac)).
Proof.
  repeat split; intros;
    unfold Create, CreateGroup, CreateSnippet, UpdateSnippet,
      CreateEnvironmentVariable, UpdateEnvironmentVariable,
      CreateAlertChannel, UpdateAlertChannel, encoding;
    rewrite ?path_snippets, ?path_variables, ?path_alert_channels;
    change (withAutoAssignAlertsFlag "checks")
      with "checks?autoAssignAlerts=false";
    change (withAutoAssignAlertsFlag "check-groups")
      with "check-groups?autoAssignAlerts=false";
    cbn [Marshal map_codec MarshalAny];
    try match goal with
        | |- match Marshal ?x with _ => _ end => destruct (Marshal x)
        end;
    try reflexivity; after_call.
Qed.

(** X13: once the call is completed, a delete operation returns a nil
    error exactly when the status is 204; another status, such as 200, is
    an error. *)
Theorem delete_status (c : client) (ctx : Context) (w w' : world)
    (status : Z) (res : string) :
  (forall ID,
     apiCall c ctx MethodDelete (Sprintf "checks/%s" [OStr ID]) EmptyString w
       = (status, res, None, w') ->
     fst (Delete c ctx ID w) = None <-> status = 204) /\
  (forall ID,
     apiCall c ctx MethodDelete (Sprintf "check-groups/%d" [OInt ID])
       EmptyString w = (status, res, None, w') ->
     fst (DeleteGroup c ctx ID w) = None <-> status = 204) /\
  (forall ID,
     apiCall c ctx MethodDelete (Sprintf "snippets/%d" [OInt ID])
       EmptyString w = (status, res, None, w') ->
     fst (DeleteSnippet c ctx ID w) = None <-> status = 204) /\
  (forall key,
     apiCall c ctx MethodDelete (Sprintf "variables/%s" [OStr key])
       EmptyString w = (status, res, None, w') ->
     fst (DeleteEnvironmentVariable c ctx key w) = None <-> status = 204) /\
  (forall ID,
     apiCall c ctx MethodDelete (Sprintf "alert-channels/%d" [OInt ID])
       EmptyString w = (status, res, None, w') ->
     fst (DeleteAlertChannel c ctx ID w) = None <-> status = 204).
Proof.
  repeat match goal with |- _ /\ _ => split end; intros ID Hcall;
    unfold Delete, DeleteGroup, DeleteSnippet, DeleteEnvironmentVariable,
      DeleteAlertChannel;
    rewrite Hcall; unfold StatusNoContent;
    destruct (Z.eqb_spec status 204); cbn [negb fst];
    (split; intros Hs; [try discriminate; try assumption|try reflexivity; try contradiction]).
Qed.

(** X14: once the call is completed, a read or an update operation returns
    a value exactly when the status is 200 and the body decodes, and the
    value is then the decoded body; a 201 or a 204 is an error. *)
Theorem read_update_status (c : client) (ctx : Context) (w w' : world)
    (status : Z) (res : string) :
  (forall ID r,
     apiCall c ctx MethodGet (Sprintf "checks/%s" [OStr ID]) EmptyString w
       = (status, res, None, w') ->
     fst (Get c ctx ID w) = OK r <-> status = 200 /\ Decode res = OK r) /\
  (forall ID r,
     apiCall c ctx MethodGet (Sprintf "check-groups/%d" [OInt ID])
       EmptyString w = (status, res, None, w') ->
     fst (GetGroup c ctx ID w) = OK r <->
     status = 200 /\ Decode res = OK r) /\
  (forall checkID checkResultID r,
     apiCall c ctx MethodGet
       (Sprintf "check-results/%s/%s" [OStr checkID; OStr checkResultID])
       EmptyString w = (status, res, None, w') ->
     fst (GetCheckResult c ctx checkID checkResultID w) = OK r <->
     status = 200 /\ Decode res = OK r) /\
  (forall checkID filters r,
     apiCall c ctx MethodGet (checkResultsURI checkID filters) EmptyString w
       = (status, res, None, w') ->
     fst (GetCheckResults c ctx checkID filters w) = OK r <->
     status = 200 /\ Decode res = OK r) /\
  (forall ID r,
     apiCall c ctx MethodGet (Sprintf "snippets/%d" [OInt ID]) EmptyString w
       = (status, res, None, w') ->
     fst (GetSnippet c ctx ID w) = OK r <->
     status = 200 /\ Decode res = OK r) /\
  (forall key r,
     apiCall c ctx MethodGet (Sprintf "variables/%s" [OStr key]) EmptyString w
       = (status, res, None, w') ->
     fst (GetEnvironmentVariable c ctx key w) = OK r <->
     status = 200 /\ Decode res = OK r) /\
  (forall ID check data r,
     Marshal check = OK data ->
     apiCall c ctx MethodPut
       (withAutoAssignAlertsFlag (Sprintf "checks/%s" [OStr ID])) data w
       = (status, res, None, w') ->
     fst (Update c ctx ID check w) = OK r <->
     status = 200 /\ Decode res = OK r) /\
  (forall ID group data r,
     Marshal group = OK data ->
     apiCall c ctx MethodPut
       (withAutoAssignAlertsFlag (Sprintf "check-groups/%d" [OInt ID])) data w
       = (status, res, None, w') ->
     fst (UpdateGroup c ctx ID group w) = OK r <->
     status = 200 /\ Decode res = OK r) /\
  (forall ID snippet data r,
     Marshal snippet = OK data ->
     apiCall c ctx MethodPut (Sprintf "snippets/%d" [OInt ID]) data w
       = (status, res, None, w') ->
     fst (UpdateSnippet c ctx ID snippet w) = OK r <->
     status = 200 /\ Decode res = OK r) /\
  (forall key envVar data r,
     Marshal envVar = OK data ->
     apiCall c ctx MethodPut (Sprintf "variables/%s" [OStr key]) data w
       = (status, res, None, w') ->
     fst (UpdateEnvironmentVariable c ctx key envVar w) = OK r <->
     status = 200 /\ Decode res = OK r).
Proof.
  repeat match goal with |- _ /\ _ => split end; intros;
    unfold Get, GetGroup, GetCheckResult, GetCheckResults, GetSnippet,
      GetEnvironmentVariable, Update, UpdateGroup, UpdateSnippet,
      UpdateEnvironmentVariable;
    repeat match goal with
           | Hm : Marshal _ = OK _ |- _ => rewrite Hm; clear Hm
           | Hc : apiCall _ _ _ _ _ _ = _ |- _ => rewrite Hc; clear Hc
           end;
    unfold StatusOK; destruct (Z.eqb_spec status 200); cbn [negb fst];
    try (destruct (Decode res)); cbn [fst];
    (split; [intros Hs|intros [Hs Hd]]); try split; congruence.
Qed.

Lemma decoding_s_message res e :
  Errorf "decoding error for data %s: %v" [OStr res; OStr e] =
  "decoding error for data " +:+ res +:+ ": " +:+ e.
Proof.
  unfold Errorf. lazy -[String.append]. rewrite append_nil_r. reflexivity.
Qed.

Lemma decoding_q_message res e :
  Errorf "decoding error for data %q: %v" [OStr res; OStr e] =
  "decoding error for data " +:+ strconv.Quote res +:+ ": " +:+ e.
Proof.
  unfold Errorf. lazy -[strconv.Quote String.append].
  rewrite append_nil_r. reflexivity.
Qed.

Lemma GetAlertChannel_message res e :
  Errorf "GetAlertChannel: decoding error for data %q: %v"
    [OStr res; OStr e] =
  "GetAlertChannel: decoding error for data " +:+ strconv.Quote res +:+
  ": " +:+ e.
Proof.
  unfold Errorf. lazy -[strconv.Quote String.append].
  rewrite append_nil_r. reflexivity.
Qed.

(** X15: a body that arrives with the expected status and does not decode
    gives a decoding error that holds the error of the decoder and the
    body: verbatim for the operations on checks, quoted by [%q] for
    [GetGroup], and under the name of [GetAlertChannel] for that
    operation. *)
Theorem decoding_error (c : client) (ctx : Context) (w w' : world)
    (res : string) (e : error) :
  (forall check data,
     Marshal check = OK data ->
     apiCall c ctx MethodPost (withAutoAssignAlertsFlag "checks") data w
       = (201, res, None, w') ->
     (Decode res : result Check) = Err e ->
     exists msg,
       fst (Create c ctx check w) = Err msg /\
       msg = "decoding error for data " +:+ res +:+ ": " +:+ e /\
       Substring res msg /\ Substring e msg) /\
  (forall ID,
     apiCall c ctx MethodGet (Sprintf "checks/%s" [OStr ID]) EmptyString w
       = (200, res, None, w') ->
     (Decode res : result Check) = Err e ->
     exists msg,
       fst (Get c ctx ID w) = Err msg /\
       msg = "decoding error for data " +:+ res +:+ ": " +:+ e /\
       Substring res msg /\ Substring e msg) /\
  (forall ID,
     apiCall c ctx MethodGet (Sprintf "check-groups/%d" [OInt ID])
       EmptyString w = (200, res, None, w') ->
     (Decode res : result Group) = Err e ->
     exists msg,
       fst (GetGroup c ctx ID w) = Err msg /\
       msg = "decoding error for data " +:+ strconv.Quote res +:+ ": " +:+ e /\
       Substring (strconv.Quote res) msg /\ Substring e msg) /\
  (forall ID,
     apiCall c ctx MethodGet (Sprintf "alert-channels/%d" [OInt ID])
       EmptyString w = (200, res, None, w') ->
     (Decode res : result (gmap string any)) = Err e ->
     exists msg,
       fst (GetAlertChannel c ctx ID w) = Fail msg /\
       msg = "GetAlertChannel: decoding error for data " +:+
             strconv.Quote res +:+ ": " +:+ e /\
       Substring (strconv.Quote res) msg /\ Substring e msg).
Proof.
  repeat match goal with |- _ /\ _ => split end.
  - intros check data Hm Hcall Hdec. eexists. split; [|split; [reflexivity|]].
    + unfold Create. rewrite Hm, Hcall. cbn [negb Z.eqb fst].
      change (201 =? StatusCreated) with true. cbn [negb].
      rewrite Hdec, decoding_s_message. reflexivity.
    + split; [apply Substring_refl_mid|].
      do 3 apply Substring_app_r. apply Substring_refl.
  - intros ID Hcall Hdec. eexists. split; [|split; [reflexivity|]].
    + unfold Get. rewrite Hcall. change (200 =? StatusOK) with true.
      cbn [negb]. rewrite Hdec, decoding_s_message. reflexivity.
    + split; [apply Substring_refl_mid|].
      do 3 apply Substring_app_r. apply Substring_refl.
  - intros ID Hcall Hdec. eexists. split; [|split; [reflexivity|]].
    + unfold GetGroup. rewrite Hcall. change (200 =? StatusOK) with true.
      cbn [negb]. rewrite Hdec, decoding_q_message. reflexivity.
    + split; [apply Substring_refl_mid|].
      do 3 apply Substring_app_r. apply Substring_refl.
  - intros ID Hcall Hdec. eexists. split; [|split; [reflexivity|]].
    + unfold GetAlertChannel. rewrite Hcall.
      change (200 =? StatusOK) with true. cbn [negb].
      rewrite Hdec, GetAlertChannel_message. reflexivity.
    + split; [apply Substring_refl_mid|].
      do 3 apply Substring_app_r. apply Substring_refl.
Qed.

(** X16: when the server answers a create, an update or a read of an alert
    channel with the encoding of a channel on which the codec is the
    identity (the channel that was sent, or that channel with the
    identifier the server gave it, or any other), the operation returns
    the channel of the answer: with status 200 or 201 for a create, with
    status 200 for an update and a read. *)
Theorem alert_channel_echo (c : client) (ctx : Context) (w w' : world)
    (ID' : Z) (status : Z) (sent ac : AlertChannel)
    (parse : string -> result Cfg) (cfg : Cfg) :
  parsers !! Type_ ac = Some parse ->
  Config ac = Some cfg ->
  parse (print (toJSON (fromJSON (toJSON (flatten cfg))))) = OK cfg ->
  finite (toJSON (flatten cfg)) = true ->
  scan (encoding ac) = OK (toJSON (VMap (payloadFromAlertChannel ac))) ->
  - 2 ^ 53 <= ID ac <= 2 ^ 53 ->
  (forall t, SSLExpiryThreshold ac = Some t -> - 2 ^ 53 <= t <= 2 ^ 53) ->
  (status = 200 \/ status = 201 ->
   apiCall c ctx MethodPost "alert-channels" (encoding sent) w
     = (status, encoding ac, None, w') ->
   CreateAlertChannel c ctx sent w = (Ret ac, w')) /\
  (apiCall c ctx MethodPut (Sprintf "alert-channels/%d" [OInt ID'])
     (encoding sent) w = (200, encoding ac, None, w') ->
   UpdateAlertChannel c ctx ID' sent w = (Ret ac, w')) /\
  (apiCall c ctx MethodGet (Sprintf "alert-channels/%d" [OInt ID'])
     EmptyString w = (200, encoding ac, None, w') ->
   GetAlertChannel c ctx ID' w = (Ret ac, w')).
Proof.
  intros Hreg Hcfg Hparse Hfin Hscan Hid Hthr.
  pose proof (codec_more.reads_payload ac cfg Hcfg Hfin Hscan Hid Hthr) as Hr.
  assert (Hdec : alertChannelFromJSON (encoding ac) = Ret ac).
  { unfold encoding.
    rewrite (codec_facts.alertChannelFromJSON_reads _ _ Hr).
    apply (codec_more.fill_payload ac parse cfg); assumption. }
  repeat match goal with |- _ /\ _ => split end.
  - intros Hst Hcall. unfold CreateAlertChannel.
    cbn [Marshal map_codec MarshalAny]. fold (encoding sent). rewrite Hcall.
    destruct Hst as [-> | ->]; cbn [negb Z.eqb andb]; rewrite Hdec;
      reflexivity.
  - intros Hcall. unfold UpdateAlertChannel.
    cbn [Marshal map_codec MarshalAny]. fold (encoding sent). rewrite Hcall.
    change (200 =? StatusOK) with true. cbn [negb]. rewrite Hdec.
    reflexivity.
  - intros Hcall. unfold GetAlertChannel. rewrite Hcall.
    change (200 =? StatusOK) with true. cbn [negb].
    assert (Hd : Decode (encoding ac) =
                 OK (fromJSON <$> (toJSON <$> payloadFromAlertChannel ac)))
      by (apply Decode_reads, Hr).
    rewrite Hd, Hdec. reflexivity.
Qed.

End Operations.
End operations_facts.

(** ** More on the query builder *)

Module query_facts.
Import GoString fmt json http checkly.
Import GoString_facts client_facts.

(** The characters that [url.QueryEscape] lets through or writes: letters,
    digits, [-], [_], [.], [~], and the [+] and [%] of its escapes. *)
Definition querySafe (c : ascii) : bool :=
  negb (url.shouldEscape c) || (byte c =? 43) || (byte c =? 37).

Lemma QueryEscape_cons c s :
  url.QueryEscape (String c s) =
  (if byte c =? 32 then "+"
   else if url.shouldEscape c then "%" +:+ hex2 true (byte c)
   else String c EmptyString) +:+ url.QueryEscape s.
Proof. reflexivity. Qed.

Lemma escape_safe (c : ascii) :
  forallb querySafe
    (list_ascii_of_string
       (if byte c =? 32 then "+"
        else if url.shouldEscape c then "%" +:+ hex2 true (byte c)
        else String c EmptyString)) = true.
Proof. destruct c as [[] [] [] [] [] [] [] []]; vm_compute; reflexivity. Qed.

Lemma list_ascii_of_string_app (a b : string) :
  list_ascii_of_string (a +:+ b) =
  (list_ascii_of_string a ++ list_ascii_of_string b)%list.
Proof.
  induction a as [|x a IH]; [reflexivity|].
  rewrite append_cons. simpl. rewrite IH. reflexivity.
Qed.

Lemma QueryEscape_safe (s : string) :
  forallb querySafe (list_ascii_of_string (url.QueryEscape s)) = true.
Proof.
  induction s as [|c s IH]; [reflexivity|].
  rewrite QueryEscape_cons, list_ascii_of_string_app, forallb_app.
  rewrite escape_safe, IH. reflexivity.
Qed.

(** X17: an escaped value holds none of the characters that structure a
    URL: no [&], [=], [?], [#], [/] and no space; a location can therefore
    not add a parameter to the query of [GetCheckResults]. *)
Theorem QueryEscape_no_separator (s : string) (c : ascii) :
  In c (list_ascii_of_string "&=?#/ ") ->
  ~ In c (list_ascii_of_string (url.QueryEscape s)).
Proof.
  intros Hsep Hin.
  pose proof (QueryEscape_safe s) as Hsafe.
  rewrite forallb_forall in Hsafe. specialize (Hsafe c Hin).
  simpl in Hsep.
  destruct Hsep as [<-|[<-|[<-|[<-|[<-|[<-|[]]]]]]]; vm_compute in Hsafe;
    discriminate.
Qed.

(** The characters of a decimal integer. *)
Definition decimalChar (c : ascii) : bool :=
  strconv.between 48 57 (byte c) || (byte c =? 45).

Lemma string_of_uint_decimal (d : Decimal.uint) :
  forallb decimalChar (list_ascii_of_string (NilEmpty.string_of_uint d))
  = true.
Proof. induction d; simpl; try rewrite IHd; reflexivity. Qed.

Lemma Itoa_decimal (n : Z) :
  forallb decimalChar (list_ascii_of_string (Itoa n)) = true.
Proof.
  unfold Itoa, NilZero.string_of_int, NilZero.string_of_uint.
  destruct (Z.to_int n) as [d|d]; destruct d; simpl;
    try reflexivity; apply (string_of_uint_decimal d).
Qed.

Lemma QueryEscape_decimal (s : string) :
  forallb decimalChar (list_ascii_of_string s) = true ->
  url.QueryEscape s = s.
Proof.
  induction s as [|c s IH]; [reflexivity|]. simpl list_ascii_of_string.
  cbn [forallb]. intros [Hc Hs]%andb_prop.
  rewrite QueryEscape_cons, (IH Hs).
  revert Hc. destruct c as [[] [] [] [] [] [] [] []]; vm_compute;
    try discriminate; reflexivity.
Qed.

(** A query built by adding, in the order of [GetCheckResults], each of its
    seven parameters at most once. *)
Definition set (key : string) (v : option string) (q : url.Values)
    : url.Values :=
  match v with Some x => url.Add key x q | None => q end.

Definition opt (key : string) (v : option string) : list string :=
  match v with
  | Some x => [key +:+ "=" +:+ url.QueryEscape x]
  | None => []
  end.

Ltac lookups :=
  repeat match goal with
         | |- context [default [] (?m !! ?k)] =>
             let r := eval vm_compute in (m !! k) in
             replace (m !! k) with r by (vm_compute; reflexivity);
             cbv beta iota delta [default from_option]
         end.

Lemma Encode_set (page limit from to ct hf loc : option string) :
  url.Encode
    (set "location" loc (set "hasFailures" hf (set "checkType" ct
      (set "to" to (set "from" from (set "limit" limit
        (set "page" page ∅))))))) =
  url.join "&"
    (opt "checkType" ct ++ opt "from" from ++ opt "hasFailures" hf ++
     opt "limit" limit ++ opt "location" loc ++ opt "page" page ++
     opt "to" to)%list.
Proof.
  unfold url.Encode.
  destruct page, limit, from, to, ct, hf, loc;
    match goal with
    | |- context [url.sortedKeys ?m] =>
        let r := eval vm_compute in (url.sortedKeys m) in
        replace (url.sortedKeys m) with r by (vm_compute; reflexivity)
    end;
    cbv beta iota delta [mbind list_bind foldr];
    lookups;
    cbv beta iota delta [fmap list_fmap app opt];
    change (url.QueryEscape "checkType") with "checkType";
    change (url.QueryEscape "from") with "from";
    change (url.QueryEscape "hasFailures") with "hasFailures";
    change (url.QueryEscape "limit") with "limit";
    change (url.QueryEscape "location") with "location";
    change (url.QueryEscape "page") with "page";
    change (url.QueryEscape "to") with "to";
    reflexivity.
Qed.

Section Query.
Context `{strconv.Unicode} `{Lib} `{Text} `{Resources} `{Registry}.

Lemma Sprintf_d (n : Z) : Sprintf "%d" [OInt n] = Itoa n.
Proof. lazy -[Itoa String.append]. apply append_nil_r. Qed.

Definition param (key value : string) : list string :=
  [key +:+ "=" +:+ url.QueryEscape value].

Definition number (key : string) (n : Z) : list string :=
  if 0 <? n then [key +:+ "=" +:+ Itoa n] else [].

Lemma filterQuery_set (f : CheckResultsFilter) :
  filterQuery f =
  set "location"
    (if (0 <? String.length (Location f))%nat then Some (Location f)
     else None)
    (set "hasFailures" (if HasFailures f then Some "1" else None)
      (set "checkType"
        (if String.eqb (CheckType f) TypeBrowser ||
            String.eqb (CheckType f) TypeAPI
         then Some (CheckType f) else None)
        (set "to" (if 0 <? To f then Some (Itoa (To f)) else None)
          (set "from" (if 0 <? From f then Some (Itoa (From f)) else None)
            (set "limit"
              (if 0 <? Limit f then Some (Itoa (Limit f)) else None)
              (set "page"
                (if 0 <? Page f then Some (Itoa (Page f)) else None)
                ∅)))))).
Proof.
  unfold filterQuery. rewrite !Sprintf_d.
  destruct (0 <? Page f), (0 <? Limit f), (0 <? From f), (0 <? To f),
    (String.eqb (CheckType f) TypeBrowser || String.eqb (CheckType f) TypeAPI),
    (HasFailures f), (0 <? String.length (Location f))%nat;
    reflexivity.
Qed.

(** X18: the query string of a filter lists, in the alphabetical order of
    their names and joined by [&], the check type when it is one of the
    two constants, the positive numbers among [from], [limit], [page] and
    [to] in decimal, [hasFailures=1] when the flag is set, and the escaped
    location when it is not empty; a field that is zero, negative, empty
    or outside the enumeration is left out. *)
Theorem filterQuery_encoding (f : CheckResultsFilter) :
  url.Encode (filterQuery f) =
  url.join "&"
    ((if String.eqb (CheckType f) TypeBrowser ||
         String.eqb (CheckType f) TypeAPI
      then param "checkType" (CheckType f) else []) ++
     number "from" (From f) ++
     (if HasFailures f then ["hasFailures=1"] else []) ++
     number "limit" (Limit f) ++
     (if (0 <? String.length (Location f))%nat
      then param "location" (Location f) else []) ++
     number "page" (Page f) ++
     number "to" (To f))%list.
Proof.
  rewrite filterQuery_set, Encode_set. unfold number, param.
  assert (Hnum : forall n, url.QueryEscape (Itoa n) = Itoa n)
    by (intros n; apply QueryEscape_decimal, Itoa_decimal).
  destruct (0 <? Page f), (0 <? Limit f), (0 <? From f), (0 <? To f),
    (String.eqb (CheckType f) TypeBrowser || String.eqb (CheckType f) TypeAPI),
    (HasFailures f), (0 <? String.length (Location f))%nat;
    cbv beta iota delta [opt]; rewrite ?Hnum; reflexivity.
Qed.

End Query.
End query_facts.

(** ** The paths of the update operations *)

Module routing_facts.
Import GoString fmt json http checkly checkly_rest.
Import GoString_facts client_facts transport_facts operations_facts
  query_facts.

Definition question : ascii := "?"%char.

Lemma Itoa_no_question (n : Z) :
  ~ In question (list_ascii_of_string (Itoa n)).
Proof.
  intros Hin. pose proof (Itoa_decimal n) as Hdec.
  rewrite forallb_forall in Hdec. specialize (Hdec _ Hin). discriminate.
Qed.

Section Routing.
Context `{strconv.Unicode} `{Lib} `{Text} `{Resources} `{Registry}.

Ltac after_update :=
  match goal with
  | |- context [apiCall ?c ?ctx ?m ?p ?d ?w] =>
      pose proof (apiCall_requests c ctx m p d w);
      destruct (apiCall c ctx m p d w) as [[[status res] [err|]] w1];
      cbn [fst snd] in *; [assumption|];
      repeat match goal with
             | |- context [if ?b then _ else _] => destruct b
             | |- context [Decode ?r] => destruct (Decode r)
             end; cbn [fst snd]; assumption
  end.

(** X19: an update sends at most one PUT request with the marshalled value
    as its body.  For a group the path is always
    [check-groups/<n>?autoAssignAlerts=false], since a decimal number holds
    no [?].  For a check the identifier goes into the path as it is: when
    it holds no [?] the flag is the query of the path, and when it holds
    one the flag is appended with [&] to the query that the identifier
    opened. *)
Theorem update_endpoints (c : client) (ctx : Context) (w : world) :
  (forall ID group data,
     Marshal group = OK data ->
     requests c w (snd (UpdateGroup c ctx ID group w)) MethodPut
       ("check-groups/" +:+ Itoa ID +:+ "?autoAssignAlerts=false") data) /\
  (forall ID check data,
     Marshal check = OK data ->
     ~ In question (list_ascii_of_string ID) ->
     requests c w (snd (Update c ctx ID check w)) MethodPut
       ("checks/" +:+ ID +:+ "?autoAssignAlerts=false") data) /\
  (forall ID check data,
     Marshal check = OK data ->
     In question (list_ascii_of_string ID) ->
     requests c w (snd (Update c ctx ID check w)) MethodPut
       ("checks/" +:+ ID +:+ "&autoAssignAlerts=false") data).
Proof.
  split; [|split].
  - intros ID group data Hm. unfold UpdateGroup.
    rewrite Hm, path_check_groups, withAutoAssignAlertsFlag_plain.
    + rewrite append_assoc. after_update.
    + rewrite list_ascii_of_string_app, in_app_iff.
      intros [Hin|Hin]; [|exact (Itoa_no_question ID Hin)].
      simpl in Hin. unfold question in Hin. intuition discriminate.
  - intros ID check data Hm Hq. unfold Update.
    rewrite Hm, path_checks, withAutoAssignAlertsFlag_plain.
    + rewrite append_assoc. after_update.
    + rewrite list_ascii_of_string_app, in_app_iff.
      intros [Hin|Hin]; [|exact (Hq Hin)].
      simpl in Hin. unfold question in Hin. intuition discriminate.
  - intros ID check data Hm Hq. unfold Update.
    rewrite Hm, path_checks, withAutoAssignAlertsFlag_query.
    + rewrite append_assoc. after_update.
    + rewrite list_ascii_of_string_app, in_app_iff. right. exact Hq.
Qed.

End Routing.
End routing_facts.

(** ** More of the theorems at work on the example environment *)

Module more_instances.
Import GoString fmt json http checkly checkly_rest Example instances.
Import GoString_facts json_facts codec_typing client_facts transport_facts
  codec_more
  operations_facts query_facts routing_facts.

(** Further texts: a member the decoder does not know, an identifier and
    a threshold that are strings, and an array. *)
Definition moreTexts : list (string * document) :=
  [ (text "{'name':'ops','type':'EMAIL'}",
     JObject {[ "name" := JString "ops"; "type" := JString "EMAIL" ]});
    (text "{'id':'abc','type':'EMAIL'}",
     JObject {[ "id" := JString "abc"; "type" := JString "EMAIL" ]});
    (text "{'id':7,'sslExpiryThreshold':'abc','type':'EMAIL'}",
     JObject {[ "id" := JNumber 7 0; "sslExpiryThreshold" := JString "abc";
                "type" := JString "EMAIL" ]});
    (text "{'id':7,'type':'EMAIL'}",
     JObject {[ "id" := JNumber 7 0; "type" := JString "EMAIL" ]});
    ("[1]", JArray [JNumber 1 0]) ] ++ texts.

Definition moreText : Text := {|
  scan := fun s => lookupText s moreTexts;
  print := printDocument;
  UnmarshalTypeError := fun _ => "json: cannot unmarshal value into Go value"
|}.

Definition defaults : @Defaults lib resources := {|
  DefaultClient := fun _ _ => Err "no such host";
  CheckResult_json := (asText : Codec (@CheckResult resources))
|}.

(** A client whose server cannot be reached. *)
Definition down : @client lib := {|
  apiKey := "secret";
  url := "https://api.example.com";
  httpClient := fun _ _ => Err "connection refused";
  debug := false
|}.

Section Instances.
#[local] Existing Instances unicode lib moreText resources registry defaults.


Definition aSnippet : Snippet := "snippet".

Definition body : string := "body".

Lemma apiCall_failed_witness :
  let req := request down MethodGet "checks/c1" EmptyString in
  let w' := snd (apiCall down tt MethodGet "checks/c1" EmptyString start) in
  let err := Errorf "HTTP request failed with: %v" [OStr "connection refused"] in
  EmptyString = EmptyString /\
  ((exists e, NewRequestError MethodGet (url down +:+ "/v1/" +:+ "checks/c1")
                = Some e /\
              err = Errorf "failed to create HTTP request: %v" [OStr e] /\
              0 = 0 /\ w' = start) \/
   (exists e, debug down = true /\ DumpRequestOut req = Err e /\
              err = Errorf "error dumping HTTP request: %v" [OStr e] /\
              0 = 0 /\ w' = start) \/
   (exists e, httpClient down tt req = Err e /\
              err = Errorf "HTTP request failed with: %v" [OStr e] /\
              0 = 0 /\ sends start w' [req]) \/
   (exists resp e, httpClient down tt req = OK resp /\ ReadAll resp = Err e /\
                   err = Errorf "HTTP request failed: %v" [OStr e] /\
                   0 = StatusCode resp /\ sends start w' [req])).
Proof.
  intros req w' err.
  apply (apiCall_failed down tt MethodGet "checks/c1" EmptyString start w' 0
           EmptyString err).
  vm_compute. reflexivity.
Defined.

Lemma decode_encode_identity_witness :
  exists data,
    Marshal (payloadFromAlertChannel channel) = OK data /\
    alertChannelFromJSON data = Ret channel.
Proof.
  apply (decode_encode_identity channel parseEmail address).
  - reflexivity.
  - reflexivity.
  - vm_compute. reflexivity.
  - vm_compute. reflexivity.
  - vm_compute. reflexivity.
  - simpl. lia.
  - intros t [= <-]. lia.
Defined.



Lemma alertChannelFromJSON_not_an_object_witness :
  exists err msg,
    alertChannelFromJSON "[1]" = Fail msg /\
    msg = "UpdateAlertChannel: decoding error for data Res(" +:+ "[1]" +:+
          "), Err(" +:+ err +:+ ")" /\
    Substring "[1]" msg.
Proof.
  apply (alertChannelFromJSON_not_an_object "[1]").
  - intros o Ho. vm_compute in Ho. discriminate.
  - intros Ho. vm_compute in Ho. discriminate.
Defined.


Lemma delete_status_witness :
  fst (Delete (server 200 EmptyString) tt "c1" start) <> None /\
  fst (DeleteAlertChannel (server 204 "deleted") tt 5 start) = None.
Proof.
  split.
  - destruct (delete_status (server 200 EmptyString) tt start
                (snd (Delete (server 200 EmptyString) tt "c1" start))
                200 EmptyString) as (Hd & _).
    intros Hnil. apply (Hd "c1") in Hnil; [discriminate|].
    vm_compute. reflexivity.
  - destruct (delete_status (server 204 "deleted") tt start
                (snd (DeleteAlertChannel (server 204 "deleted") tt 5 start))
                204 "deleted") as (_ & _ & _ & _ & Hd).
    apply (Hd 5); [vm_compute|]; reflexivity.
Defined.

Lemma read_update_status_witness :
  fst (Get (server 200 body) tt "c1" start) = OK body /\
  fst (UpdateSnippet (server 201 body) tt 5 aSnippet start) <> OK body.
Proof.
  split.
  - destruct (read_update_status (server 200 body) tt start
                (snd (Get (server 200 body) tt "c1" start)) 200 body)
      as (Hg & _).
    apply (Hg "c1" body); [vm_compute; reflexivity|].
    split; reflexivity.
  - destruct (read_update_status (server 201 body) tt start
                (snd (UpdateSnippet (server 201 body) tt 5 aSnippet start))
                201 body)
      as (_ & _ & _ & _ & _ & _ & _ & _ & Hu & _).
    intros Hok.
    apply (Hu 5 aSnippet "snippet" body) in Hok;
      [destruct Hok; discriminate|reflexivity|vm_compute; reflexivity].
Defined.

Lemma decoding_error_witness :
  exists msg,
    fst (GetAlertChannel (server 200 "oops") tt 5 start) = Fail msg /\
    msg = "GetAlertChannel: decoding error for data " +:+
          strconv.Quote "oops" +:+ ": " +:+
          "invalid character looking for beginning of value" /\
    Substring (strconv.Quote "oops") msg /\
    Substring "invalid character looking for beginning of value" msg.
Proof.
  destruct (decoding_error (server 200 "oops") tt start
              (snd (GetAlertChannel (server 200 "oops") tt 5 start)) "oops"
              "invalid character looking for beginning of value")
    as (_ & _ & _ & Hg).
  apply (Hg 5); vm_compute; reflexivity.
Defined.

(** The channel before the server has given it an identifier. *)
Definition draft : AlertChannel := setID 0 channel.

Lemma alert_channel_echo_witness :
  fst (CreateAlertChannel (server 201 (encoding channel)) tt draft start)
    = Ret channel /\
  fst (UpdateAlertChannel (server 200 (encoding channel)) tt 7 draft start)
    = Ret channel /\
  fst (GetAlertChannel (server 200 (encoding channel)) tt 7 start)
    = Ret channel.
Proof.
  assert (Hecho : forall c w' status,
            (status = 200 \/ status = 201 ->
             apiCall c tt MethodPost "alert-channels" (encoding draft) start
               = (status, encoding channel, None, w') ->
             CreateAlertChannel c tt draft start = (Ret channel, w')) /\
            (apiCall c tt MethodPut (Sprintf "alert-channels/%d" [OInt 7])
               (encoding draft) start = (200, encoding channel, None, w') ->
             UpdateAlertChannel c tt 7 draft start = (Ret channel, w')) /\
            (apiCall c tt MethodGet (Sprintf "alert-channels/%d" [OInt 7])
               EmptyString start = (200, encoding channel, None, w') ->
             GetAlertChannel c tt 7 start = (Ret channel, w'))).
  { intros c w' status.
    apply (alert_channel_echo c tt start w' 7 status draft channel parseEmail
             address).
    - reflexivity.
    - reflexivity.
    - vm_compute. reflexivity.
    - vm_compute. reflexivity.
    - vm_compute. reflexivity.
    - simpl. lia.
    - intros t [= <-]. lia. }
  split; [|split].
  - destruct (Hecho (server 201 (encoding channel))
                (snd (CreateAlertChannel (server 201 (encoding channel)) tt
                        draft start)) 201) as (Hc & _).
    rewrite Hc; [reflexivity|right; reflexivity|vm_compute; reflexivity].
  - destruct (Hecho (server 200 (encoding channel))
                (snd (UpdateAlertChannel (server 200 (encoding channel)) tt 7
                        draft start)) 200) as (_ & Hu & _).
    rewrite Hu; [reflexivity|vm_compute; reflexivity].
  - destruct (Hecho (server 200 (encoding channel))
                (snd (GetAlertChannel (server 200 (encoding channel)) tt 7
                        start)) 200) as (_ & _ & Hg).
    rewrite Hg; [reflexivity|vm_compute; reflexivity].
Defined.

Lemma QueryEscape_no_separator_witness :
  ~ In "&"%char (list_ascii_of_string (url.QueryEscape "eu&page=9")).
Proof.
  apply (QueryEscape_no_separator "eu&page=9" "&"%char). simpl. tauto.
Defined.

Lemma update_endpoints_witness :
  requests (server 200 "ok") start
    (snd (UpdateGroup (server 200 "ok") tt 12 aGroup start)) MethodPut
    ("check-groups/" +:+ Itoa 12 +:+ "?autoAssignAlerts=false") "group" /\
  requests (server 200 "ok") start
    (snd (Update (server 200 "ok") tt "c1?x=1" aCheck start)) MethodPut
    ("checks/" +:+ "c1?x=1" +:+ "&autoAssignAlerts=false") "check".
Proof.
  destruct (update_endpoints (server 200 "ok") tt start) as (Hg & _ & Hq).
  split.
  - apply (Hg 12 aGroup "group"). reflexivity.
  - apply (Hq "c1?x=1" aCheck "check"); [reflexivity|].
    unfold question. simpl. tauto.
Defined.

End Instances.
End more_instances.
